(** * prototype.py: a four-stage pipeline over a PDF with file-based caching

    The program rasterises a PDF, sends every page to a chat-completion
    service, asks the service for the main theorem, for a proof of it and
    for a validation of that proof, and keeps each of the four texts in a
    file of the output directory; a stage whose file is already there is
    read back instead of being computed.

    The embedding is shallow.  The program's functions are functions into
    a state-and-exception monad [io] over a [world] made of a file system
    and a trace of the effects performed so far (directory creation,
    rasterisation, service calls, file reads and writes, printed lines).
    The collaborators that live outside the source (the PDF renderer and
    the chat-completion client) are the two fields of an [env].

    Conventions of the model:
    - the bytes of a file are a [string]; a Python [str] is the [string]
      of the bytes of its UTF-8 encoding, and a [str] that has none (it
      holds a lone surrogate) is a [string] that is not UTF-8.  A file
      opened with [encoding="utf-8"] is written and read in text mode as
      on a POSIX system: writing encodes and leaves newlines alone,
      reading decodes and turns every "\r\n" and "\r" into "\n";
    - the values the program handles are a [str] or [None] ([value]);
    - a path is resolved to its list of components; a path that ends in
      a slash names a directory only; "." and ".." and symbolic links are
      not interpreted, and a map in which an entry lies below a regular
      file or below nothing stands for no file system;
    - [OpenAI()] yields the client of the [env]; [argparse] yields the
      record [cli_args]; the standard output takes every line;
    - permissions, quotas and other programs at work on the same files
      are not modelled: an operation on a file fails only for the shape
      of its path and of the file system, or for the text it handles. *)

From stdpp Require Import gmap strings list pretty.
From Stdlib Require Import Ascii.
From Stdlib Require QArith.

(** ** Paths: [os.path.join] and path resolution *)

Module Path.

Definition is_slash (c : ascii) : bool := bool_decide (c = "/"%char).

Definition startswith_slash (s : string) : bool :=
  match s with
  | String c _ => is_slash c
  | EmptyString => false
  end.

Fixpoint endswith_slash (s : string) : bool :=
  match s with
  | EmptyString => false
  | String c EmptyString => is_slash c
  | String _ s' => endswith_slash s'
  end.

(** [posixpath.join a b] for two arguments. *)
Definition join (a b : string) : string :=
  if startswith_slash b then b
  else if bool_decide (a = "") || endswith_slash a then a +:+ b
  else a +:+ "/" +:+ b.

(** The components of a path between slashes; empty components (doubled
    or trailing slashes) are dropped.  [acc] is the component being
    read. *)
Fixpoint components (acc : string) (s : string) : list string :=
  match s with
  | EmptyString => if bool_decide (acc = "") then [] else [acc]
  | String c s' =>
      if is_slash c
      then (if bool_decide (acc = "") then components "" s'
            else acc :: components "" s')
      else components (acc +:+ String c "") s'
  end.

(** A resolved path: the components, after ["/"] for an absolute path.
    The empty list is the current directory. *)
Definition resolve (s : string) : list string :=
  (if startswith_slash s then ["/"] else []) ++ components "" s.

Fixpoint slash_free (s : string) : bool :=
  match s with
  | EmptyString => true
  | String c s' => negb (is_slash c) && slash_free s'
  end.

(** A plain file name: not empty, no slash. *)
Definition is_name (s : string) : bool :=
  negb (bool_decide (s = "")) && slash_free s.

End Path.

(** ** Text mode *)

Module Text.

Definition cr : ascii := ascii_of_nat 13.
Definition lf : ascii := ascii_of_nat 10.

(** What reading with [newline=None] makes of the decoded text: every
    "\r\n" and every other "\r" becomes "\n". *)
Fixpoint universal_newlines (s : string) : string :=
  match s with
  | EmptyString => EmptyString
  | String c s' =>
      if bool_decide (c = cr) then
        String lf
          match s' with
          | String c' s'' =>
              if bool_decide (c' = lf) then universal_newlines s''
              else universal_newlines s'
          | EmptyString => EmptyString
          end
      else String c (universal_newlines s')
  end.

(** The text holds no carriage return. *)
Fixpoint cr_free (s : string) : bool :=
  match s with
  | EmptyString => true
  | String c s' => negb (bool_decide (c = cr)) && cr_free s'
  end.

(** [between lo hi c]: the byte [c] lies in [lo..hi]. *)
Definition between (lo hi : N) (c : ascii) : bool :=
  (lo <=? N_of_ascii c)%N && (N_of_ascii c <=? hi)%N.

(** The range of the second byte of a sequence of three or of four
    bytes, given the first: no overlong form, no surrogate, nothing
    above U+10FFFF. *)
Definition second_of_three (b0 b1 : ascii) : bool :=
  if between 224 224 b0 then between 160 191 b1
  else if between 237 237 b0 then between 128 159 b1
  else between 128 191 b1.

Definition second_of_four (b0 b1 : ascii) : bool :=
  if between 240 240 b0 then between 144 191 b1
  else if between 244 244 b0 then between 128 143 b1
  else between 128 191 b1.

(** The bytes are well-formed UTF-8: what the strict ["utf-8"] codec
    decodes, and the encodings of the [str]s it encodes. *)
Fixpoint utf8_valid (s : string) : bool :=
  match s with
  | EmptyString => true
  | String b0 s1 =>
      if between 0 127 b0 then utf8_valid s1
      else
        match s1 with
        | EmptyString => false
        | String b1 s2 =>
            if between 194 223 b0 then between 128 191 b1 && utf8_valid s2
            else
              match s2 with
              | EmptyString => false
              | String b2 s3 =>
                  if between 224 239 b0 then
                    second_of_three b0 b1 && between 128 191 b2
                    && utf8_valid s3
                  else
                    match s3 with
                    | EmptyString => false
                    | String b3 s4 =>
                        between 240 244 b0 && second_of_four b0 b1
                        && between 128 191 b2 && between 128 191 b3
                        && utf8_valid s4
                    end
              end
        end
  end.

(** [f.read()] on the bytes of a file: the text, or [None] when the
    bytes are not UTF-8 ([UnicodeDecodeError]). *)
Definition decode (bytes : string) : option string :=
  if utf8_valid bytes then Some (universal_newlines bytes) else None.

End Text.

(** ** The file system *)

Inductive node :=
| Dir
| File (content : string).

(** The exceptions: [DocumentError] for those of the renderer,
    [ServiceError] for those of a call to the client, the [OSError]s of
    the file system operations, and the errors of Python's own
    operations on values and texts. *)
Inductive exn :=
| DocumentError
| ServiceError
| FileExistsError
| FileNotFoundError
| IsADirectoryError
| NotADirectoryError
| TypeError
| UnicodeDecodeError
| UnicodeEncodeError.

Inductive result (A : Type) :=
| Ok (a : A)
| Raise (e : exn).
Arguments Ok {A} a.
Arguments Raise {A} e.

Module FS.

(** A file system maps the resolved path of a node to the node.  The
    current directory and the root are always there. *)
Definition lookup_path (fs : gmap (list string) node) (p : list string)
  : option node :=
  if bool_decide (p = [] ∨ p = ["/"]) then Some Dir else fs !! p.

(** The node a path names: none for the empty string, and none for a
    regular file followed by a slash. *)
Definition stat (s : string) (fs : gmap (list string) node) : option node :=
  if bool_decide (s = "") then None
  else match lookup_path fs (Path.resolve s) with
       | Some (File c) => if Path.endswith_slash s then None else Some (File c)
       | Some Dir => Some Dir
       | None => None
       end.

(** [os.path.exists]. *)
Definition path_exists (s : string) (fs : gmap (list string) node) : bool :=
  bool_decide (is_Some (stat s fs)).

Definition is_dir (s : string) (fs : gmap (list string) node) : bool :=
  match stat s fs with
  | Some Dir => true
  | _ => false
  end.

(** The bytes of the regular file at a path, if there is one. *)
Definition file_at (s : string) (fs : gmap (list string) node)
  : option string :=
  match stat s fs with
  | Some (File c) => Some c
  | _ => None
  end.

(** The text of the regular file at a path, if there is one and it is
    UTF-8. *)
Definition text_at (s : string) (fs : gmap (list string) node)
  : option string :=
  match file_at s fs with
  | Some c => Text.decode c
  | None => None
  end.

(** Some directory on the way to [pre ++ rest], from [pre] on and short
    of the last component, is a regular file. *)
Fixpoint through_file (pre rest : list string) (fs : gmap (list string) node)
  : bool :=
  match rest with
  | [] => false
  | c :: rest' =>
      match lookup_path fs pre with
      | Some (File _) => true
      | _ => through_file (pre ++ [c]) rest' fs
      end
  end.

(** The error for a path that names nothing. *)
Definition missing (p : list string) (fs : gmap (list string) node) : exn :=
  if through_file [] p fs then NotADirectoryError else FileNotFoundError.

(** [os.makedirs] below the prefix [pre]: every missing directory on the
    way is created; a regular file on the way is an error. *)
Fixpoint mkdirs (pre rest : list string) (fs : gmap (list string) node)
  : result (gmap (list string) node) :=
  match rest with
  | [] => Ok fs
  | c :: rest' =>
      let p := pre ++ [c] in
      match lookup_path fs p with
      | Some (File _) => Raise NotADirectoryError
      | Some Dir => mkdirs p rest' fs
      | None => mkdirs p rest' (<[p:=Dir]> fs)
      end
  end.

(** [os.makedirs(s)] with [exist_ok=False]: [mkdir] refuses a name that
    is taken, be it by a regular file and with a slash after it. *)
Definition makedirs (s : string) (fs : gmap (list string) node)
  : result (gmap (list string) node) :=
  if bool_decide (s = "") then Raise FileNotFoundError
  else if bool_decide (is_Some (lookup_path fs (Path.resolve s)))
       then Raise FileExistsError
  else mkdirs [] (Path.resolve s) fs.

(** [open(s, "w")] followed by the writing of the bytes [bytes]: the
    target must not be a directory, the parent must be one, and the name
    must not end in a slash; the file is created or replaced. *)
Definition write (s bytes : string) (fs : gmap (list string) node)
  : result (gmap (list string) node) :=
  if bool_decide (s = "") then Raise FileNotFoundError
  else
    let p := Path.resolve s in
    match lookup_path fs p with
    | Some Dir => Raise IsADirectoryError
    | _ =>
        match lookup_path fs (removelast p) with
        | Some Dir =>
            if Path.endswith_slash s then Raise IsADirectoryError
            else Ok (<[p:=File bytes]> fs)
        | Some (File _) => Raise NotADirectoryError
        | None => Raise (missing (removelast p) fs)
        end
    end.

(** [open(s, "r", encoding="utf-8").read()]. *)
Definition read (s : string) (fs : gmap (list string) node)
  : result string :=
  if bool_decide (s = "") then Raise FileNotFoundError
  else match lookup_path fs (Path.resolve s) with
       | Some (File c) =>
           if Path.endswith_slash s then Raise NotADirectoryError
           else match Text.decode c with
                | Some text => Ok text
                | None => Raise UnicodeDecodeError
                end
       | Some Dir => Raise IsADirectoryError
       | None => Raise (missing (Path.resolve s) fs)
       end.

End FS.

(** ** Requests to the chat-completion service *)

Inductive content_part :=
| TextPart (text : string)
| ImageUrlPart (url : string).

Inductive message_content :=
| Text (text : string)
| Parts (parts : list content_part).

Record message := { role : string; content : message_content }.

Record request := {
  model : string;
  messages : list message;
  temperature : QArith_base.Q
}.

(** A rendered page, kept as the PNG bytes [image.save(buf, format="PNG")]
    writes for it. *)
Record image := { png : string }.

(** A value of the program: a [str] or [None]. *)
Inductive value :=
| PyStr (text : string)
| PyNone.

(** [str(v)], as [print] shows a value. *)
Definition py_str (v : value) : string :=
  match v with
  | PyStr text => text
  | PyNone => "None"
  end.

(** ** Effects *)

(** [EvWrite path v] is [open(path, "w")] with [f.write(v)]. *)
Inductive event :=
| EvMakedirs (path : string)
| EvConvert (pdf_path : string)
| EvCreate (req : request)
| EvRead (path : string)
| EvWrite (path : string) (v : value)
| EvPrint (line : string).

Record world := {
  fs : gmap (list string) node;
  trace : list event
}.

(** The requests made so far, oldest first. *)
Fixpoint requests (tr : list event) : list request :=
  match tr with
  | [] => []
  | EvCreate r :: tr' => r :: requests tr'
  | _ :: tr' => requests tr'
  end.

(** The collaborators: [render] is what the renderer makes of the bytes
    of a document ([None] when they are not a valid document), [create]
    is [client.chat.completions.create] followed by
    [.choices[0].message.content]: given the requests made before and the
    present one, the content of the completion, a [str] or [None]; the
    result is [None] when the call raises. *)
Record env := {
  render : string → option (list image);
  create : list request → request → option value
}.

Definition io (A : Type) : Type := world → result A * world.

Definition ret {A : Type} (a : A) : io A := λ w, (Ok a, w).

Definition raise {A : Type} (e : exn) : io A := λ w, (Raise e, w).

(** Sequencing: an exception ends the computation and keeps the world
    reached so far. *)
Definition bind {A B : Type} (m : io A) (k : A → io B) : io B :=
  λ w, match m w with
       | (Ok a, w') => k a w'
       | (Raise e, w') => (Raise e, w')
       end.

Declare Scope io_scope.
Delimit Scope io_scope with io.
Bind Scope io_scope with io.
Notation "x <- m ;; k" := (bind m (λ x, k))
  (at level 100, m at next level, k at level 200, right associativity)
  : io_scope.
Notation "m ;; k" := (bind m (λ _, k))
  (at level 100, k at level 200, right associativity) : io_scope.
Open Scope io_scope.

Definition log (ev : event) (w : world) : world :=
  {| fs := fs w; trace := trace w ++ [ev] |}.

Definition print (line : string) : io unit :=
  λ w, (Ok tt, log (EvPrint line) w).

Definition os_path_exists (path : string) : io bool :=
  λ w, (Ok (FS.path_exists path (fs w)), w).

Definition os_makedirs (path : string) : io unit :=
  λ w, match FS.makedirs path (fs w) with
       | Ok fs' => (Ok tt, {| fs := fs'; trace := trace w ++ [EvMakedirs path] |})
       | Raise e => (Raise e, log (EvMakedirs path) w)
       end.

(** The operand of a [+] with a [str]: [None] raises [TypeError]. *)
Definition operand (v : value) : io string :=
  match v with
  | PyStr text => ret text
  | PyNone => raise TypeError
  end.

(** The bytes [f.write(v)] hands to a file opened with
    [encoding="utf-8"]: [None] is no [str], and a [str] with a lone
    surrogate has no encoding. *)
Definition encode (v : value) : result string :=
  match v with
  | PyStr text =>
      if Text.utf8_valid text then Ok text else Raise UnicodeEncodeError
  | PyNone => Raise TypeError
  end.

(** [with open(path, "w", encoding="utf-8") as f: f.write(v)]: opening
    creates the file or empties it, and it stays so when the write
    raises. *)
Definition open_write (path : string) (v : value) : io unit :=
  λ w, match FS.write path "" (fs w) with
       | Ok fs0 =>
           match encode v with
           | Ok bytes =>
               (Ok tt, {| fs := <[Path.resolve path := File bytes]> fs0;
                          trace := trace w ++ [EvWrite path v] |})
           | Raise e =>
               (Raise e, {| fs := fs0; trace := trace w ++ [EvWrite path v] |})
           end
       | Raise e => (Raise e, log (EvWrite path v) w)
       end.

(** [with open(path, "r", encoding="utf-8") as f: f.read()]. *)
Definition open_read (path : string) : io string :=
  λ w, match FS.read path (fs w) with
       | Ok text => (Ok text, log (EvRead path) w)
       | Raise e => (Raise e, log (EvRead path) w)
       end.

(** [convert_from_path]: the pages of the document at [pdf_path]. *)
Definition convert_from_path (e : env) (pdf_path : string) : io (list image) :=
  λ w, match FS.file_at pdf_path (fs w) with
       | Some bytes =>
           match render e bytes with
           | Some images => (Ok images, log (EvConvert pdf_path) w)
           | None => (Raise DocumentError, log (EvConvert pdf_path) w)
           end
       | None => (Raise DocumentError, log (EvConvert pdf_path) w)
       end.

(** One synchronous call to the service, and the content of its first
    choice. *)
Definition chat_completions_create (e : env) (req : request) : io value :=
  λ w, match create e (requests (trace w)) req with
       | Some v => (Ok v, log (EvCreate req) w)
       | None => (Raise ServiceError, log (EvCreate req) w)
       end.

(** ** The program *)

Definition LF : string := String (ascii_of_nat 10) "".

(** [base64.b64encode(data).decode('utf-8')]. *)
Definition b64_table : string :=
  "ABCDEFGHIJKLMNOPQRSTUVWXYZabcdefghijklmnopqrstuvwxyz0123456789+/".

Definition b64_digit (n : N) : ascii :=
  match String.get (N.to_nat (n `mod` 64)%N) b64_table with
  | Some c => c
  | None => "="%char
  end.

Fixpoint b64encode (data : string) : string :=
  match data with
  | EmptyString => ""
  | String a EmptyString =>
      let n := (N_of_ascii a * 65536)%N in
      String (b64_digit (n / 262144)) (String (b64_digit (n / 4096)) "==")
  | String a (String b EmptyString) =>
      let n := (N_of_ascii a * 65536 + N_of_ascii b * 256)%N in
      String (b64_digit (n / 262144)) (String (b64_digit (n / 4096))
        (String (b64_digit (n / 64)) "="))
  | String a (String b (String c rest)) =>
      let n := (N_of_ascii a * 65536 + N_of_ascii b * 256 + N_of_ascii c)%N in
      String (b64_digit (n / 262144)) (String (b64_digit (n / 4096))
        (String (b64_digit (n / 64)) (String (b64_digit n) (b64encode rest))))
  end.

(** The request built for one page (lines 33-52). *)
Definition image_request (image : image) : request :=
  let image_data := png image in
  let image_base64 := b64encode image_data in
  let data_url := "data:image/png;base64," +:+ image_base64 in
  {| model := "gpt-4o";
     messages :=
       [ {| role := "user";
            content :=
              Parts
                [ TextPart "以下の画像に含まれる数学的な記述や定理の要素を抽出してください。";
                  ImageUrlPart data_url ] |} ];
     temperature := QArith_base.Qmake 0 1 |}.

(** The request built from a prompt by the three text stages. *)
Definition prompt_request (prompt : string) : request :=
  {| model := "gpt-4o";
     messages := [ {| role := "user"; content := Text prompt |} ];
     temperature := QArith_base.Qmake 0 1 |}.

Definition process_image_with_gpt4o (e : env) (image : image) : io value :=
  chat_completions_create e (image_request image).

(** The loop of [extract_text_via_gpt4o]; [i] is the index [enumerate]
    gives to the first of [images]. *)
Fixpoint extract_pages (e : env) (i : nat) (images : list image)
    (full_text : string) : io string :=
  match images with
  | [] => ret full_text
  | image :: images' =>
      print ("[INFO] ページ " +:+ pretty (i + 1) +:+ " を GPT-4o で処理中...");;
      page_text <- process_image_with_gpt4o e image;;
      page_text <- operand page_text;;
      extract_pages e (S i) images' (full_text +:+ (page_text +:+ LF))
  end.

Definition extract_text_via_gpt4o (e : env) (pdf_path : string) : io value :=
  images <- convert_from_path e pdf_path;;
  full_text <- extract_pages e 0 images "";;
  ret (PyStr full_text).

Definition main_theorem_prompt (full_text : string) : string :=
  ("以下の数学論文の本文から、主定理とその中で用いられている主要な用語の定義を抽出してください。"
     +:+ LF +:+ LF +:+ "【論文本文】" +:+ LF)
  +:+ full_text
  +:+ (LF +:+ LF +:+ "抽出結果は、主定理の記述と、用語一覧・その定義の形式で示してください。").

Definition extract_main_theorem (e : env) (full_text : value) : io value :=
  full_text <- operand full_text;;
  let prompt := main_theorem_prompt full_text in
  chat_completions_create e (prompt_request prompt).

Definition proof_prompt (main_theorem_text : string) : string :=
  ("以下の定理について、詳細な証明を示してください。" +:+ LF +:+ LF
     +:+ "【定理】" +:+ LF)
  +:+ main_theorem_text.

Definition prove_theorem (e : env) (main_theorem_text : value) : io value :=
  main_theorem_text <- operand main_theorem_text;;
  let prompt := proof_prompt main_theorem_text in
  chat_completions_create e (prompt_request prompt).

Definition validation_prompt (main_theorem_text proof_text : string) : string :=
  ("以下の定理とその証明について、概要レベルで正しいかどうか、また主要な論点が網羅されているか評価してください。"
     +:+ LF +:+ LF +:+ "【定理】" +:+ LF)
  +:+ main_theorem_text
  +:+ (LF +:+ LF +:+ "【証明】" +:+ LF)
  +:+ proof_text
  +:+ (LF +:+ LF +:+ "評価とともに、必要ならば改善点も指摘してください。").

Definition validate_proof (e : env) (main_theorem_text proof_text : value)
  : io value :=
  main_theorem_text <- operand main_theorem_text;;
  proof_text <- operand proof_text;;
  let prompt := validation_prompt main_theorem_text proof_text in
  chat_completions_create e (prompt_request prompt).

Definition save_result (output_dir filename : string) (text : value)
  : io unit :=
  let output_path := Path.join output_dir filename in
  open_write output_path text;;
  print ("[INFO] " +:+ filename +:+ " に結果を保存しました。").

Definition load_result (output_dir filename : string) : io value :=
  let output_path := Path.join output_dir filename in
  text <- open_read output_path;;
  ret (PyStr text).

Record cli_args := { pdf_path : string; output_dir : string }.

Definition extracted_text_file : string := "extracted_text.txt".
Definition main_theorem_file : string := "main_theorem.txt".
Definition proof_file : string := "proof.txt".
Definition validation_file : string := "validation.txt".

(** [main], lines 135-138: the output directory. *)
Definition main_output_dir (args : cli_args) : io unit :=
  let output_dir := output_dir args in
  present <- os_path_exists output_dir;;
  if negb present then
    os_makedirs output_dir;;
    print ("[INFO] 出力ディレクトリ '" +:+ output_dir +:+ "' を作成しました。")
  else ret tt.

(** [main], lines 143-150. *)
Definition main_extracted_text (e : env) (args : cli_args) : io value :=
  let output_dir := output_dir args in
  present <- os_path_exists (Path.join output_dir extracted_text_file);;
  if present then
    print "[INFO] 既存の抽出テキストファイルを読み込みます...";;
    load_result output_dir extracted_text_file
  else
    print "[INFO] PDF から GPT-4o を用いてテキスト抽出を実施します...";;
    extracted_text <- extract_text_via_gpt4o e (pdf_path args);;
    save_result output_dir extracted_text_file extracted_text;;
    ret extracted_text.

(** [main], lines 153-160. *)
Definition main_main_theorem (e : env) (args : cli_args)
    (extracted_text : value) : io value :=
  let output_dir := output_dir args in
  present <- os_path_exists (Path.join output_dir main_theorem_file);;
  if present then
    print "[INFO] 既存の主定理ファイルを読み込みます...";;
    load_result output_dir main_theorem_file
  else
    print "[INFO] GPT-4o を用いて主定理と用語の抽出を実施します...";;
    main_theorem <- extract_main_theorem e extracted_text;;
    save_result output_dir main_theorem_file main_theorem;;
    ret main_theorem.

(** [main], lines 163-170. *)
Definition main_proof (e : env) (args : cli_args) (main_theorem : value)
  : io value :=
  let output_dir := output_dir args in
  present <- os_path_exists (Path.join output_dir proof_file);;
  if present then
    print "[INFO] 既存の証明ファイルを読み込みます...";;
    load_result output_dir proof_file
  else
    print "[INFO] GPT-4o を用いて証明生成を実施します...";;
    proof <- prove_theorem e main_theorem;;
    save_result output_dir proof_file proof;;
    ret proof.

(** [main], lines 173-180. *)
Definition main_validation (e : env) (args : cli_args)
    (main_theorem proof : value) : io value :=
  let output_dir := output_dir args in
  present <- os_path_exists (Path.join output_dir validation_file);;
  if present then
    print "[INFO] 既存の検証結果ファイルを読み込みます...";;
    load_result output_dir validation_file
  else
    print "[INFO] GPT-4o を用いて証明の検証を実施します...";;
    validation <- validate_proof e main_theorem proof;;
    save_result output_dir validation_file validation;;
    ret validation.

(** [main], lines 182-190: the report. *)
Definition main_report (extracted_text main_theorem proof validation : value)
  : io unit :=
  print "[INFO] すべての処理が完了しました。";;
  print "----- 抽出テキスト -----";;
  print (py_str extracted_text);;
  print "----- 主定理と用語 -----";;
  print (py_str main_theorem);;
  print "----- 証明 -----";;
  print (py_str proof);;
  print "----- 検証結果 -----";;
  print (py_str validation).

Definition main (e : env) (args : cli_args) : io unit :=
  main_output_dir args;;
  extracted_text <- main_extracted_text e args;;
  main_theorem <- main_main_theorem e args extracted_text;;
  proof <- main_proof e args main_theorem;;
  validation <- main_validation e args main_theorem proof;;
  main_report extracted_text main_theorem proof validation.

(** ** Notions used to state the properties *)

(** The four stages and the file each one is cached in. *)
Inductive stage :=
| Extract
| MainTheorem
| Prove
| Validate.

Definition stage_file (s : stage) : string :=
  match s with
  | Extract => extracted_text_file
  | MainTheorem => main_theorem_file
  | Prove => proof_file
  | Validate => validation_file
  end.

(** The path [main] gives to a stage's file, and its key in the file
    system. *)
Definition stage_path (args : cli_args) (s : stage) : string :=
  Path.join (output_dir args) (stage_file s).

Definition stage_key (args : cli_args) (s : stage) : list string :=
  Path.resolve (output_dir args) ++ [stage_file s].

(** [issued_by s r]: [r] is a request that the function computing stage
    [s] builds. *)
Definition issued_by (s : stage) (r : request) : Prop :=
  match s with
  | Extract => ∃ image, r = image_request image
  | MainTheorem => ∃ t, r = prompt_request (main_theorem_prompt t)
  | Prove => ∃ t, r = prompt_request (proof_prompt t)
  | Validate => ∃ t p, r = prompt_request (validation_prompt t p)
  end.

(** The call site of a request, read off its fixed instruction. *)
Definition call_site (r : request) : option stage :=
  match messages r with
  | [m] =>
      match content m with
      | Parts _ => Some Extract
      | Text prompt =>
          if String.prefix "以下の数学論文の本文から" prompt then Some MainTheorem
          else if String.prefix "以下の定理について" prompt then Some Prove
          else if String.prefix "以下の定理とその証明について" prompt
               then Some Validate
          else None
      end
  | _ => None
  end.

#[export] Instance stage_eq_dec : EqDecision stage.
Proof. solve_decision. Defined.

(** An event that neither writes the file of stage [s] nor belongs to
    the computation of stage [s]: it is not a request of the function that
    computes [s], nor, for the extraction, the rendering of the document. *)
Definition untouched (args : cli_args) (s : stage) (ev : event) : Prop :=
  match ev with
  | EvWrite path _ => path ≠ stage_path args s
  | EvCreate r => ¬ issued_by s r
  | EvConvert _ => s ≠ Extract
  | _ => True
  end.

(** An event that, if it is a request, has sampling temperature 0. *)
Definition zero_temperature (ev : event) : Prop :=
  match ev with
  | EvCreate r => temperature r = QArith_base.Qmake 0 1
  | _ => True
  end.

(** A stage of [main] in the words of the specification (4.3): read the
    file if it is there, otherwise compute, write and return. *)
Definition run_stage (output_dir filename hit_msg miss_msg : string)
    (compute_fn : io value) : io value :=
  present <- os_path_exists (Path.join output_dir filename);;
  if present then
    print hit_msg;;
    load_result output_dir filename
  else
    print miss_msg;;
    text <- compute_fn;;
    save_result output_dir filename text;;
    ret text.

(** [extends P w w']: the trace of [w'] is the trace of [w] followed by
    events that all satisfy [P]. *)
Definition extends (P : event → Prop) (w w' : world) : Prop :=
  ∃ new, trace w' = trace w ++ new ∧ Forall P new.

(** [keeps I P m]: from a file system satisfying [I], whatever the
    outcome of [m], the file system reached satisfies [I] and the events
    performed satisfy [P]. *)
Definition keeps {A : Type} (I : gmap (list string) node → Prop)
    (P : event → Prop) (m : io A) : Prop :=
  ∀ w, I (fs w) → I (fs (snd (m w))) ∧ extends P w (snd (m w)).

(** The texts the service answers to a sequence of requests made one
    after the other, after the requests [history]; [None] if one call
    raises or answers without content. *)
Fixpoint replies (e : env) (history : list request) (reqs : list request)
  : option (list string) :=
  match reqs with
  | [] => Some []
  | r :: reqs' =>
      match create e history r with
      | Some (PyStr text) =>
          match replies e (history ++ [r]) reqs' with
          | Some texts => Some (text :: texts)
          | None => None
          end
      | _ => None
      end
  end.

(** What ends the page loop on such a sequence, if anything does: the
    error of the first call that raises, or the [TypeError] of the first
    answer without content. *)
Fixpoint first_failure (e : env) (history : list request)
    (reqs : list request) : option exn :=
  match reqs with
  | [] => None
  | r :: reqs' =>
      match create e history r with
      | Some (PyStr _) => first_failure e (history ++ [r]) reqs'
      | Some PyNone => Some TypeError
      | None => Some ServiceError
      end
  end.

(** The events of the page loop on [images], the first having index [i]. *)
Fixpoint page_events (i : nat) (images : list image) : list event :=
  match images with
  | [] => []
  | image :: images' =>
      EvPrint ("[INFO] ページ " +:+ pretty (i + 1) +:+ " を GPT-4o で処理中...")
        :: EvCreate (image_request image) :: page_events (S i) images'
  end.

(** The page texts, each followed by a newline. *)
Fixpoint join_pages (texts : list string) : string :=
  match texts with
  | [] => ""
  | text :: texts' => (text +:+ LF) +:+ join_pages texts'
  end.

(** Every node below a node lies in a directory. *)
Definition fs_wf (fs : gmap (list string) node) : Prop :=
  ∀ p x, is_Some (fs !! (p ++ [x])) → FS.lookup_path fs p = Some Dir.

(** The line a stage prints when its file is there, and when it is not. *)
Definition hit_message (s : stage) : string :=
  match s with
  | Extract => "[INFO] 既存の抽出テキストファイルを読み込みます..."
  | MainTheorem => "[INFO] 既存の主定理ファイルを読み込みます..."
  | Prove => "[INFO] 既存の証明ファイルを読み込みます..."
  | Validate => "[INFO] 既存の検証結果ファイルを読み込みます..."
  end.

Definition miss_message (s : stage) : string :=
  match s with
  | Extract => "[INFO] PDF から GPT-4o を用いてテキスト抽出を実施します..."
  | MainTheorem => "[INFO] GPT-4o を用いて主定理と用語の抽出を実施します..."
  | Prove => "[INFO] GPT-4o を用いて証明生成を実施します..."
  | Validate => "[INFO] GPT-4o を用いて証明の検証を実施します..."
  end.

(** The block of [main] for a stage and the function it calls on a miss,
    given the results [t1], [t2], [t3] of the stages before. *)
Definition stage_block (e : env) (args : cli_args) (t1 t2 t3 : value)
    (s : stage) : io value :=
  match s with
  | Extract => main_extracted_text e args
  | MainTheorem => main_main_theorem e args t1
  | Prove => main_proof e args t2
  | Validate => main_validation e args t2 t3
  end.

Definition stage_compute (e : env) (args : cli_args) (t1 t2 t3 : value)
    (s : stage) : io value :=
  match s with
  | Extract => extract_text_via_gpt4o e (pdf_path args)
  | MainTheorem => extract_main_theorem e t1
  | Prove => prove_theorem e t2
  | Validate => validate_proof e t2 t3
  end.

(** The events of a cache hit, and those of [save_result] on a text. *)
Definition hit_events (args : cli_args) (s : stage) : list event :=
  [EvPrint (hit_message s); EvRead (stage_path args s)].

Definition save_events (args : cli_args) (s : stage) (text : string)
  : list event :=
  [EvWrite (stage_path args s) (PyStr text);
   EvPrint ("[INFO] " +:+ stage_file s +:+ " に結果を保存しました。")].

(** The output directory is usable when it is a directory or can be
    made. *)
Definition usable_output_dir (d : string) (fs : gmap (list string) node)
  : Prop :=
  FS.is_dir d fs = true ∨ ∃ fs1, FS.makedirs d fs = Ok fs1.

(** [main] can start when the path of the output directory exists or the
    directory can be made. *)
Definition startable_output_dir (d : string) (fs : gmap (list string) node)
  : Prop :=
  FS.path_exists d fs = true ∨ ∃ fs1, FS.makedirs d fs = Ok fs1.

(** The file system and the events of lines 135-138 when [main] can
    start: [makedirs] succeeds exactly when the path is not there yet. *)
Definition startup_fs (d : string) (fs : gmap (list string) node)
  : gmap (list string) node :=
  match FS.makedirs d fs with
  | Ok fs1 => fs1
  | Raise _ => fs
  end.

Definition created_events (d : string) : list event :=
  [EvMakedirs d;
   EvPrint ("[INFO] 出力ディレクトリ '" +:+ d +:+ "' を作成しました。")].

Definition startup_events (d : string) (fs : gmap (list string) node)
  : list event :=
  match FS.makedirs d fs with
  | Ok _ => created_events d
  | Raise _ => []
  end.

(** There is no valid document at [pdf_path]: no regular file, or bytes
    the renderer rejects. *)
Definition no_document (e : env) (pdf_path : string)
    (fs : gmap (list string) node) : Prop :=
  match FS.file_at pdf_path fs with
  | Some bytes => render e bytes = None
  | None => True
  end.

(** An event that is neither a write nor a request. *)
Definition no_write_no_request (ev : event) : Prop :=
  match ev with
  | EvWrite _ _ => False
  | EvCreate _ => False
  | _ => True
  end.

(** The four stages and the report: [main] after lines 135-140. *)
Definition main_stages (e : env) (args : cli_args) : io unit :=
  extracted_text <- main_extracted_text e args;;
  main_theorem <- main_main_theorem e args extracted_text;;
  proof <- main_proof e args main_theorem;;
  validation <- main_validation e args main_theorem proof;;
  main_report extracted_text main_theorem proof validation.

(** [main] from its second, third and fourth stage on, given the results
    of the stages before. *)
Definition main_from_validation (e : env) (args : cli_args)
    (extracted_text main_theorem proof : value) : io unit :=
  validation <- main_validation e args main_theorem proof;;
  main_report extracted_text main_theorem proof validation.

Definition main_from_proof (e : env) (args : cli_args)
    (extracted_text main_theorem : value) : io unit :=
  proof <- main_proof e args main_theorem;;
  main_from_validation e args extracted_text main_theorem proof.

Definition main_from_main_theorem (e : env) (args : cli_args)
    (extracted_text : value) : io unit :=
  main_theorem <- main_main_theorem e args extracted_text;;
  main_from_proof e args extracted_text main_theorem.

(** [main] up to the end of its first, second and third stage. *)
Definition main_upto_extracted_text (e : env) (args : cli_args) : io value :=
  main_output_dir args;;
  main_extracted_text e args.

Definition main_upto_main_theorem (e : env) (args : cli_args)
  : io (value * value) :=
  main_output_dir args;;
  extracted_text <- main_extracted_text e args;;
  main_theorem <- main_main_theorem e args extracted_text;;
  ret (extracted_text, main_theorem).

Definition main_upto_proof (e : env) (args : cli_args)
  : io (value * value * value) :=
  main_output_dir args;;
  extracted_text <- main_extracted_text e args;;
  main_theorem <- main_main_theorem e args extracted_text;;
  proof <- main_proof e args main_theorem;;
  ret (extracted_text, main_theorem, proof).

(** The lines of the final report. *)
Definition report (extracted_text main_theorem proof validation : string)
  : list string :=
  ["[INFO] すべての処理が完了しました。";
   "----- 抽出テキスト -----"; extracted_text;
   "----- 主定理と用語 -----"; main_theorem;
   "----- 証明 -----"; proof;
   "----- 検証結果 -----"; validation].

(** A service that answers each call site with a fixed text. *)
Definition stub_create (r : request) : option value :=
  match call_site r with
  | Some Extract => Some (PyStr "T1")
  | Some MainTheorem => Some (PyStr "MAIN")
  | Some Prove => Some (PyStr "PROOF")
  | Some Validate => Some (PyStr "OK")
  | None => None
  end.

Definition stub_env (render_fn : string → option (list image)) : env :=
  {| render := render_fn; create := λ _ r, stub_create r |}.

(** ** Sample inputs *)

Definition sample_args : cli_args :=
  {| pdf_path := "paper.pdf"; output_dir := "out" |}.

(** A service whose every call fails, with a renderer that accepts no
    document. *)
Definition failing_env : env :=
  {| render := λ _, None; create := λ _ _, None |}.

(** An output directory holding the four files. *)
Definition cached_fs : gmap (list string) node :=
  <[["out"; "validation.txt"] := File "fine"]>
    (<[["out"; "proof.txt"] := File "by induction"]>
       (<[["out"; "main_theorem.txt"] := File "1 + 1 = 2"]>
          (<[["out"; "extracted_text.txt"] := File "page one"]>
             (<[["out"] := Dir]> ∅)))).

(** The same directory with an [extracted_text.txt] that ends its line
    with "\r\n", and with one that is not UTF-8. *)
Definition crlf_cached_fs : gmap (list string) node :=
  <[["out"; "extracted_text.txt"] :=
      File ("page one" +:+ String Text.cr (String Text.lf ""))]> cached_fs.

Definition latin1_cached_fs : gmap (list string) node :=
  <[["out"; "extracted_text.txt"] := File (String (ascii_of_nat 233) "")]>
    cached_fs.

(** A document of three pages and a service that answers its [n]-th
    request (counting from 0) with ["R" n]. *)
Definition three_pages : list image :=
  [ {| png := "p1" |}; {| png := "p2" |}; {| png := "p3" |} ].

Definition counting_env : env :=
  {| render := λ bytes,
       if bool_decide (bytes = "%PDF") then Some three_pages else None;
     create := λ history _, Some (PyStr ("R" +:+ pretty (length history))) |}.

(** A file system with the document and nothing else. *)
Definition paper_fs : gmap (list string) node :=
  <[["paper.pdf"] := File "%PDF"]> ∅.

(** An output directory holding only [main_theorem.txt], next to the
    document. *)
Definition theorem_only_fs : gmap (list string) node :=
  <[["out"; "main_theorem.txt"] := File "1 + 1 = 2"]>
    (<[["out"] := Dir]> paper_fs).

(** A regular file where the output directory, or the directory above
    it, should be; no document. *)
Definition notes_file_fs : gmap (list string) node :=
  <[["notes"] := File "keep me"]> ∅.

Definition below_file_args : cli_args :=
  {| pdf_path := "paper.pdf"; output_dir := "notes/out" |}.

Definition file_slash_args : cli_args :=
  {| pdf_path := "paper.pdf"; output_dir := "notes/" |}.

(** A renderer that finds no page, and one that finds a single page. *)
Definition no_page_env : env :=
  {| render := λ _, Some []; create := λ _ _, None |}.

Definition one_page (bytes : string) : option (list image) :=
  if bool_decide (bytes = "%PDF") then Some [ {| png := "p1" |} ] else None.

(** A service that answers two requests and fails from the third on, for
    documents of one page. *)
Definition flaky_env : env :=
  {| render := one_page;
     create := λ history _,
       if bool_decide (length history < 2)
       then Some (PyStr ("R" +:+ pretty (length history)))
       else None |}.

(** A service that answers two requests and, from the third on, returns
    completions without content, for documents of one page. *)
Definition silent_env : env :=
  {| render := one_page;
     create := λ history _,
       if bool_decide (length history < 2)
       then Some (PyStr ("R" +:+ pretty (length history)))
       else Some PyNone |}.

(** An output directory holding only a [validation.txt] left by an
    earlier run, next to the document. *)
Definition stale_validation_fs : gmap (list string) node :=
  <[["out"; "validation.txt"] := File "stale"]>
    (<[["out"] := Dir]> paper_fs).

(** ** Notions for the properties of whole runs *)

(** An event that stays within what [main] is given: the output
    directory, the document, the four stage files and the requests of
    the four functions. *)
Definition confined (args : cli_args) (ev : event) : Prop :=
  match ev with
  | EvMakedirs path => path = output_dir args
  | EvConvert path => path = pdf_path args
  | EvCreate r => ∃ s, issued_by s r
  | EvRead path => ∃ s, path = stage_path args s
  | EvWrite path _ => ∃ s, path = stage_path args s
  | EvPrint _ => True
  end.

(** A directory with a file that [main] does not know, next to the
    document. *)
Definition notes_fs : gmap (list string) node :=
  <[["out"; "notes.txt"] := File "keep me"]> (<[["out"] := Dir]> paper_fs).

(** An event that is not a write. *)
Definition not_a_write (ev : event) : Prop :=
  match ev with
  | EvWrite _ _ => False
  | _ => True
  end.

(** A service that answers one request and fails from the second on, for
    documents of three pages. *)
Definition one_answer_env : env :=
  {| render := λ bytes,
       if bool_decide (bytes = "%PDF") then Some three_pages else None;
     create := λ history _,
       if bool_decide (length history < 1) then Some (PyStr "R0") else None |}.

(** The stages in the order [main] runs them, and those before a stage. *)
Definition all_stages : list stage := [Extract; MainTheorem; Prove; Validate].

Definition stage_index (s : stage) : nat :=
  match s with
  | Extract => 0
  | MainTheorem => 1
  | Prove => 2
  | Validate => 3
  end.

Definition stages_before (s : stage) : list stage :=
  take (stage_index s) all_stages.

(** The text of a stage, among the texts [c1], [c2], [c3] of the first
    three. *)
Definition text_of (c1 c2 c3 : string) (s : stage) : string :=
  match s with
  | Extract => c1
  | MainTheorem => c2
  | Prove => c3
  | Validate => ""
  end.

(** The text of a stage, among the four texts of a report. *)
Definition stage_text (t1 t2 t3 t4 : string) (s : stage) : string :=
  match s with
  | Extract => t1
  | MainTheorem => t2
  | Prove => t3
  | Validate => t4
  end.

(** How the file of a stage stands after a run, given the text [t] the
    stage returned: it was there and [t] is what it reads as, or it was
    not there and holds [t]. *)
Definition read_or_written (before after : gmap (list string) node)
    (k : list string) (t : string) : Prop :=
  ∃ c, after !! k = Some (File c) ∧
       ((before !! k = Some (File c) ∧ Text.decode c = Some t) ∨
        (before !! k = None ∧ c = t ∧ Text.utf8_valid t = true)).

(** The first event of the computation of a stage, given the texts of
    the stages before: the rendering of the document, or the request on
    those texts. *)
Definition first_compute_event (args : cli_args) (c1 c2 c3 : string)
    (s : stage) : event :=
  match s with
  | Extract => EvConvert (pdf_path args)
  | MainTheorem => EvCreate (prompt_request (main_theorem_prompt c1))
  | Prove => EvCreate (prompt_request (proof_prompt c2))
  | Validate => EvCreate (prompt_request (validation_prompt c2 c3))
  end.

(** An output directory holding the files of the first two stages, next
    to the document. *)
Definition two_cached_fs : gmap (list string) node :=
  <[["out"; "main_theorem.txt"] := File "1 + 1 = 2"]>
    (<[["out"; "extracted_text.txt"] := File "page one"]>
       (<[["out"] := Dir]> paper_fs)).

(** [caused_by e args before ev ex]: the event [ev], performed after the
    events [before], is an operation of [main] that raises [ex]: the
    making of the output directory, the rendering of the document, a
    call to the service or the use of its answer, the reading or the
    writing of a stage file. *)
Definition caused_by (e : env) (args : cli_args) (before : list event)
    (ev : event) (ex : exn) : Prop :=
  match ev, ex with
  | EvMakedirs path, FileNotFoundError => path = output_dir args ∧ path = ""
  | EvMakedirs path, NotADirectoryError => path = output_dir args
  | EvMakedirs path, FileExistsError =>
      path = output_dir args ∧ Path.endswith_slash path = true
  | EvConvert path, DocumentError => path = pdf_path args
  | EvCreate r, ServiceError => create e (requests before) r = None
  | EvCreate r, TypeError =>
      create e (requests before) r = Some PyNone ∧ issued_by Extract r
  | EvRead path, IsADirectoryError => ∃ s, path = stage_path args s
  | EvRead path, UnicodeDecodeError => ∃ s, path = stage_path args s
  | EvWrite path _, NotADirectoryError => ∃ s, path = stage_path args s
  | EvWrite path v, TypeError => v = PyNone ∧ ∃ s, path = stage_path args s
  | EvWrite path v, UnicodeEncodeError =>
      (∃ text, v = PyStr text ∧ Text.utf8_valid text = false) ∧
      ∃ s, path = stage_path args s
  | _, _ => False
  end.

(** Arguments that name the document as the output directory. *)
Definition clashing_args : cli_args :=
  {| pdf_path := "paper.pdf"; output_dir := "paper.pdf" |}.

(** An event that is not a request, and an event that is no request
    but of stage [s]. *)
Definition request_free (ev : event) : Prop :=
  match ev with
  | EvCreate _ => False
  | _ => True
  end.

Definition requests_only_of (s : stage) (ev : event) : Prop :=
  match ev with
  | EvCreate r => issued_by s r
  | _ => True
  end.

(** No request, or one request of stage [s]. *)
Definition at_most_one (s : stage) (rs : list request) : Prop :=
  rs = [] ∨ ∃ r, rs = [r] ∧ issued_by s r.

(** ** Reading a data URL back *)

(** The place of a character in the base64 alphabet. *)
Fixpoint b64_index_from (c : ascii) (table : string) (i : N) : option N :=
  match table with
  | EmptyString => None
  | String c' table' =>
      if bool_decide (c = c') then Some i
      else b64_index_from c table' (i + 1)%N
  end.

Definition b64_index (c : ascii) : option N := b64_index_from c b64_table 0.

(** The bytes that a padded base64 text stands for. *)
Fixpoint b64decode (s : string) : option string :=
  match s with
  | EmptyString => Some ""
  | String c0 (String c1 (String c2 (String c3 rest))) =>
      match b64_index c0, b64_index c1 with
      | Some d0, Some d1 =>
          if bool_decide (c2 = "="%char) then
            if bool_decide (c3 = "="%char ∧ rest = "") then
              let n := (d0 * 262144 + d1 * 4096)%N in
              Some (String (ascii_of_N (n / 65536)) "")
            else None
          else
            match b64_index c2 with
            | Some d2 =>
                if bool_decide (c3 = "="%char) then
                  if bool_decide (rest = "") then
                    let n := (d0 * 262144 + d1 * 4096 + d2 * 64)%N in
                    Some (String (ascii_of_N (n / 65536))
                            (String (ascii_of_N ((n / 256) `mod` 256)) ""))
                  else None
                else
                  match b64_index c3, b64decode rest with
                  | Some d3, Some bytes =>
                      let n := (d0 * 262144 + d1 * 4096 + d2 * 64 + d3)%N in
                      Some (String (ascii_of_N (n / 65536))
                              (String (ascii_of_N ((n / 256) `mod` 256))
                                 (String (ascii_of_N (n `mod` 256)) bytes)))
                  | _, _ => None
                  end
            | None => None
            end
      | _, _ => None
      end
  | _ => None
  end.

(** What is left of [s] after the prefix [p], when [s] starts with it. *)
Fixpoint strip_prefix (p s : string) : option string :=
  match p, s with
  | EmptyString, _ => Some s
  | String a p', String b s' =>
      if bool_decide (a = b) then strip_prefix p' s' else None
  | _, _ => None
  end.

(** The page bytes a request carries in the data URL of its image part. *)
Definition page_bytes (r : request) : option string :=
  match messages r with
  | [ {| content := Parts [ TextPart _; ImageUrlPart url ] |} ] =>
      match strip_prefix "data:image/png;base64," url with
      | Some payload => b64decode payload
      | None => None
      end
  | _ => None
  end.

(** * Properties *)

(** ** The definitions on small inputs *)

Example join_plain : Path.join "out" "proof.txt" = "out/proof.txt".
Proof. reflexivity. Qed.

Example join_trailing_slash : Path.join "out/" "proof.txt" = "out/proof.txt".
Proof. reflexivity. Qed.

Example join_empty : Path.join "" "proof.txt" = "proof.txt".
Proof. reflexivity. Qed.

Example resolve_absolute : Path.resolve "/tmp//out/" = ["/"; "tmp"; "out"].
Proof. reflexivity. Qed.

Example b64encode_3 : b64encode "Man" = "TWFu".
Proof. reflexivity. Qed.

Example b64encode_2 : b64encode "Ma" = "TWE=".
Proof. reflexivity. Qed.

Example b64encode_1 : b64encode "M" = "TQ==".
Proof. reflexivity. Qed.

Example makedirs_nested :
  FS.makedirs "a/b" ∅ = Ok (<[["a"; "b"] := Dir]> (<[["a"] := Dir]> ∅)).
Proof. reflexivity. Qed.

Example makedirs_under_file :
  FS.makedirs "paper.pdf/out" paper_fs = Raise NotADirectoryError.
Proof. reflexivity. Qed.

Example write_without_directory :
  FS.write "out/proof.txt" "text" ∅ = Raise FileNotFoundError.
Proof. reflexivity. Qed.

(** A regular file followed by a slash is not there, and its name is
    taken. *)
Example file_with_slash :
  FS.path_exists "paper.pdf" paper_fs = true ∧
  FS.path_exists "paper.pdf/" paper_fs = false ∧
  FS.file_at "paper.pdf/" paper_fs = None ∧
  FS.makedirs "paper.pdf/" paper_fs = Raise FileExistsError ∧
  FS.read "paper.pdf/" paper_fs = Raise NotADirectoryError ∧
  FS.read "paper.pdf/x" paper_fs = Raise NotADirectoryError ∧
  FS.write "paper.pdf/" "" paper_fs = Raise IsADirectoryError ∧
  FS.write "paper.pdf/x/y" "" paper_fs = Raise NotADirectoryError.
Proof. vm_compute. by split_and!. Qed.

(** Reading in text mode: newlines are translated, and bytes that are
    not UTF-8 are refused. *)
Example decode_newlines :
  Text.decode ("a" +:+ String Text.cr LF +:+ "b" +:+ String Text.cr "c")
  = Some ("a" +:+ LF +:+ "b" +:+ LF +:+ "c").
Proof. reflexivity. Qed.

Example decode_utf8 :
  Text.decode "主定理" = Some "主定理" ∧
  Text.decode (String (ascii_of_nat 255) "") = None ∧
  Text.decode (String (ascii_of_nat 237)
                 (String (ascii_of_nat 160) (String (ascii_of_nat 128) "")))
  = None.
Proof. vm_compute. by split_and!. Qed.

(** Writing [None] leaves an empty file behind. *)
Example write_none :
  open_write "proof.txt" PyNone {| fs := ∅; trace := [] |}
  = (Raise TypeError,
     {| fs := <[["proof.txt"] := File ""]> ∅;
        trace := [EvWrite "proof.txt" PyNone] |}).
Proof. reflexivity. Qed.

Example call_site_proof t :
  call_site (prompt_request (proof_prompt t)) = Some Prove.
Proof. reflexivity. Qed.

Example call_site_validation t p :
  call_site (prompt_request (validation_prompt t p)) = Some Validate.
Proof. reflexivity. Qed.

(** A whole run on three pages from an empty directory: six requests,
    answered ["R0"] to ["R5"]. *)
Example main_three_pages :
  let w := {| fs := <[["out"] := Dir]> paper_fs; trace := [] |} in
  let w' := snd (main counting_env sample_args w) in
  fst (main counting_env sample_args w) = Ok () ∧
  length (requests (trace w')) = 6 ∧
  FS.file_at "out/extracted_text.txt" (fs w')
    = Some ("R0" +:+ LF +:+ "R1" +:+ LF +:+ "R2" +:+ LF) ∧
  FS.file_at "out/validation.txt" (fs w') = Some "R5".
Proof. vm_compute. by split_and!. Qed.

(** ** Strings and paths *)

Lemma append_cons (c : ascii) (s t : string) :
  String c s +:+ t = String c (s +:+ t).
Proof. reflexivity. Qed.

Lemma append_nil_l (s : string) : "" +:+ s = s.
Proof. reflexivity. Qed.

Lemma append_assoc (s1 s2 s3 : string) :
  (s1 +:+ s2) +:+ s3 = s1 +:+ (s2 +:+ s3).
Proof.
  induction s1 as [|c s1 IH]; [done |]. by rewrite !append_cons, IH.
Qed.

Lemma append_nil_r (s : string) : s +:+ "" = s.
Proof. induction s as [|c s IH]; [done |]. by rewrite append_cons, IH. Qed.

Lemma append_eq_nil (s1 s2 : string) : s1 +:+ s2 = "" → s1 = "" ∧ s2 = "".
Proof. destruct s1; [done |]. rewrite append_cons. discriminate. Qed.

(** ** Text mode *)

Module TextFacts.
Import Text.

Lemma universal_newlines_cr_free s : cr_free (universal_newlines s) = true.
Proof.
  remember (String.length s) as n eqn:Hn.
  revert s Hn. induction (lt_wf n) as [n _ IH]. intros s ->.
  destruct s as [|c s]; [done |]. simpl.
  case_bool_decide as Hc.
  - simpl. destruct s as [|c' s]; [done |].
    case_bool_decide; (eapply IH; [| done]); simpl; lia.
  - simpl. rewrite bool_decide_eq_false_2 by done. simpl.
    eapply IH; [| done]. simpl. lia.
Qed.

Lemma universal_newlines_id s : cr_free s = true → universal_newlines s = s.
Proof.
  induction s as [|c s IH]; [done |]. simpl.
  intros [Hc Hs]%andb_true_iff. apply negb_true_iff in Hc. rewrite Hc.
  by rewrite IH.
Qed.

Lemma universal_newlines_idemp s :
  universal_newlines (universal_newlines s) = universal_newlines s.
Proof. apply universal_newlines_id, universal_newlines_cr_free. Qed.

Lemma decode_Some bytes text :
  decode bytes = Some text →
  utf8_valid bytes = true ∧ text = universal_newlines bytes.
Proof. unfold decode. destruct (utf8_valid bytes); naive_solver. Qed.

Lemma decode_valid text :
  utf8_valid text = true → decode text = Some (universal_newlines text).
Proof. unfold decode. by intros ->. Qed.

(** A text that was read holds no carriage return. *)
Lemma decode_cr_free bytes text : decode bytes = Some text → cr_free text = true.
Proof. intros [_ ->]%decode_Some. apply universal_newlines_cr_free. Qed.

End TextFacts.

Module PathFacts.
Import Path.

Lemma components_name acc f :
  slash_free f = true → acc +:+ f ≠ "" → components acc f = [acc +:+ f].
Proof.
  revert acc. induction f as [|c f IH]; intros acc Hf Hne; simpl in *.
  - rewrite append_nil_r in *. by rewrite bool_decide_eq_false_2.
  - apply andb_true_iff in Hf as [Hc Hf].
    apply negb_true_iff in Hc. rewrite Hc.
    rewrite IH; [by rewrite append_assoc | done |].
    rewrite append_assoc. intros [_ ?]%append_eq_nil. discriminate.
Qed.

Lemma components_app_slash acc d r :
  components acc (d +:+ "/" +:+ r) = components acc d ++ components "" r.
Proof.
  revert acc. induction d as [|c d IH]; intros acc; simpl.
  - by destruct (bool_decide (acc = "")).
  - destruct (is_slash c); [| apply IH].
    destruct (bool_decide (acc = "")); simpl; by rewrite IH.
Qed.

Lemma components_slash_end acc d :
  components acc (d +:+ "/") = components acc d.
Proof.
  change (d +:+ "/") with (d +:+ "/" +:+ "").
  rewrite components_app_slash. simpl. by rewrite app_nil_r.
Qed.

Lemma endswith_slash_inv s :
  endswith_slash s = true → ∃ s', s = s' +:+ "/".
Proof.
  induction s as [|c s IH]; simpl; [discriminate |].
  destruct s as [|c' s].
  - intros Hc. apply bool_decide_eq_true in Hc as ->. by exists "".
  - intros [s' ->]%IH. by exists (String c s').
Qed.

Lemma endswith_slash_app a f :
  f ≠ "" → endswith_slash (a +:+ f) = endswith_slash f.
Proof.
  intros Hf. induction a as [|c a IH]; [done |].
  rewrite append_cons. simpl.
  destruct (a +:+ f) eqn:Ha; [| done].
  by apply append_eq_nil in Ha as [_ ?].
Qed.

Lemma slash_free_endswith f : slash_free f = true → endswith_slash f = false.
Proof.
  induction f as [|c f IH]; [done |]. simpl.
  intros [Hc Hf]%andb_true_iff. apply negb_true_iff in Hc.
  destruct f; [done | by apply IH].
Qed.

Lemma startswith_slash_app a b :
  a ≠ "" → startswith_slash (a +:+ b) = startswith_slash a.
Proof. by destruct a. Qed.

Lemma is_name_inv f :
  is_name f = true → f ≠ "" ∧ slash_free f = true ∧ startswith_slash f = false.
Proof.
  unfold is_name. intros [Hne Hf]%andb_true_iff.
  apply negb_true_iff, bool_decide_eq_false in Hne.
  split_and!; [done.. |].
  destruct f as [|c f]; simpl in *; [done |].
  apply andb_true_iff in Hf as [Hc _]. by apply negb_true_iff.
Qed.

Lemma join_ne_empty d f : is_name f = true → join d f ≠ "".
Proof.
  intros (Hne & _ & Hs)%is_name_inv. unfold join. rewrite Hs.
  destruct (bool_decide (d = "") || endswith_slash d).
  - intros [_ ?]%append_eq_nil. done.
  - intros [_ ?]%append_eq_nil. discriminate.
Qed.

Lemma join_endswith d f : is_name f = true → endswith_slash (join d f) = false.
Proof.
  intros (Hne & Hf & Hs)%is_name_inv. unfold join. rewrite Hs.
  destruct (bool_decide (d = "") || endswith_slash d).
  - rewrite endswith_slash_app by done. by apply slash_free_endswith.
  - rewrite <- append_assoc, endswith_slash_app by done.
    by apply slash_free_endswith.
Qed.

(** Joining a directory and a file name adds one component. *)
Lemma resolve_join d f :
  is_name f = true → resolve (join d f) = resolve d ++ [f].
Proof.
  intros (Hne & Hf & Hs)%is_name_inv. unfold join. rewrite Hs.
  assert (components "" f = [f]) as Hcf by by apply components_name.
  destruct (bool_decide_reflect (d = "")) as [-> | Hd]; simpl.
  { rewrite append_nil_l. unfold resolve. by rewrite Hs, Hcf. }
  destruct (endswith_slash d) eqn:He.
  - apply endswith_slash_inv in He as [d' ->]. unfold resolve.
    rewrite (startswith_slash_app (d' +:+ "/") f) by done.
    rewrite append_assoc, components_app_slash, components_slash_end, Hcf.
    by rewrite app_assoc.
  - unfold resolve. rewrite startswith_slash_app by done.
    by rewrite components_app_slash, Hcf, app_assoc.
Qed.

End PathFacts.

(** ** The file system *)

Module FSFacts.
Import Path PathFacts FS.

Lemma lookup_path_nil fs : lookup_path fs [] = Some Dir.
Proof. unfold lookup_path. rewrite bool_decide_eq_true_2; auto. Qed.

Lemma lookup_path_None fs p :
  lookup_path fs p = None → fs !! p = None.
Proof. unfold lookup_path. by case_bool_decide. Qed.

Lemma lookup_path_insert_Dir fs p :
  lookup_path (<[p:=Dir]> fs) p = Some Dir.
Proof.
  unfold lookup_path. case_bool_decide; [done |]. apply lookup_insert_eq.
Qed.

(** The key of a file of a directory is an ordinary key. *)
Lemma lookup_path_snoc fs p f :
  is_name f = true → lookup_path fs (p ++ [f]) = fs !! (p ++ [f]).
Proof.
  intros Hf. unfold lookup_path. case_bool_decide as H; [| done].
  destruct H as [H | H].
  - by destruct p.
  - destruct p as [|x [|y p]]; simplify_eq/=.
Qed.

Lemma snoc_ne_self {A} (p : list A) x : p ++ [x] ≠ p.
Proof.
  intros H. apply (f_equal length) in H. rewrite length_app in H.
  simpl in H. lia.
Qed.

(** What [mkdirs] changes: only absent nodes, which become
    directories, no deeper than the directory asked for. *)
Lemma mkdirs_lookup pre rest fs fs' p :
  mkdirs pre rest fs = Ok fs' →
  fs' !! p = fs !! p ∨
  (fs !! p = None ∧ fs' !! p = Some Dir ∧
   length p ≤ length pre + length rest).
Proof.
  revert pre fs. induction rest as [|c rest IH]; intros pre fs Hmk.
  { simpl in Hmk. simplify_eq. by left. }
  simpl in Hmk.
  assert (length (pre ++ [c]) + length rest = length pre + length (c :: rest))
    as Hlen by (rewrite length_app; simpl; lia).
  destruct (lookup_path fs (pre ++ [c])) as [[|?]|] eqn:Hl; [| done |].
  - apply IH in Hmk. rewrite Hlen in Hmk. done.
  - apply lookup_path_None in Hl. apply IH in Hmk. rewrite Hlen in Hmk.
    destruct (decide (p = pre ++ [c])) as [-> | Hne].
    + right. split; [done |]. rewrite length_app. simpl.
      destruct Hmk as [-> | (H & _)].
      * rewrite lookup_insert_eq. split; [done | lia].
      * by rewrite lookup_insert_eq in H.
    + rewrite lookup_insert_ne in Hmk by done. done.
Qed.

Lemma mkdirs_is_dir pre rest fs fs' :
  mkdirs pre rest fs = Ok fs' →
  lookup_path fs pre = Some Dir →
  lookup_path fs' (pre ++ rest) = Some Dir.
Proof.
  revert pre fs. induction rest as [|c rest IH]; intros pre fs Hmk Hpre.
  { simpl in Hmk. simplify_eq. by rewrite app_nil_r. }
  simpl in Hmk. rewrite cons_middle, app_assoc.
  destruct (lookup_path fs (pre ++ [c])) as [[|?]|] eqn:Hl; [| done |].
  - by apply (IH _ fs).
  - apply (IH _ _ Hmk), lookup_path_insert_Dir.
Qed.

Lemma stat_lookup d fs :
  d ≠ "" → lookup_path fs (resolve d) = Some Dir → stat d fs = Some Dir.
Proof.
  intros Hd Hl. unfold stat. by rewrite bool_decide_eq_false_2, Hl.
Qed.

Lemma stat_None d fs : lookup_path fs (resolve d) = None → stat d fs = None.
Proof. intros Hl. unfold stat. rewrite Hl. by case_bool_decide. Qed.

Lemma path_exists_lookup_None d fs :
  lookup_path fs (resolve d) = None → path_exists d fs = false.
Proof.
  intros Hl. unfold path_exists. rewrite stat_None by done.
  apply bool_decide_eq_false. by intros [? ?].
Qed.

Lemma makedirs_inv d fs fs' :
  makedirs d fs = Ok fs' →
  d ≠ "" ∧ lookup_path fs (resolve d) = None ∧
  mkdirs [] (resolve d) fs = Ok fs'.
Proof.
  unfold makedirs. case_bool_decide; [done |].
  case_bool_decide as Hl; [done |]. intros Hmk. split_and!; [done | | done].
  destruct (lookup_path fs (resolve d)); [| done]. by destruct Hl.
Qed.

Lemma makedirs_absent d fs fs' :
  makedirs d fs = Ok fs' → path_exists d fs = false.
Proof.
  intros (_ & Hl & _)%makedirs_inv. by apply path_exists_lookup_None.
Qed.

Lemma makedirs_is_dir d fs fs' :
  makedirs d fs = Ok fs' → is_dir d fs' = true.
Proof.
  intros (Hd & _ & Hmk)%makedirs_inv. unfold is_dir.
  pose proof (mkdirs_is_dir [] _ _ _ Hmk (lookup_path_nil fs)) as H.
  simpl in H. by rewrite (stat_lookup _ _ Hd H).
Qed.

(** Existing nodes survive [makedirs]. *)
Lemma makedirs_keeps d fs fs' p n :
  makedirs d fs = Ok fs' → fs !! p = Some n → fs' !! p = Some n.
Proof.
  intros (_ & _ & Hmk)%makedirs_inv Hp.
  destruct (mkdirs_lookup _ _ _ _ p Hmk) as [-> | (? & _)]; congruence.
Qed.

(** [makedirs] creates nothing inside the directory it makes. *)
Lemma makedirs_child d fs fs' x :
  makedirs d fs = Ok fs' →
  fs' !! (resolve d ++ [x]) = fs !! (resolve d ++ [x]).
Proof.
  intros (_ & _ & Hmk)%makedirs_inv.
  destruct (mkdirs_lookup _ _ _ _ (resolve d ++ [x]) Hmk)
    as [-> | (_ & _ & Hlen)]; [done |].
  rewrite length_app in Hlen. simpl in Hlen. lia.
Qed.

(** [makedirs] creates no regular file and changes none. *)
Lemma makedirs_file_at d fs fs' s :
  makedirs d fs = Ok fs' → file_at s fs' = file_at s fs.
Proof.
  intros (_ & _ & Hmk)%makedirs_inv. unfold file_at, stat, lookup_path.
  case_bool_decide; [done |]. case_bool_decide; [done |].
  by destruct (mkdirs_lookup _ _ _ _ (resolve s) Hmk)
    as [-> | (-> & -> & _)].
Qed.

(** A write that goes through puts the bytes at the path, and goes
    through for any bytes. *)
Lemma write_Ok s bytes fs fs' :
  write s bytes fs = Ok fs' → fs' = <[resolve s := File bytes]> fs.
Proof.
  unfold write. case_bool_decide; [done |].
  destruct (lookup_path fs (resolve s)) as [[|?]|],
    (lookup_path fs (removelast (resolve s))) as [[|?]|],
    (endswith_slash s); intros ?; by simplify_eq.
Qed.

Lemma write_bytes s bytes bytes' fs fs' :
  write s bytes fs = Ok fs' →
  write s bytes' fs = Ok (<[resolve s := File bytes']> fs).
Proof.
  unfold write. case_bool_decide; [done |].
  destruct (lookup_path fs (resolve s)) as [[|?]|],
    (lookup_path fs (removelast (resolve s))) as [[|?]|],
    (endswith_slash s); intros ?; by simplify_eq.
Qed.

Lemma write_Raise s bytes bytes' fs ex :
  write s bytes fs = Raise ex → write s bytes' fs = Raise ex.
Proof.
  unfold write. case_bool_decide; [done |].
  destruct (lookup_path fs (resolve s)) as [[|?]|],
    (lookup_path fs (removelast (resolve s))) as [[|?]|],
    (endswith_slash s); intros ?; by simplify_eq.
Qed.

(** A file of the right encoding reads as its text. *)
Lemma file_at_text_at s fs c :
  file_at s fs = Some c → text_at s fs = Text.decode c.
Proof. unfold text_at. by intros ->. Qed.

Section stage_file.
Context (d f : string) (Hf : is_name f = true).
#[local] Abbreviation k := (resolve d ++ [f]).

Lemma stat_join fs : stat (join d f) fs = fs !! k.
Proof.
  unfold stat.
  rewrite bool_decide_eq_false_2 by by apply join_ne_empty.
  rewrite resolve_join, lookup_path_snoc, join_endswith by done.
  by destruct (fs !! k) as [[|?]|].
Qed.

Lemma path_exists_join fs :
  path_exists (join d f) fs = bool_decide (is_Some (fs !! k)).
Proof. unfold path_exists. by rewrite stat_join. Qed.

Lemma file_at_join fs :
  file_at (join d f) fs =
  match fs !! k with Some (File c) => Some c | _ => None end.
Proof. unfold file_at. by rewrite stat_join. Qed.

Lemma read_join fs :
  read (join d f) fs =
  match fs !! k with
  | Some (File c) =>
      match Text.decode c with
      | Some text => Ok text
      | None => Raise UnicodeDecodeError
      end
  | Some Dir => Raise IsADirectoryError
  | None => Raise (missing k fs)
  end.
Proof.
  unfold read.
  rewrite bool_decide_eq_false_2 by by apply join_ne_empty.
  by rewrite resolve_join, lookup_path_snoc, join_endswith.
Qed.

Lemma write_join bytes fs :
  write (join d f) bytes fs =
  match fs !! k with
  | Some Dir => Raise IsADirectoryError
  | _ =>
      match lookup_path fs (resolve d) with
      | Some Dir => Ok (<[k:=File bytes]> fs)
      | Some (File _) => Raise NotADirectoryError
      | None => Raise (missing (resolve d) fs)
      end
  end.
Proof.
  unfold write.
  rewrite bool_decide_eq_false_2 by by apply join_ne_empty.
  by rewrite resolve_join, lookup_path_snoc, removelast_last, join_endswith.
Qed.

(** A write leaves the nodes at other keys alone. *)
Lemma write_join_other bytes fs fs' p :
  write (join d f) bytes fs = Ok fs' → p ≠ k → fs' !! p = fs !! p.
Proof.
  rewrite write_join. intros Hw Hp.
  destruct (fs !! k) as [[|?]|], (lookup_path fs (resolve d)) as [[|?]|];
    simplify_eq; by rewrite lookup_insert_ne.
Qed.

(** Whether a write goes through does not depend on the bytes. *)
Lemma write_join_ok bytes bytes' fs fs' :
  write (join d f) bytes fs = Ok fs' →
  fs' = <[k:=File bytes]> fs ∧
  write (join d f) bytes' fs = Ok (<[k:=File bytes']> fs).
Proof.
  rewrite !write_join.
  destruct (fs !! k) as [[|?]|], (lookup_path fs (resolve d)) as [[|?]|];
    intros ?; by simplify_eq.
Qed.

Lemma write_join_raise bytes bytes' fs ex :
  write (join d f) bytes fs = Raise ex →
  write (join d f) bytes' fs = Raise ex.
Proof.
  rewrite !write_join.
  destruct (fs !! k) as [[|?]|], (lookup_path fs (resolve d)) as [[|?]|];
    intros ?; by simplify_eq.
Qed.

Lemma is_dir_lookup fs :
  is_dir d fs = true → lookup_path fs (resolve d) = Some Dir.
Proof.
  unfold is_dir, stat. case_bool_decide; [done |].
  destruct (lookup_path fs (resolve d)) as [[|?]|]; [done | | done].
  by destruct (endswith_slash d).
Qed.

Lemma is_dir_exists fs : is_dir d fs = true → path_exists d fs = true.
Proof.
  unfold is_dir, path_exists.
  destruct (stat d fs) as [[|?]|]; [| done..].
  intros _. by apply bool_decide_eq_true.
Qed.

Lemma path_exists_lookup fs :
  path_exists d fs = true → is_Some (lookup_path fs (resolve d)).
Proof.
  unfold path_exists, stat. intros [n Hn]%bool_decide_eq_true.
  case_bool_decide; [done |].
  by destruct (lookup_path fs (resolve d)).
Qed.

End stage_file.

Lemma path_exists_ne d fs : path_exists d fs = true → d ≠ "".
Proof. intros H ->. by vm_compute in H. Qed.

(** [makedirs] refuses a path that is there. *)
Lemma makedirs_present d fs :
  path_exists d fs = true → makedirs d fs = Raise FileExistsError.
Proof.
  intros Hex. unfold makedirs.
  rewrite bool_decide_eq_false_2 by by eapply path_exists_ne.
  by rewrite bool_decide_eq_true_2 by by apply path_exists_lookup.
Qed.

Lemma stage_file_is_name s : is_name (stage_file s) = true.
Proof. by destruct s. Qed.

Lemma stage_file_inj : Inj (=) (=) stage_file.
Proof. by intros [] [] ?. Qed.

Lemma stage_key_inj args : Inj (=) (=) (stage_key args).
Proof.
  intros s s' H. unfold stage_key in H.
  apply app_inv_head in H. simplify_eq. by apply stage_file_inj.
Qed.

Lemma stage_path_resolve args s :
  resolve (stage_path args s) = stage_key args s.
Proof. apply resolve_join, stage_file_is_name. Qed.

Lemma file_at_stage args s fs c :
  file_at (stage_path args s) fs = Some c ↔
  fs !! stage_key args s = Some (File c).
Proof.
  unfold stage_path. rewrite file_at_join by apply stage_file_is_name.
  fold (stage_key args s).
  destruct (fs !! stage_key args s) as [[|?]|]; naive_solver.
Qed.

Lemma path_exists_stage args s fs :
  path_exists (stage_path args s) fs =
  bool_decide (is_Some (fs !! stage_key args s)).
Proof. apply path_exists_join, stage_file_is_name. Qed.

Lemma text_at_stage args s fs c :
  fs !! stage_key args s = Some (File c) →
  text_at (stage_path args s) fs = Text.decode c.
Proof. intros H%file_at_stage. by apply file_at_text_at. Qed.

Lemma stage_path_inj args : Inj (=) (=) (stage_path args).
Proof.
  intros s s' H. apply (stage_key_inj args).
  by rewrite <- !stage_path_resolve, H.
Qed.

End FSFacts.

(** ** Sequencing and traces *)

Lemma bind_Ok {A B} (m : io A) (k : A → io B) w a w' :
  m w = (Ok a, w') → bind m k w = k a w'.
Proof. unfold bind. by intros ->. Qed.

Lemma bind_Raise {A B} (m : io A) (k : A → io B) w e w' :
  m w = (Raise e, w') → bind m k w = (Raise e, w').
Proof. unfold bind. by intros ->. Qed.

Lemma requests_app tr1 tr2 :
  requests (tr1 ++ tr2) = requests tr1 ++ requests tr2.
Proof.
  induction tr1 as [|[] tr1 IH]; simpl; [done | ..]; by rewrite ?IH.
Qed.

Lemma extends_refl P w : extends P w w.
Proof. exists []. by rewrite app_nil_r. Qed.

Lemma extends_trans P w1 w2 w3 :
  extends P w1 w2 → extends P w2 w3 → extends P w1 w3.
Proof.
  intros (n1 & H1 & F1) (n2 & H2 & F2). exists (n1 ++ n2).
  rewrite H2, H1, app_assoc. split; [done |]. by apply Forall_app.
Qed.

Lemma extends_log (P : event → Prop) w ev fs' :
  P ev → extends P w {| fs := fs'; trace := trace w ++ [ev] |}.
Proof. intros Hev. exists [ev]. split; [done |]. by apply Forall_singleton. Qed.

(** [open_write] in one step: the bytes land at the path when the file
    can be opened and the value can be encoded. *)
Lemma open_write_run path v w :
  open_write path v w =
  match FS.write path "" (fs w) with
  | Ok fs0 =>
      match encode v with
      | Ok bytes =>
          (Ok (), {| fs := <[Path.resolve path := File bytes]> (fs w);
                     trace := trace w ++ [EvWrite path v] |})
      | Raise ex =>
          (Raise ex, {| fs := fs0; trace := trace w ++ [EvWrite path v] |})
      end
  | Raise ex => (Raise ex, log (EvWrite path v) w)
  end.
Proof.
  unfold open_write. destruct (FS.write path "" (fs w)) eqn:Hw; [| done].
  apply FSFacts.write_Ok in Hw as ->.
  destruct (encode v); [| done]. by rewrite insert_insert_eq.
Qed.

Section keeps.
Context (I : gmap (list string) node → Prop) (P : event → Prop).

Lemma keeps_ret {A} (a : A) : keeps I P (ret a).
Proof. intros w HI. split; [done | apply extends_refl]. Qed.

Lemma keeps_bind {A B} (m : io A) (k : A → io B) :
  keeps I P m → (∀ a, keeps I P (k a)) → keeps I P (bind m k).
Proof.
  intros Hm Hk w HI. destruct (Hm w HI) as [HI' He]. unfold bind.
  destruct (m w) as [[a | e] w']; simpl in *; [| done].
  destruct (Hk a w' HI') as [HI'' He'].
  split; [done |]. by eapply extends_trans.
Qed.

Lemma keeps_if {A} (b : bool) (m1 m2 : io A) :
  keeps I P m1 → keeps I P m2 → keeps I P (if b then m1 else m2).
Proof. by destruct b. Qed.

Lemma keeps_print line : P (EvPrint line) → keeps I P (print line).
Proof. intros HP w HI. split; [done | by apply extends_log]. Qed.

Lemma keeps_os_path_exists path : keeps I P (os_path_exists path).
Proof. intros w HI. split; [done | apply extends_refl]. Qed.

Lemma keeps_open_read path : P (EvRead path) → keeps I P (open_read path).
Proof.
  intros HP w HI. unfold open_read.
  destruct (FS.read path (fs w)); (split; [done | by apply extends_log]).
Qed.

Lemma keeps_convert_from_path e path :
  P (EvConvert path) → keeps I P (convert_from_path e path).
Proof.
  intros HP w HI. unfold convert_from_path.
  destruct (FS.file_at path (fs w)) as [b|]; [destruct (render e b) |];
    (split; [done | by apply extends_log]).
Qed.

Lemma keeps_chat_completions_create e r :
  P (EvCreate r) → keeps I P (chat_completions_create e r).
Proof.
  intros HP w HI. unfold chat_completions_create.
  destruct (create e _ r); (split; [done | by apply extends_log]).
Qed.

Lemma keeps_os_makedirs path :
  P (EvMakedirs path) →
  (∀ fs fs', I fs → FS.makedirs path fs = Ok fs' → I fs') →
  keeps I P (os_makedirs path).
Proof.
  intros HP Hfs w HI. unfold os_makedirs.
  destruct (FS.makedirs path (fs w)) eqn:Hmk; simpl;
    (split; [eauto | by apply extends_log]).
Qed.

Lemma keeps_raise {A} ex : keeps I P (raise (A:=A) ex).
Proof. intros w HI. split; [done | apply extends_refl]. Qed.

Lemma keeps_operand v : keeps I P (operand v).
Proof. destruct v; [apply keeps_ret | apply keeps_raise]. Qed.

Lemma keeps_open_write path v :
  P (EvWrite path v) →
  (∀ bytes fs fs', I fs → FS.write path bytes fs = Ok fs' → I fs') →
  keeps I P (open_write path v).
Proof.
  intros HP Hfs w HI. rewrite open_write_run.
  destruct (FS.write path "" (fs w)) eqn:Hw; simpl;
    [| split; [done | by apply extends_log]].
  destruct (encode v) as [bytes | ex]; simpl;
    (split; [| by apply extends_log]).
  - eapply Hfs; [exact HI |]. by eapply FSFacts.write_bytes.
  - by eapply Hfs.
Qed.

End keeps.

(** ** The stages of [main] *)

Section stages.
Import Path PathFacts FS FSFacts.
Context (e : env) (args : cli_args).

Lemma stage_block_run_stage t1 t2 t3 s :
  stage_block e args t1 t2 t3 s =
  run_stage (output_dir args) (stage_file s) (hit_message s)
    (miss_message s) (stage_compute e args t1 t2 t3 s).
Proof. by destruct s. Qed.

Lemma stage_exists s w :
  os_path_exists (stage_path args s) w =
  (Ok (bool_decide (is_Some (fs w !! stage_key args s))), w).
Proof.
  unfold os_path_exists, stage_path.
  by rewrite path_exists_join by apply stage_file_is_name.
Qed.

(** A stage whose file is there reads it and does nothing else. *)
Lemma stage_hit_read t1 t2 t3 s w c :
  fs w !! stage_key args s = Some (File c) →
  stage_block e args t1 t2 t3 s w =
  (match Text.decode c with
   | Some text => Ok (PyStr text)
   | None => Raise UnicodeDecodeError
   end,
   {| fs := fs w; trace := trace w ++ hit_events args s |}).
Proof.
  intros Hk. rewrite stage_block_run_stage. unfold run_stage.
  erewrite bind_Ok by apply stage_exists.
  rewrite bool_decide_eq_true_2 by by rewrite Hk.
  erewrite bind_Ok by reflexivity.
  unfold load_result, bind, open_read. fold (stage_path args s).
  unfold stage_path at 1.
  rewrite read_join by apply stage_file_is_name.
  simpl. fold (stage_key args s). rewrite Hk.
  unfold log, ret. destruct (Text.decode c); simpl; by rewrite <- app_assoc.
Qed.

Lemma stage_hit t1 t2 t3 s w c text :
  fs w !! stage_key args s = Some (File c) →
  Text.decode c = Some text →
  stage_block e args t1 t2 t3 s w =
  (Ok (PyStr text), {| fs := fs w; trace := trace w ++ hit_events args s |}).
Proof. intros Hk Hc. by rewrite (stage_hit_read _ _ _ _ _ c), Hc. Qed.

Lemma stage_hit_undecodable t1 t2 t3 s w c :
  fs w !! stage_key args s = Some (File c) →
  Text.decode c = None →
  stage_block e args t1 t2 t3 s w =
  (Raise UnicodeDecodeError,
   {| fs := fs w; trace := trace w ++ hit_events args s |}).
Proof. intros Hk Hc. by rewrite (stage_hit_read _ _ _ _ _ c), Hc. Qed.

(** A stage whose file is not there computes, then saves. *)
Lemma stage_miss t1 t2 t3 s w :
  fs w !! stage_key args s = None →
  stage_block e args t1 t2 t3 s w =
  (text <- stage_compute e args t1 t2 t3 s;;
   save_result (output_dir args) (stage_file s) text;;
   ret text) (log (EvPrint (miss_message s)) w).
Proof.
  intros Hk. rewrite stage_block_run_stage. unfold run_stage.
  erewrite bind_Ok by apply stage_exists.
  rewrite bool_decide_eq_false_2 by (rewrite Hk; by intros [? ?]).
  by erewrite bind_Ok by reflexivity.
Qed.

(** [save_result] of a text into a directory, over anything but a
    directory. *)
Lemma save_result_ok s text w :
  lookup_path (fs w) (resolve (output_dir args)) = Some Dir →
  fs w !! stage_key args s ≠ Some Dir →
  Text.utf8_valid text = true →
  save_result (output_dir args) (stage_file s) (PyStr text) w =
  (Ok (), {| fs := <[stage_key args s := File text]> (fs w);
             trace := trace w ++ save_events args s text |}).
Proof.
  intros Hd Hk Hv. unfold save_result, bind. rewrite open_write_run.
  rewrite write_join by apply stage_file_is_name.
  fold (stage_key args s). rewrite Hd. simpl. rewrite Hv.
  rewrite resolve_join by apply stage_file_is_name.
  unfold print, log, save_events, stage_path.
  destruct (fs w !! stage_key args s) as [[|?]|]; [done | ..];
    simpl; by rewrite <- app_assoc.
Qed.

(** [save_result] of a value that cannot be written leaves an empty
    file. *)
Lemma save_result_unwritable s v ex w :
  lookup_path (fs w) (resolve (output_dir args)) = Some Dir →
  fs w !! stage_key args s ≠ Some Dir →
  encode v = Raise ex →
  save_result (output_dir args) (stage_file s) v w =
  (Raise ex, {| fs := <[stage_key args s := File ""]> (fs w);
                trace := trace w ++ [EvWrite (stage_path args s) v] |}).
Proof.
  intros Hd Hk Hv. unfold save_result, bind. rewrite open_write_run.
  rewrite write_join by apply stage_file_is_name.
  fold (stage_key args s). rewrite Hd, Hv.
  by destruct (fs w !! stage_key args s) as [[|?]|].
Qed.

Lemma main_output_dir_present w :
  path_exists (output_dir args) (fs w) = true →
  main_output_dir args w = (Ok (), w).
Proof.
  intros Hd. unfold main_output_dir.
  erewrite bind_Ok by reflexivity. by rewrite Hd.
Qed.

Lemma main_report_run v1 v2 v3 v4 w :
  main_report v1 v2 v3 v4 w =
  (Ok (),
   {| fs := fs w;
      trace := trace w
               ++ (EvPrint <$> report (py_str v1) (py_str v2) (py_str v3)
                                      (py_str v4)) |}).
Proof.
  unfold main_report, bind, print, log. simpl.
  by rewrite <- !app_assoc.
Qed.

End stages.

(** Each block of [main] is [run_stage] on the file, the two messages and
    the function of its stage. *)
Theorem main_blocks_are_run_stage (e : env) (args : cli_args)
    (t1 t2 t3 : value) :
  main_extracted_text e args =
    run_stage (output_dir args) extracted_text_file
      (hit_message Extract) (miss_message Extract)
      (extract_text_via_gpt4o e (pdf_path args)) ∧
  main_main_theorem e args t1 =
    run_stage (output_dir args) main_theorem_file
      (hit_message MainTheorem) (miss_message MainTheorem)
      (extract_main_theorem e t1) ∧
  main_proof e args t2 =
    run_stage (output_dir args) proof_file
      (hit_message Prove) (miss_message Prove) (prove_theorem e t2) ∧
  main_validation e args t2 t3 =
    run_stage (output_dir args) validation_file
      (hit_message Validate) (miss_message Validate)
      (validate_proof e t2 t3).
Proof. by split_and!. Qed.

(** ** C1: a rerun over a complete output directory *)

Section rerun.
Context (e : env) (args : cli_args) (w : world) (c1 c2 c3 c4 : string).
Hypothesis Hdir : FS.path_exists (output_dir args) (fs w) = true.
Hypothesis H1 : fs w !! stage_key args Extract = Some (File c1).
Hypothesis H2 : fs w !! stage_key args MainTheorem = Some (File c2).
Hypothesis H3 : fs w !! stage_key args Prove = Some (File c3).
Hypothesis H4 : fs w !! stage_key args Validate = Some (File c4).

(** The run over four files: each is read in turn, as far as they are
    UTF-8, and the report follows the fourth. *)
Lemma all_cached_run :
  main e args w =
  match Text.decode c1 with
  | None =>
      (Raise UnicodeDecodeError,
       {| fs := fs w; trace := trace w ++ hit_events args Extract |})
  | Some t1 =>
      match Text.decode c2 with
      | None =>
          (Raise UnicodeDecodeError,
           {| fs := fs w;
              trace := trace w ++ hit_events args Extract
                       ++ hit_events args MainTheorem |})
      | Some t2 =>
          match Text.decode c3 with
          | None =>
              (Raise UnicodeDecodeError,
               {| fs := fs w;
                  trace := trace w ++ hit_events args Extract
                           ++ hit_events args MainTheorem
                           ++ hit_events args Prove |})
          | Some t3 =>
              match Text.decode c4 with
              | None =>
                  (Raise UnicodeDecodeError,
                   {| fs := fs w;
                      trace := trace w ++ hit_events args Extract
                               ++ hit_events args MainTheorem
                               ++ hit_events args Prove
                               ++ hit_events args Validate |})
              | Some t4 =>
                  (Ok (),
                   {| fs := fs w;
                      trace := trace w ++ hit_events args Extract
                               ++ hit_events args MainTheorem
                               ++ hit_events args Prove
                               ++ hit_events args Validate
                               ++ (EvPrint <$> report t1 t2 t3 t4) |})
              end
          end
      end
  end.
Proof.
  unfold main.
  erewrite bind_Ok by by apply main_output_dir_present.
  destruct (Text.decode c1) as [t1 |] eqn:D1.
  2: { by erewrite bind_Raise
         by by apply (stage_hit_undecodable e args PyNone PyNone PyNone
                        Extract _ c1). }
  erewrite bind_Ok
    by by apply (stage_hit e args PyNone PyNone PyNone Extract _ c1).
  destruct (Text.decode c2) as [t2 |] eqn:D2.
  2: { erewrite bind_Raise
         by by apply (stage_hit_undecodable e args (PyStr t1) PyNone PyNone
                        MainTheorem _ c2).
       simpl. by rewrite <- !app_assoc. }
  erewrite bind_Ok
    by by apply (stage_hit e args (PyStr t1) PyNone PyNone MainTheorem _ c2).
  destruct (Text.decode c3) as [t3 |] eqn:D3.
  2: { erewrite bind_Raise
         by by apply (stage_hit_undecodable e args PyNone (PyStr t2) PyNone
                        Prove _ c3).
       simpl. by rewrite <- !app_assoc. }
  erewrite bind_Ok
    by by apply (stage_hit e args PyNone (PyStr t2) PyNone Prove _ c3).
  destruct (Text.decode c4) as [t4 |] eqn:D4.
  2: { erewrite bind_Raise
         by by apply (stage_hit_undecodable e args PyNone (PyStr t2)
                        (PyStr t3) Validate _ c4).
       simpl. by rewrite <- !app_assoc. }
  erewrite bind_Ok
    by by apply (stage_hit e args PyNone (PyStr t2) (PyStr t3) Validate _ c4).
  rewrite main_report_run. simpl. by rewrite <- !app_assoc.
Qed.

Lemma all_cached_quiet :
  fs (snd (main e args w)) = fs w ∧
  requests (trace (snd (main e args w))) = requests (trace w).
Proof.
  rewrite all_cached_run.
  destruct (Text.decode c1), (Text.decode c2), (Text.decode c3),
    (Text.decode c4); simpl;
    (split; [done |]); rewrite !requests_app; simpl;
    rewrite ?requests_app; simpl; by rewrite ?app_nil_r.
Qed.

End rerun.

(** C1 (amended).  When the output directory holds the four stage
    files, [main] makes no request and changes no file, whatever the
    service and the renderer do.  It reads the files in order, in text
    mode: when the four are UTF-8 it succeeds and reports their texts,
    that is, their contents with every "\r\n" and "\r" turned into "\n";
    a first file that is not UTF-8 ends the run with
    [UnicodeDecodeError].  For files that are UTF-8 and hold no carriage
    return, the texts reported are the contents themselves. *)
Theorem rerun_all_cached (e : env) (args : cli_args) (w : world)
    (c1 c2 c3 c4 : string) :
  FS.is_dir (output_dir args) (fs w) = true →
  FS.file_at (stage_path args Extract) (fs w) = Some c1 →
  FS.file_at (stage_path args MainTheorem) (fs w) = Some c2 →
  FS.file_at (stage_path args Prove) (fs w) = Some c3 →
  FS.file_at (stage_path args Validate) (fs w) = Some c4 →
  let w' := snd (main e args w) in
  let hits := hit_events args Extract ++ hit_events args MainTheorem
              ++ hit_events args Prove ++ hit_events args Validate in
  requests (trace w') = requests (trace w) ∧
  fs w' = fs w ∧
  (∀ t1 t2 t3 t4,
     Text.decode c1 = Some t1 → Text.decode c2 = Some t2 →
     Text.decode c3 = Some t3 → Text.decode c4 = Some t4 →
     main e args w =
       (Ok (),
        {| fs := fs w;
           trace := trace w ++ hits ++ (EvPrint <$> report t1 t2 t3 t4) |}) ∧
     t1 = Text.universal_newlines c1 ∧ t2 = Text.universal_newlines c2 ∧
     t3 = Text.universal_newlines c3 ∧ t4 = Text.universal_newlines c4) ∧
  (Forall (λ c, Text.utf8_valid c = true ∧ Text.cr_free c = true)
     [c1; c2; c3; c4] →
   main e args w =
     (Ok (),
      {| fs := fs w;
         trace := trace w ++ hits ++ (EvPrint <$> report c1 c2 c3 c4) |})) ∧
  (Exists (λ c, Text.decode c = None) [c1; c2; c3; c4] →
   fst (main e args w) = Raise UnicodeDecodeError).
Proof.
  intros Hd%FSFacts.is_dir_exists H1%FSFacts.file_at_stage
    H2%FSFacts.file_at_stage H3%FSFacts.file_at_stage
    H4%FSFacts.file_at_stage. cbv zeta.
  destruct (all_cached_quiet e args w c1 c2 c3 c4) as [Hfs Hreq]; try done.
  pose proof (all_cached_run e args w c1 c2 c3 c4 Hd H1 H2 H3 H4) as Hrun.
  split_and!; [done | done | | |].
  - intros t1 t2 t3 t4 D1 D2 D3 D4. rewrite D1, D2, D3, D4 in Hrun.
    rewrite Hrun, <- !app_assoc.
    apply TextFacts.decode_Some in D1 as [_ ->].
    apply TextFacts.decode_Some in D2 as [_ ->].
    apply TextFacts.decode_Some in D3 as [_ ->].
    by apply TextFacts.decode_Some in D4 as [_ ->].
  - intros Hall. repeat (apply Forall_cons in Hall as [[? ?] Hall]).
    rewrite !TextFacts.decode_valid in Hrun by done.
    rewrite !TextFacts.universal_newlines_id in Hrun by done.
    by rewrite Hrun, <- !app_assoc.
  - intros Hex. rewrite Hrun.
    repeat (apply Exists_cons in Hex as [Hex | Hex]);
      [.. | by apply Exists_nil in Hex];
      rewrite Hex;
      by destruct (Text.decode c1), (Text.decode c2), (Text.decode c3).
Qed.

(** A complete output directory and a service that always fails. *)
Lemma rerun_all_cached_witness :
  let w := {| fs := cached_fs; trace := [] |} in
  requests (trace (snd (main failing_env sample_args w))) = [] ∧
  fs (snd (main failing_env sample_args w)) = cached_fs ∧
  main failing_env sample_args w =
    (Ok (),
     {| fs := cached_fs;
        trace := hit_events sample_args Extract
                 ++ hit_events sample_args MainTheorem
                 ++ hit_events sample_args Prove
                 ++ hit_events sample_args Validate
                 ++ (EvPrint <$> report "page one" "1 + 1 = 2"
                                   "by induction" "fine") |}).
Proof.
  destruct (rerun_all_cached failing_env sample_args
              {| fs := cached_fs; trace := [] |}
              "page one" "1 + 1 = 2" "by induction" "fine"
              eq_refl eq_refl eq_refl eq_refl eq_refl)
    as (Hreq & Hfs & Htext & _ & _).
  split_and!; [exact Hreq | exact Hfs |].
  exact (proj1 (Htext _ _ _ _ eq_refl eq_refl eq_refl eq_refl)).
Defined.

(** C1 as stated fails on a file that holds a carriage return, and on a
    file that is not UTF-8.  With ["page one\r\n"] in
    [extracted_text.txt] the run succeeds and the first result it
    reports is ["page one\n"], which is not the contents of the file;
    with the single byte 233 in it the run ends in [UnicodeDecodeError]
    after reading that file and reports nothing. *)
Lemma rerun_all_cached_not_verbatim :
  let crlf := String Text.cr (String Text.lf "") in
  let w := {| fs := crlf_cached_fs; trace := [] |} in
  let w0 := {| fs := latin1_cached_fs; trace := [] |} in
  FS.is_dir (output_dir sample_args) (fs w) = true ∧
  FS.file_at (stage_path sample_args Extract) (fs w)
    = Some ("page one" +:+ crlf) ∧
  FS.file_at (stage_path sample_args MainTheorem) (fs w) = Some "1 + 1 = 2" ∧
  FS.file_at (stage_path sample_args Prove) (fs w) = Some "by induction" ∧
  FS.file_at (stage_path sample_args Validate) (fs w) = Some "fine" ∧
  main failing_env sample_args w =
    (Ok (),
     {| fs := crlf_cached_fs;
        trace := hit_events sample_args Extract
                 ++ hit_events sample_args MainTheorem
                 ++ hit_events sample_args Prove
                 ++ hit_events sample_args Validate
                 ++ (EvPrint <$> report ("page one" +:+ LF) "1 + 1 = 2"
                                   "by induction" "fine") |}) ∧
  "page one" +:+ LF ≠ "page one" +:+ crlf ∧
  FS.file_at (stage_path sample_args Extract) (fs w0)
    = Some (String (ascii_of_nat 233) "") ∧
  main failing_env sample_args w0 =
    (Raise UnicodeDecodeError,
     {| fs := latin1_cached_fs; trace := hit_events sample_args Extract |}).
Proof. vm_compute. by split_and!. Qed.

(** ** C2: the page loop *)

Lemma world_eta w : {| fs := fs w; trace := trace w |} = w.
Proof. by destruct w. Qed.

Lemma extract_pages_run e i images full_text w texts :
  replies e (requests (trace w)) (image_request <$> images) = Some texts →
  extract_pages e i images full_text w =
  (Ok (full_text +:+ join_pages texts),
   {| fs := fs w; trace := trace w ++ page_events i images |}).
Proof.
  revert i full_text w texts.
  induction images as [|image images IH]; intros i full_text w texts Hr.
  - simpl in Hr. simplify_eq. simpl.
    by rewrite append_nil_r, app_nil_r, world_eta.
  - simpl in Hr.
    destruct (create e _ _) as [[text|]|] eqn:Hc; [| done..].
    destruct (replies e _ _) as [texts'|] eqn:Hr'; [| done].
    simplify_eq. simpl.
    erewrite bind_Ok by reflexivity.
    unfold process_image_with_gpt4o.
    erewrite bind_Ok; last first.
    { unfold chat_completions_create, log. simpl.
      rewrite requests_app. simpl. by rewrite app_nil_r, Hc. }
    erewrite bind_Ok by reflexivity.
    rewrite (IH _ _ _ texts'); simpl.
    + by rewrite append_assoc, <- !app_assoc.
    + rewrite !requests_app. simpl. by rewrite app_nil_r.
Qed.

Lemma requests_page_events i images :
  requests (page_events i images) = image_request <$> images.
Proof.
  revert i. induction images as [|image images IH]; intros i; simpl;
    [done | by rewrite IH].
Qed.

Lemma replies_length e history reqs texts :
  replies e history reqs = Some texts → length texts = length reqs.
Proof.
  revert history texts.
  induction reqs as [|r reqs IH]; intros history texts H; simpl in H.
  - by simplify_eq.
  - destruct (create e history r) as [[text|]|]; [| done..].
    destruct (replies e _ reqs) eqn:Hr; [| done].
    simplify_eq. simpl. f_equal. by eapply IH.
Qed.

Lemma extract_text_via_gpt4o_run e pdf w bytes images texts :
  FS.file_at pdf (fs w) = Some bytes →
  render e bytes = Some images →
  replies e (requests (trace w)) (image_request <$> images) = Some texts →
  extract_text_via_gpt4o e pdf w =
  (Ok (PyStr (join_pages texts)),
   {| fs := fs w; trace := trace w ++ EvConvert pdf :: page_events 0 images |}).
Proof.
  intros Hf Hr Ht. unfold extract_text_via_gpt4o.
  erewrite bind_Ok; last first.
  { unfold convert_from_path. by rewrite Hf, Hr. }
  erewrite bind_Ok; last first.
  { apply (extract_pages_run _ _ _ _ _ texts). simpl.
    rewrite requests_app. simpl. by rewrite app_nil_r. }
  unfold ret. simpl. by rewrite <- app_assoc.
Qed.

(** C2.  When [extracted_text.txt] is not there and the service answers
    the page requests with [texts], the extraction stage renders the
    document, makes exactly one request per page, in page order (the
    [i]-th after announcing page [i]), and the text it saves and returns
    is the page texts in that order, each followed by a newline. *)
Theorem extraction_page_order (e : env) (args : cli_args) (w : world)
    (bytes : string) (images : list image) (texts : list string) :
  1 ≤ length images →
  FS.path_exists (stage_path args Extract) (fs w) = false →
  FS.file_at (pdf_path args) (fs w) = Some bytes →
  render e bytes = Some images →
  replies e (requests (trace w)) (image_request <$> images) = Some texts →
  main_extracted_text e args w =
    (save_result (output_dir args) extracted_text_file
       (PyStr (join_pages texts));;
     ret (PyStr (join_pages texts)))
      {| fs := fs w;
         trace := trace w
                  ++ EvPrint (miss_message Extract)
                  :: EvConvert (pdf_path args) :: page_events 0 images |} ∧
  requests (page_events 0 images) = image_request <$> images ∧
  length texts = length images.
Proof.
  intros _ He Hf Hr Ht. split_and!.
  - rewrite FSFacts.path_exists_stage in He.
    apply bool_decide_eq_false in He.
    change (main_extracted_text e args)
      with (stage_block e args PyNone PyNone PyNone Extract).
    rewrite (stage_miss e args PyNone PyNone PyNone Extract) by
      (by destruct (fs w !! stage_key args Extract); [destruct He |]).
    simpl. erewrite bind_Ok; last first.
    { apply (extract_text_via_gpt4o_run _ _ _ bytes images texts); simpl;
        [done.. |].
      rewrite requests_app. simpl. by rewrite app_nil_r. }
    simpl. by rewrite <- app_assoc.
  - apply requests_page_events.
  - apply replies_length in Ht. by rewrite length_fmap in Ht.
Qed.

(** Three pages: the requests are those of pages 1, 2, 3 and the text is
    ["R0\nR1\nR2\n"]. *)
Lemma extraction_page_order_witness :
  let w := {| fs := <[["out"] := Dir]> paper_fs; trace := [] |} in
  main_extracted_text counting_env sample_args w =
    (save_result "out" extracted_text_file
       (PyStr ("R0" +:+ LF +:+ "R1" +:+ LF +:+ "R2" +:+ LF));;
     ret (PyStr ("R0" +:+ LF +:+ "R1" +:+ LF +:+ "R2" +:+ LF)))
      {| fs := <[["out"] := Dir]> paper_fs;
         trace := EvPrint (miss_message Extract)
                  :: EvConvert "paper.pdf" :: page_events 0 three_pages |} ∧
  requests (page_events 0 three_pages) = image_request <$> three_pages ∧
  length ["R0"; "R1"; "R2"] = length three_pages.
Proof.
  exact (extraction_page_order counting_env sample_args
           {| fs := <[["out"] := Dir]> paper_fs; trace := [] |}
           "%PDF" three_pages ["R0"; "R1"; "R2"]
           ltac:(simpl; lia) eq_refl eq_refl eq_refl eq_refl).
Defined.

(** ** What a run cannot do: C3 and C8 *)

Lemma issued_by_call_site s r : issued_by s r → call_site r = Some s.
Proof.
  destruct s; simpl.
  - by intros [image ->].
  - by intros [t ->].
  - by intros [t ->].
  - by intros (t & p & ->).
Qed.

Lemma issued_by_inj s s' r : issued_by s r → issued_by s' r → s = s'.
Proof. intros H1%issued_by_call_site H2%issued_by_call_site. congruence. Qed.

Lemma issued_by_temperature s r :
  issued_by s r → temperature r = QArith_base.Qmake 0 1.
Proof.
  destruct s; simpl.
  - by intros [image ->].
  - by intros [t ->].
  - by intros [t ->].
  - by intros (t & p & ->).
Qed.

Section keeps_program.
Context (I : gmap (list string) node → Prop) (P : event → Prop).
Context (e : env) (args : cli_args).
Hypothesis P_print : ∀ line, P (EvPrint line).
Hypothesis P_read : ∀ path, P (EvRead path).
Hypothesis P_makedirs : ∀ path, P (EvMakedirs path).
Hypothesis I_makedirs :
  ∀ fs fs', I fs → FS.makedirs (output_dir args) fs = Ok fs' → I fs'.

Lemma keeps_extract_pages i images full_text :
  (∀ image, P (EvCreate (image_request image))) →
  keeps I P (extract_pages e i images full_text).
Proof.
  intros HP. revert i full_text.
  induction images as [|image images IH]; intros i full_text; simpl.
  - apply keeps_ret.
  - apply keeps_bind; [by apply keeps_print |]. intros _.
    apply keeps_bind; [by apply keeps_chat_completions_create |].
    intros page. apply keeps_bind; [apply keeps_operand |].
    intros text. apply IH.
Qed.

Lemma keeps_stage_compute t1 t2 t3 s :
  (s = Extract → ∀ path, P (EvConvert path)) →
  (∀ r, issued_by s r → P (EvCreate r)) →
  keeps I P (stage_compute e args t1 t2 t3 s).
Proof.
  intros HPc HP. destruct s; simpl.
  - apply keeps_bind; [by apply keeps_convert_from_path, HPc |].
    intros images.
    apply keeps_bind; [| intros text; apply keeps_ret].
    apply keeps_extract_pages. intros image. apply HP. by exists image.
  - apply keeps_bind; [apply keeps_operand |]. intros t.
    apply keeps_chat_completions_create, HP. by exists t.
  - apply keeps_bind; [apply keeps_operand |]. intros t.
    apply keeps_chat_completions_create, HP. by exists t.
  - apply keeps_bind; [apply keeps_operand |]. intros t.
    apply keeps_bind; [apply keeps_operand |]. intros p.
    apply keeps_chat_completions_create, HP. by exists t, p.
Qed.

(** A stage that may write its file and call its function. *)
Lemma keeps_stage_block t1 t2 t3 s :
  (s = Extract → ∀ path, P (EvConvert path)) →
  (∀ r, issued_by s r → P (EvCreate r)) →
  (∀ v, P (EvWrite (stage_path args s) v)) →
  (∀ bytes fs fs', I fs →
     FS.write (stage_path args s) bytes fs = Ok fs' → I fs') →
  keeps I P (stage_block e args t1 t2 t3 s).
Proof.
  intros HPr HPc HPw HI. rewrite stage_block_run_stage. unfold run_stage.
  apply keeps_bind; [apply keeps_os_path_exists |]. intros present.
  apply keeps_if.
  - apply keeps_bind; [by apply keeps_print |]. intros _.
    apply keeps_bind; [by apply keeps_open_read |]. intros text.
    apply keeps_ret.
  - apply keeps_bind; [by apply keeps_print |]. intros _.
    apply keeps_bind; [by apply keeps_stage_compute |]. intros text.
    apply keeps_bind; [| intros _; apply keeps_ret].
    apply keeps_bind; [| intros _; by apply keeps_print].
    apply keeps_open_write; [apply HPw | apply HI].
Qed.

Lemma keeps_main_output_dir : keeps I P (main_output_dir args).
Proof.
  unfold main_output_dir.
  apply keeps_bind; [apply keeps_os_path_exists |]. intros present.
  apply keeps_if; [| apply keeps_ret].
  apply keeps_bind; [| intros _; by apply keeps_print].
  apply keeps_os_makedirs; [done |]. apply I_makedirs.
Qed.

Lemma keeps_main_report t1 t2 t3 t4 : keeps I P (main_report t1 t2 t3 t4).
Proof.
  unfold main_report.
  repeat (apply keeps_bind; [by apply keeps_print | intros _]).
  by apply keeps_print.
Qed.

(** [main] keeps what each of its four blocks keeps. *)
Lemma keeps_main_stages :
  (∀ t1 t2 t3 s, keeps I P (stage_block e args t1 t2 t3 s)) →
  keeps I P (main_stages e args).
Proof.
  intros Hs. unfold main_stages.
  apply keeps_bind; [apply (Hs PyNone PyNone PyNone Extract) |]. intros t1.
  apply keeps_bind; [apply (Hs t1 PyNone PyNone MainTheorem) |]. intros t2.
  apply keeps_bind; [apply (Hs PyNone t2 PyNone Prove) |]. intros t3.
  apply keeps_bind; [apply (Hs PyNone t2 t3 Validate) |]. intros t4.
  apply keeps_main_report.
Qed.

Lemma keeps_main :
  (∀ t1 t2 t3 s, keeps I P (stage_block e args t1 t2 t3 s)) →
  keeps I P (main e args).
Proof.
  intros Hs. change (main e args) with (main_output_dir args;; main_stages e args).
  apply keeps_bind; [apply keeps_main_output_dir |]. intros _.
  by apply keeps_main_stages.
Qed.

End keeps_program.

(** C3.  If the file of a stage is there when [main] starts, then,
    however the run goes on and ends, the file is there afterwards with
    the same contents, no event of the run writes to it, and the stage is
    not computed: no request of the run is one that the function
    computing this stage builds and, for the extraction, the document is
    not rendered. *)
Theorem cached_stage_untouched (e : env) (args : cli_args) (w : world)
    (s : stage) (c : string) :
  FS.file_at (stage_path args s) (fs w) = Some c →
  let w' := snd (main e args w) in
  FS.file_at (stage_path args s) (fs w') = Some c ∧
  extends (untouched args s) w w'.
Proof.
  intros Hc. simpl. rewrite !FSFacts.file_at_stage in *.
  apply (keeps_main (λ fs, fs !! stage_key args s = Some (File c))
           (untouched args s)); try done.
  { intros fs0 fs' H0 Hmk. by eapply FSFacts.makedirs_keeps. }
  intros t1 t2 t3 s'. destruct (decide (s' = s)) as [-> | Hne].
  - intros w0 H0. rewrite (stage_hit_read _ _ _ _ _ _ _ c H0). simpl.
    split; [done |]. exists (hit_events args s). split; [done |].
    by repeat constructor.
  - apply keeps_stage_block; try done.
    + simpl. by intros -> _ ->.
    + intros r Hr Hr'. by destruct Hne; eapply issued_by_inj.
    + simpl. by intros _ ?%FSFacts.stage_path_inj.
    + intros text fs0 fs' H0 Hw.
      rewrite (FSFacts.write_join_other _ _ (FSFacts.stage_file_is_name s')
                 _ _ _ _ Hw); [done |].
      by intros ?%FSFacts.stage_key_inj.
Qed.

(** [main_theorem.txt] is there, the other three files are not: the run
    computes and writes them and leaves [main_theorem.txt] alone. *)
Lemma cached_stage_untouched_witness :
  let w := {| fs := theorem_only_fs; trace := [] |} in
  let w' := snd (main counting_env sample_args w) in
  FS.file_at (stage_path sample_args MainTheorem) (fs w') = Some "1 + 1 = 2" ∧
  extends (untouched sample_args MainTheorem) w w'.
Proof.
  exact (cached_stage_untouched counting_env sample_args
           {| fs := theorem_only_fs; trace := [] |} MainTheorem "1 + 1 = 2"
           eq_refl).
Defined.

(** C8.  The request built for a page and the request built from a
    prompt have temperature 0, and every request made during a run of
    [main], however it ends, has temperature 0. *)
Theorem zero_temperature_sampling :
  (∀ image, temperature (image_request image) = QArith_base.Qmake 0 1) ∧
  (∀ prompt, temperature (prompt_request prompt) = QArith_base.Qmake 0 1) ∧
  (∀ e args w, extends zero_temperature w (snd (main e args w))).
Proof.
  split_and!; [done.. |]. intros e args w.
  apply (keeps_main (λ _, True) zero_temperature); try done.
  intros t1 t2 t3 s. apply keeps_stage_block; try done.
  intros r Hr. simpl. by eapply issued_by_temperature.
Qed.

(** ** The output directory block *)

Section startup.
Import Path PathFacts FS FSFacts.
Context (args : cli_args).
#[local] Abbreviation d := (output_dir args).

Lemma main_output_dir_created w fs1 :
  makedirs d (fs w) = Ok fs1 →
  main_output_dir args w =
  (Ok (), {| fs := fs1; trace := trace w ++ created_events d |}).
Proof.
  intros Hmk. pose proof (makedirs_absent _ _ _ Hmk) as Hex.
  unfold main_output_dir. erewrite bind_Ok by reflexivity.
  rewrite Hex. simpl. unfold bind, os_makedirs. rewrite Hmk.
  unfold print, log, created_events. simpl. by rewrite <- app_assoc.
Qed.

Lemma main_output_dir_failed w ex :
  path_exists d (fs w) = false →
  makedirs d (fs w) = Raise ex →
  main_output_dir args w = (Raise ex, log (EvMakedirs d) w).
Proof.
  intros Hex Hmk. unfold main_output_dir.
  erewrite bind_Ok by reflexivity.
  rewrite Hex. simpl. unfold bind, os_makedirs. by rewrite Hmk.
Qed.

Lemma usable_startable fs :
  usable_output_dir d fs → startable_output_dir d fs.
Proof. intros [Hd | Hmk]; [left; by apply is_dir_exists | by right]. Qed.

(** When [main] can start, the block succeeds. *)
Lemma main_output_dir_startable w :
  startable_output_dir d (fs w) →
  main_output_dir args w =
  (Ok (), {| fs := startup_fs d (fs w);
             trace := trace w ++ startup_events d (fs w) |}).
Proof.
  unfold startup_fs, startup_events. intros [Hex | [fs1 Hmk]].
  - rewrite main_output_dir_present by done.
    rewrite makedirs_present by done. by rewrite app_nil_r, world_eta.
  - rewrite Hmk. by apply main_output_dir_created.
Qed.

Lemma main_output_dir_usable w :
  usable_output_dir d (fs w) →
  main_output_dir args w =
  (Ok (), {| fs := startup_fs d (fs w);
             trace := trace w ++ startup_events d (fs w) |}).
Proof. intros H. by apply main_output_dir_startable, usable_startable. Qed.

Lemma startup_fs_is_dir fs :
  usable_output_dir d fs → is_dir d (startup_fs d fs) = true.
Proof.
  unfold startup_fs. intros [Hd | [fs1 Hmk]].
  - apply is_dir_exists in Hd as Hex. by rewrite makedirs_present.
  - rewrite Hmk. by eapply makedirs_is_dir.
Qed.

Lemma startup_fs_file_at fs path :
  file_at path (startup_fs d fs) = file_at path fs.
Proof.
  unfold startup_fs. destruct (makedirs d fs) eqn:Hmk; [| done].
  by eapply makedirs_file_at.
Qed.

Lemma startup_fs_child fs x :
  startup_fs d fs !! (resolve d ++ [x]) = fs !! (resolve d ++ [x]).
Proof.
  unfold startup_fs. destruct (makedirs d fs) eqn:Hmk; [| done].
  by eapply makedirs_child.
Qed.

Lemma startup_fs_stage fs s :
  startup_fs d fs !! stage_key args s = fs !! stage_key args s.
Proof. apply startup_fs_child. Qed.

End startup.

(** ** C7 and C9: a document that is not there *)

Lemma main_unfold e args :
  main e args = (main_output_dir args;; main_stages e args).
Proof. reflexivity. Qed.

(** Any run of the stages only adds events. *)
Lemma main_stages_extends e args w :
  extends (λ _, True) w (snd (main_stages e args w)).
Proof.
  apply (keeps_main_stages (λ _, True) (λ _, True)); try done.
  intros t1 t2 t3 s. by apply keeps_stage_block.
Qed.

(** The extraction stage on a miss without a valid document. *)
Lemma main_stages_no_document e args w :
  fs w !! stage_key args Extract = None →
  no_document e (pdf_path args) (fs w) →
  main_stages e args w =
  (Raise DocumentError,
   {| fs := fs w;
      trace := trace w ++ [EvPrint (miss_message Extract);
                           EvConvert (pdf_path args)] |}).
Proof.
  intros Hk Hdoc. unfold main_stages.
  erewrite bind_Raise; [done |].
  change (main_extracted_text e args) with (stage_block e args PyNone PyNone PyNone Extract).
  rewrite stage_miss by done. simpl.
  erewrite bind_Raise; [done |].
  unfold extract_text_via_gpt4o. erewrite bind_Raise; [done |].
  unfold convert_from_path, no_document, log in *. simpl.
  rewrite <- app_assoc. simpl.
  destruct (FS.file_at (pdf_path args) (fs w)); by rewrite ?Hdoc.
Qed.

Lemma stage_absent args s fs :
  FS.path_exists (stage_path args s) fs = false ↔
  fs !! stage_key args s = None.
Proof.
  rewrite FSFacts.path_exists_stage, bool_decide_eq_false.
  rewrite <- eq_None_not_Some. done.
Qed.

Lemma no_document_startup e args fs :
  no_document e (pdf_path args) fs →
  no_document e (pdf_path args) (startup_fs (output_dir args) fs).
Proof. unfold no_document. by rewrite startup_fs_file_at. Qed.

(** C7 (amended).  With an output directory that is there or can be
    made, no [extracted_text.txt] in it and no valid document at the
    input path, [main] raises [DocumentError] right after the attempt to
    render; the run makes no write and no request, no regular file is
    created or changed, and the stage files that exist are those that
    existed. *)
Theorem missing_document (e : env) (args : cli_args) (w : world) :
  startable_output_dir (output_dir args) (fs w) →
  FS.path_exists (stage_path args Extract) (fs w) = false →
  no_document e (pdf_path args) (fs w) →
  let w' := snd (main e args w) in
  main e args w =
    (Raise DocumentError,
     {| fs := startup_fs (output_dir args) (fs w);
        trace := trace w ++ startup_events (output_dir args) (fs w)
                 ++ [EvPrint (miss_message Extract);
                     EvConvert (pdf_path args)] |}) ∧
  extends no_write_no_request w w' ∧
  (∀ path, FS.file_at path (fs w') = FS.file_at path (fs w)) ∧
  (∀ s, FS.path_exists (stage_path args s) (fs w') =
        FS.path_exists (stage_path args s) (fs w)).
Proof.
  intros Hd Hk%stage_absent Hdoc.
  assert (main e args w =
    (Raise DocumentError,
     {| fs := startup_fs (output_dir args) (fs w);
        trace := trace w ++ startup_events (output_dir args) (fs w)
                 ++ [EvPrint (miss_message Extract);
                     EvConvert (pdf_path args)] |})) as Hrun.
  { rewrite main_unfold.
    erewrite bind_Ok by by apply main_output_dir_startable.
    rewrite main_stages_no_document; simpl.
    - by rewrite <- app_assoc.
    - by rewrite startup_fs_stage.
    - by apply no_document_startup. }
  simpl. rewrite Hrun. simpl. split_and!; [done | | |].
  - eexists. split; [done |]. unfold startup_events, created_events.
    destruct (FS.makedirs _ _); by repeat constructor.
  - intros path. apply startup_fs_file_at.
  - intros s. by rewrite !FSFacts.path_exists_stage, startup_fs_stage.
Qed.

Lemma fs_wf_empty : fs_wf ∅.
Proof. intros p x [n Hn]. by rewrite lookup_empty in Hn. Qed.

(** No document and no output directory: the directory is made, then
    the error is raised. *)
Lemma missing_document_witness :
  let w := {| fs := ∅; trace := [] |} in
  let w' := snd (main failing_env sample_args w) in
  main failing_env sample_args w =
    (Raise DocumentError,
     {| fs := <[["out"] := Dir]> ∅;
        trace := created_events "out"
                 ++ [EvPrint (miss_message Extract); EvConvert "paper.pdf"] |}) ∧
  extends no_write_no_request w w' ∧
  (∀ path, FS.file_at path (fs w') = FS.file_at path ∅) ∧
  (∀ s, FS.path_exists (stage_path sample_args s) (fs w') =
        FS.path_exists (stage_path sample_args s) ∅).
Proof.
  refine (missing_document failing_env sample_args {| fs := ∅; trace := [] |}
            _ eq_refl I).
  right. exists (<[["out"] := Dir]> ∅). reflexivity.
Defined.

(** C7 as stated fails when the output directory can neither be found
    nor made: [main] makes it before it looks at the document, and the
    error of [makedirs] ends the run before the renderer is called.
    With a regular file [notes] and no document, [-o notes/out] ends in
    [NotADirectoryError] and [-o notes/] in [FileExistsError]; in both
    runs the only event is the call of [makedirs], and no
    [extracted_text.txt] is there. *)
Lemma missing_document_no_output_dir :
  let w := {| fs := notes_file_fs; trace := [] |} in
  no_document failing_env "paper.pdf" (fs w) ∧
  FS.path_exists (stage_path below_file_args Extract) (fs w) = false ∧
  FS.path_exists (stage_path file_slash_args Extract) (fs w) = false ∧
  main failing_env below_file_args w =
    (Raise NotADirectoryError,
     {| fs := notes_file_fs; trace := [EvMakedirs "notes/out"] |}) ∧
  main failing_env file_slash_args w =
    (Raise FileExistsError,
     {| fs := notes_file_fs; trace := [EvMakedirs "notes/"] |}).
Proof. vm_compute. by split_and!. Qed.

(** C9.  When the output directory is not there, the first effect of
    [main] is the attempt to make it, whatever comes after.  If moreover
    the file system is well formed, the directory can be made and there
    is no valid document at the input path, then the run makes the
    directory, tries to render the document only after that, raises
    [DocumentError], and leaves the new directory without any entry. *)
Theorem output_dir_created_first (e : env) (args : cli_args) (w : world) :
  FS.path_exists (output_dir args) (fs w) = false →
  (∃ rest, trace (snd (main e args w))
           = trace w ++ EvMakedirs (output_dir args) :: rest) ∧
  (∀ fs1,
     fs_wf (fs w) →
     FS.makedirs (output_dir args) (fs w) = Ok fs1 →
     no_document e (pdf_path args) (fs w) →
     main e args w =
       (Raise DocumentError,
        {| fs := fs1;
           trace := trace w ++ created_events (output_dir args)
                    ++ [EvPrint (miss_message Extract);
                        EvConvert (pdf_path args)] |}) ∧
     FS.is_dir (output_dir args) fs1 = true ∧
     (∀ x, fs1 !! (Path.resolve (output_dir args) ++ [x]) = None)).
Proof.
  intros Hex. split.
  - rewrite main_unfold.
    destruct (FS.makedirs (output_dir args) (fs w)) as [fs1 | ex] eqn:Hmk.
    + erewrite bind_Ok by by apply main_output_dir_created.
      destruct (main_stages_extends e args
                  {| fs := fs1;
                     trace := trace w ++ created_events (output_dir args) |})
        as (new & -> & _).
      simpl. rewrite <- app_assoc. simpl. eauto.
    + erewrite bind_Raise by by apply main_output_dir_failed.
      simpl. eauto.
  - intros fs1 Hwf Hmk Hdoc.
    assert (∀ x, fs w !! (Path.resolve (output_dir args) ++ [x]) = None)
      as Hempty.
    { intros x. apply eq_None_not_Some. intros Hx%Hwf.
      destruct (FSFacts.makedirs_inv _ _ _ Hmk) as (_ & Hno & _).
      congruence. }
    split_and!.
    + rewrite main_unfold.
      erewrite bind_Ok by by apply main_output_dir_created.
      rewrite main_stages_no_document; simpl.
      * by rewrite <- app_assoc.
      * unfold stage_key.
        by rewrite (FSFacts.makedirs_child _ _ _ _ Hmk).
      * unfold no_document.
        by rewrite (FSFacts.makedirs_file_at _ _ _ _ Hmk).
    + by eapply FSFacts.makedirs_is_dir.
    + intros x. by rewrite (FSFacts.makedirs_child _ _ _ _ Hmk).
Qed.

(** From the empty file system: ["out"] is made first and stays empty. *)
Lemma output_dir_created_first_witness :
  let w := {| fs := ∅; trace := [] |} in
  (∃ rest, trace (snd (main failing_env sample_args w))
           = EvMakedirs "out" :: rest) ∧
  main failing_env sample_args w =
    (Raise DocumentError,
     {| fs := <[["out"] := Dir]> ∅;
        trace := created_events "out"
                 ++ [EvPrint (miss_message Extract);
                     EvConvert "paper.pdf"] |}) ∧
  FS.is_dir "out" (<[["out"] := Dir]> ∅) = true ∧
  (∀ x, (<[["out"] := Dir]> ∅ : gmap (list string) node)
          !! (Path.resolve "out" ++ [x]) = None).
Proof.
  assert (FS.path_exists "out" ∅ = false) as Hout by reflexivity.
  destruct (output_dir_created_first failing_env sample_args
              {| fs := ∅; trace := [] |} Hout) as [Hfirst Hrun].
  split; [exact Hfirst |].
  exact (Hrun (<[["out"] := Dir]> ∅) fs_wf_empty eq_refl I).
Defined.

(** ** Running a stage to its end *)

Lemma bind_inv_Ok {A B} (m : io A) (k : A → io B) w b w' :
  bind m k w = (Ok b, w') →
  ∃ a w1, m w = (Ok a, w1) ∧ k a w1 = (Ok b, w').
Proof.
  unfold bind. destruct (m w) as [[a | ex] w1]; [eauto | discriminate].
Qed.

Section stage_runs.
Import Path PathFacts FS FSFacts.
Context (e : env) (args : cli_args).
#[local] Abbreviation d := (output_dir args).

Lemma lookup_path_insert_ne fs k n p :
  p ≠ k → lookup_path (<[k:=n]> fs) p = lookup_path fs p.
Proof.
  intros Hne. unfold lookup_path. case_bool_decide; [done |].
  by rewrite lookup_insert_ne.
Qed.

Lemma stat_insert_ne fs k n path :
  resolve path ≠ k → stat path (<[k:=n]> fs) = stat path fs.
Proof. intros Hne. unfold stat. by rewrite lookup_path_insert_ne. Qed.

Lemma file_at_insert_ne fs k n path :
  resolve path ≠ k → file_at path (<[k:=n]> fs) = file_at path fs.
Proof. intros Hne. unfold file_at. by rewrite stat_insert_ne. Qed.

Lemma lookup_dir_insert_stage fs s n :
  lookup_path (<[stage_key args s := n]> fs) (resolve d)
  = lookup_path fs (resolve d).
Proof. apply lookup_path_insert_ne. symmetry. apply snoc_ne_self. Qed.

(** The text stages on texts: one request, built from the prompt. *)
Lemma extract_main_theorem_text t :
  extract_main_theorem e (PyStr t)
  = chat_completions_create e (prompt_request (main_theorem_prompt t)).
Proof. reflexivity. Qed.

Lemma prove_theorem_text t :
  prove_theorem e (PyStr t)
  = chat_completions_create e (prompt_request (proof_prompt t)).
Proof. reflexivity. Qed.

Lemma validate_proof_text t p :
  validate_proof e (PyStr t) (PyStr p)
  = chat_completions_create e (prompt_request (validation_prompt t p)).
Proof. reflexivity. Qed.

(** The functions that compute a stage do not touch the file system. *)
Lemma stage_compute_fs t1 t2 t3 s w :
  fs (snd (stage_compute e args t1 t2 t3 s w)) = fs w.
Proof.
  assert (keeps (λ f, f = fs w) (λ _, True)
            (stage_compute e args t1 t2 t3 s)) as H
    by by apply keeps_stage_compute.
  exact (proj1 (H w eq_refl)).
Qed.

(** A miss whose computation succeeds with a text that can be
    written, in a directory. *)
Lemma stage_miss_run t1 t2 t3 s w text w1 :
  fs w !! stage_key args s = None →
  lookup_path (fs w) (resolve d) = Some Dir →
  stage_compute e args t1 t2 t3 s (log (EvPrint (miss_message s)) w)
  = (Ok (PyStr text), w1) →
  Text.utf8_valid text = true →
  stage_block e args t1 t2 t3 s w =
  (Ok (PyStr text),
   {| fs := <[stage_key args s := File text]> (fs w);
      trace := trace w1 ++ save_events args s text |}).
Proof.
  intros Hk Hd Hc Hv. rewrite stage_miss by done.
  erewrite bind_Ok by done.
  pose proof (stage_compute_fs t1 t2 t3 s (log (EvPrint (miss_message s)) w))
    as Hfs.
  rewrite Hc in Hfs. simpl in Hfs.
  erewrite bind_Ok; last first.
  { apply save_result_ok; rewrite ?Hfs; [done | by rewrite Hk | done]. }
  simpl. by rewrite Hfs.
Qed.

(** A miss whose computation returns what cannot be written: the file
    is left empty. *)
Lemma stage_miss_unwritable t1 t2 t3 s w v ex w1 :
  fs w !! stage_key args s = None →
  lookup_path (fs w) (resolve d) = Some Dir →
  stage_compute e args t1 t2 t3 s (log (EvPrint (miss_message s)) w)
  = (Ok v, w1) →
  encode v = Raise ex →
  stage_block e args t1 t2 t3 s w =
  (Raise ex,
   {| fs := <[stage_key args s := File ""]> (fs w);
      trace := trace w1 ++ [EvWrite (stage_path args s) v] |}).
Proof.
  intros Hk Hd Hc Hv. rewrite stage_miss by done.
  erewrite bind_Ok by done.
  pose proof (stage_compute_fs t1 t2 t3 s (log (EvPrint (miss_message s)) w))
    as Hfs.
  rewrite Hc in Hfs. simpl in Hfs.
  erewrite bind_Raise; last first.
  { apply save_result_unwritable; rewrite ?Hfs; [done | by rewrite Hk | done]. }
  by rewrite Hfs.
Qed.

Lemma stage_miss_raise t1 t2 t3 s w ex w1 :
  fs w !! stage_key args s = None →
  stage_compute e args t1 t2 t3 s (log (EvPrint (miss_message s)) w)
  = (Raise ex, w1) →
  stage_block e args t1 t2 t3 s w = (Raise ex, w1).
Proof.
  intros Hk Hc. rewrite stage_miss by done. by erewrite bind_Raise.
Qed.

Lemma encode_Ok v bytes :
  encode v = Ok bytes → v = PyStr bytes ∧ Text.utf8_valid bytes = true.
Proof.
  destruct v as [text |]; simpl; [| done].
  destruct (Text.utf8_valid text) eqn:Hv; intros ?; by simplify_eq.
Qed.

(** [save_result] returns only for a text that can be written, and the
    file then holds it. *)
Lemma save_result_inv s v w w' :
  save_result d (stage_file s) v w = (Ok (), w') →
  ∃ text, v = PyStr text ∧ Text.utf8_valid text = true ∧
          fs w' = <[stage_key args s := File text]> (fs w).
Proof.
  unfold save_result. intros ([] & w1 & Hw & Hp)%bind_inv_Ok.
  unfold print in Hp. simplify_eq. simpl.
  rewrite open_write_run in Hw.
  rewrite resolve_join in Hw by apply stage_file_is_name.
  destruct (write _ _ _); [| done].
  destruct (encode v) as [bytes |] eqn:Hv; [| done].
  apply encode_Ok in Hv as [-> Hv]. simplify_eq. by exists bytes.
Qed.

(** A stage that returns has read its file or written it: it returns a
    text, and its file holds the bytes the text was read from or, after
    a miss, the text. *)
Lemma stage_ok_inv t1 t2 t3 s w v w' :
  stage_block e args t1 t2 t3 s w = (Ok v, w') →
  ∃ text c,
    v = PyStr text ∧ fs w' !! stage_key args s = Some (File c) ∧
    ((fs w !! stage_key args s = Some (File c) ∧
      Text.decode c = Some text ∧ fs w' = fs w) ∨
     (fs w !! stage_key args s = None ∧ c = text ∧
      Text.utf8_valid text = true ∧
      fs w' = <[stage_key args s := File text]> (fs w))).
Proof.
  intros Hrun. destruct (fs w !! stage_key args s) as [[|c]|] eqn:Hk.
  - rewrite stage_block_run_stage in Hrun. unfold run_stage in Hrun.
    erewrite bind_Ok in Hrun by apply stage_exists.
    rewrite bool_decide_eq_true_2 in Hrun by by rewrite Hk.
    erewrite bind_Ok in Hrun by reflexivity.
    unfold load_result, bind, open_read in Hrun.
    rewrite read_join in Hrun by apply stage_file_is_name.
    simpl in Hrun. fold (stage_key args s) in Hrun. by rewrite Hk in Hrun.
  - rewrite (stage_hit_read _ _ _ _ _ _ _ c Hk) in Hrun.
    destruct (Text.decode c) as [text |] eqn:Hc; simplify_eq.
    exists text, c. simpl. split_and!; [done | done |]. by left.
  - rewrite stage_miss in Hrun by done.
    apply bind_inv_Ok in Hrun as (v' & w1 & Hc & Hrun).
    apply bind_inv_Ok in Hrun as ([] & w2 & Hsave & Hret).
    unfold ret in Hret. simplify_eq.
    pose proof (stage_compute_fs t1 t2 t3 s (log (EvPrint (miss_message s)) w))
      as Hfs.
    rewrite Hc in Hfs. simpl in Hfs.
    apply save_result_inv in Hsave as (text & -> & Hv & Hw).
    rewrite Hfs in Hw. exists text, text. rewrite Hw, lookup_insert_eq.
    split_and!; [done | done |]. by right.
Qed.

(** In both cases the file reads back as the text returned, with its
    newlines translated. *)
Lemma stage_ok_file t1 t2 t3 s w v w' :
  stage_block e args t1 t2 t3 s w = (Ok v, w') →
  ∃ text c,
    v = PyStr text ∧ fs w' !! stage_key args s = Some (File c) ∧
    Text.decode c = Some (Text.universal_newlines text).
Proof.
  intros (text & c & -> & Hk & [(_ & Hc & _) | (_ & Hc & Hv & _)])%stage_ok_inv;
    exists text, c; (split_and!; [done | done |]).
  - apply TextFacts.decode_Some in Hc as Hc'. destruct Hc' as [_ ->].
    by rewrite TextFacts.universal_newlines_idemp.
  - subst c. by apply TextFacts.decode_valid.
Qed.

(** A stage leaves the nodes at other keys alone. *)
Lemma stage_block_frame t1 t2 t3 s k w :
  k ≠ stage_key args s →
  fs (snd (stage_block e args t1 t2 t3 s w)) !! k = fs w !! k.
Proof.
  intros Hne.
  assert (keeps (λ f, f !! k = fs w !! k) (λ _, True)
            (stage_block e args t1 t2 t3 s)) as H.
  { apply keeps_stage_block; try done.
    intros text fs0 fs' H0 Hw. rewrite <- H0.
    by eapply write_join_other, Hne; [apply stage_file_is_name |]. }
  exact (proj1 (H w eq_refl)).
Qed.

(** The output directory block makes no entry in the directory. *)
Lemma main_output_dir_frame x w :
  fs (snd (main_output_dir args w)) !! (resolve d ++ [x])
  = fs w !! (resolve d ++ [x]).
Proof.
  assert (keeps (λ f, f !! (resolve d ++ [x]) = fs w !! (resolve d ++ [x]))
            (λ _, True) (main_output_dir args)) as H.
  { apply keeps_main_output_dir; try done.
    intros fs0 fs' H0 Hmk. rewrite <- H0. by eapply makedirs_child. }
  exact (proj1 (H w eq_refl)).
Qed.

Lemma main_split_1 w t1 w1 :
  main_upto_extracted_text e args w = (Ok t1, w1) →
  main e args w = main_from_main_theorem e args t1 w1.
Proof.
  unfold main_upto_extracted_text, main, bind.
  destruct (main_output_dir args w) as [[[] | ?] w0]; [| done].
  by intros ->.
Qed.

Lemma main_split_2 w t1 t2 w2 :
  main_upto_main_theorem e args w = (Ok (t1, t2), w2) →
  main e args w = main_from_proof e args t1 t2 w2.
Proof.
  unfold main_upto_main_theorem, main, bind, ret.
  destruct (main_output_dir args w) as [[[] | ?] w0]; [| done].
  destruct (main_extracted_text e args w0) as [[t1' | ?] w1]; [| done].
  destruct (main_main_theorem e args t1' w1) as [[t2' | ?] w2']; [| done].
  intros ?. by simplify_eq.
Qed.

Lemma main_split_3 w t1 t2 t3 w3 :
  main_upto_proof e args w = (Ok (t1, t2, t3), w3) →
  main e args w = main_from_validation e args t1 t2 t3 w3.
Proof.
  unfold main_upto_proof, main, bind, ret.
  destruct (main_output_dir args w) as [[[] | ?] w0]; [| done].
  destruct (main_extracted_text e args w0) as [[t1' | ?] w1]; [| done].
  destruct (main_main_theorem e args t1' w1) as [[t2' | ?] w2]; [| done].
  destruct (main_proof e args t2' w2) as [[t3' | ?] w3']; [| done].
  intros ?. by simplify_eq.
Qed.

End stage_runs.

(** ** C10: a document without pages *)

(** C10.  With a usable output directory, no [extracted_text.txt] and a
    document of zero pages, the extraction makes no request and returns
    the empty string; [main] writes it to [extracted_text.txt] and goes
    on with the theorem stage on the empty string. *)
Theorem empty_document (e : env) (args : cli_args) (w : world)
    (bytes : string) :
  usable_output_dir (output_dir args) (fs w) →
  FS.path_exists (stage_path args Extract) (fs w) = false →
  FS.file_at (pdf_path args) (fs w) = Some bytes →
  render e bytes = Some [] →
  extract_text_via_gpt4o e (pdf_path args) w
    = (Ok (PyStr ""), log (EvConvert (pdf_path args)) w) ∧
  main e args w =
    main_from_main_theorem e args (PyStr "")
      {| fs := <[stage_key args Extract := File ""]>
                 (startup_fs (output_dir args) (fs w));
         trace := trace w ++ startup_events (output_dir args) (fs w)
                  ++ [EvPrint (miss_message Extract);
                      EvConvert (pdf_path args)]
                  ++ save_events args Extract "" |}.
Proof.
  intros Hd Hk%stage_absent Hf Hr. split.
  - rewrite (extract_text_via_gpt4o_run e _ w bytes [] []) by done.
    unfold log. simpl. done.
  - rewrite main_unfold.
    erewrite bind_Ok by by apply main_output_dir_usable.
    unfold main_stages. fold (main_from_main_theorem e args).
    set (w0 := {| fs := startup_fs (output_dir args) (fs w);
                  trace := trace w ++ startup_events (output_dir args) (fs w) |}).
    assert (FS.file_at (pdf_path args)
              (fs (log (EvPrint (miss_message Extract)) w0)) = Some bytes)
      as Hf0 by (simpl; by rewrite startup_fs_file_at).
    pose proof (extract_text_via_gpt4o_run e _ _ bytes [] [] Hf0 Hr eq_refl)
      as Hc.
    erewrite bind_Ok; last first.
    { eapply (stage_miss_run e args PyNone PyNone PyNone Extract w0);
        [simpl; by rewrite startup_fs_stage
        | simpl; by apply FSFacts.is_dir_lookup, startup_fs_is_dir
        | exact Hc
        | done]. }
    simpl. by rewrite <- !app_assoc.
Qed.

Lemma empty_document_witness :
  let w := {| fs := <[["out"] := Dir]> paper_fs; trace := [] |} in
  extract_text_via_gpt4o no_page_env "paper.pdf" w
    = (Ok (PyStr ""), log (EvConvert "paper.pdf") w) ∧
  main no_page_env sample_args w =
    main_from_main_theorem no_page_env sample_args (PyStr "")
      {| fs := <[["out"; "extracted_text.txt"] := File ""]>
                 (<[["out"] := Dir]> paper_fs);
         trace := [EvPrint (miss_message Extract); EvConvert "paper.pdf"]
                  ++ save_events sample_args Extract "" |}.
Proof.
  exact (empty_document no_page_env sample_args
           {| fs := <[["out"] := Dir]> paper_fs; trace := [] |} "%PDF"
           (or_introl eq_refl) eq_refl eq_refl eq_refl).
Defined.

(** ** C6: a run from an output directory without stage files *)

Lemma create_ok e req w v :
  create e (requests (trace w)) req = Some v →
  chat_completions_create e req w = (Ok v, log (EvCreate req) w).
Proof. intros H. unfold chat_completions_create. by rewrite H. Qed.

Lemma create_failed e req w :
  create e (requests (trace w)) req = None →
  chat_completions_create e req w = (Raise ServiceError, log (EvCreate req) w).
Proof. intros H. unfold chat_completions_create. by rewrite H. Qed.

Section end_to_end.
Import FSFacts.
Context (render_fn : string → option (list image)) (args : cli_args).
Context (w : world) (bytes : string) (image : image).
Hypothesis usable : usable_output_dir (output_dir args) (fs w).
Hypothesis fresh : ∀ s, FS.path_exists (stage_path args s) (fs w) = false.
Hypothesis document : FS.file_at (pdf_path args) (fs w) = Some bytes.
Hypothesis page : render_fn bytes = Some [image].

#[local] Abbreviation e := (stub_env render_fn).
#[local] Abbreviation fs1 :=
  (<[stage_key args Extract := File ("T1" +:+ LF)]>
     (startup_fs (output_dir args) (fs w))).
#[local] Abbreviation fs2 := (<[stage_key args MainTheorem := File "MAIN"]> fs1).
#[local] Abbreviation fs3 := (<[stage_key args Prove := File "PROOF"]> fs2).
#[local] Abbreviation fs4 := (<[stage_key args Validate := File "OK"]> fs3).

Lemma fresh_key s : startup_fs (output_dir args) (fs w) !! stage_key args s = None.
Proof. rewrite startup_fs_stage. apply stage_absent, fresh. Qed.

Lemma fresh_dir :
  FS.lookup_path (startup_fs (output_dir args) (fs w))
    (Path.resolve (output_dir args)) = Some Dir.
Proof. by apply is_dir_lookup, startup_fs_is_dir. Qed.

(** The whole run, stage by stage. *)
Lemma stub_run :
  ∃ new,
    main e args w = (Ok (), {| fs := fs4; trace := trace w ++ new |}) ∧
    requests new =
      [image_request image;
       prompt_request (main_theorem_prompt ("T1" +:+ LF));
       prompt_request (proof_prompt "MAIN");
       prompt_request (validation_prompt "MAIN" "PROOF")].
Proof.
  eexists. split.
  - rewrite main_unfold.
    erewrite bind_Ok by by apply main_output_dir_usable.
    unfold main_stages.
    erewrite bind_Ok; last first.
    { eapply (stage_miss_run e args PyNone PyNone PyNone Extract); simpl;
        [apply fresh_key | apply fresh_dir | |].
      - apply (extract_text_via_gpt4o_run e _ _ bytes [image] ["T1"]); simpl;
          [by rewrite startup_fs_file_at | done..].
      - done. }
    change (join_pages ["T1"]) with ("T1" +:+ LF).
    erewrite bind_Ok; last first.
    { eapply (stage_miss_run e args (PyStr ("T1" +:+ LF)) PyNone PyNone
                MainTheorem); simpl.
      - rewrite lookup_insert_ne by by intros ?%stage_key_inj.
        apply fresh_key.
      - rewrite lookup_dir_insert_stage. apply fresh_dir.
      - rewrite extract_main_theorem_text. by apply create_ok.
      - done. }
    erewrite bind_Ok; last first.
    { eapply (stage_miss_run e args PyNone (PyStr "MAIN") PyNone Prove); simpl.
      - rewrite !lookup_insert_ne by by intros ?%stage_key_inj.
        apply fresh_key.
      - rewrite !lookup_dir_insert_stage. apply fresh_dir.
      - rewrite prove_theorem_text. by apply create_ok.
      - done. }
    erewrite bind_Ok; last first.
    { eapply (stage_miss_run e args PyNone (PyStr "MAIN") (PyStr "PROOF")
                Validate); simpl.
      - rewrite !lookup_insert_ne by by intros ?%stage_key_inj.
        apply fresh_key.
      - rewrite !lookup_dir_insert_stage. apply fresh_dir.
      - rewrite validate_proof_text. by apply create_ok.
      - done. }
    rewrite main_report_run. simpl. rewrite <- !app_assoc. reflexivity.
  - rewrite !requests_app. unfold startup_events, created_events.
    destruct (FS.makedirs _ _); reflexivity.
Qed.

End end_to_end.

(** C6.  With a usable output directory holding none of the four files,
    a document of one page and the service that answers the four call
    sites with ["T1"], ["MAIN"], ["PROOF"], ["OK"], [main] succeeds; the
    file system it leaves is the one after the output directory block
    plus the four files, with contents ["T1\n"], ["MAIN"], ["PROOF"],
    ["OK"]; no other regular file is created or changed; and the four
    requests are the page request and the prompts built from ["T1\n"],
    from ["MAIN"], and from ["MAIN"] and ["PROOF"]. *)
Theorem end_to_end_files (render_fn : string → option (list image))
    (args : cli_args) (w : world) (bytes : string) (image : image) :
  usable_output_dir (output_dir args) (fs w) →
  (∀ s, FS.path_exists (stage_path args s) (fs w) = false) →
  FS.file_at (pdf_path args) (fs w) = Some bytes →
  render_fn bytes = Some [image] →
  let w' := snd (main (stub_env render_fn) args w) in
  fst (main (stub_env render_fn) args w) = Ok () ∧
  fs w' =
    <[stage_key args Validate := File "OK"]>
      (<[stage_key args Prove := File "PROOF"]>
         (<[stage_key args MainTheorem := File "MAIN"]>
            (<[stage_key args Extract := File ("T1" +:+ LF)]>
               (startup_fs (output_dir args) (fs w))))) ∧
  FS.file_at (stage_path args Extract) (fs w') = Some ("T1" +:+ LF) ∧
  FS.file_at (stage_path args MainTheorem) (fs w') = Some "MAIN" ∧
  FS.file_at (stage_path args Prove) (fs w') = Some "PROOF" ∧
  FS.file_at (stage_path args Validate) (fs w') = Some "OK" ∧
  (∀ path, (∀ s, Path.resolve path ≠ stage_key args s) →
           FS.file_at path (fs w') = FS.file_at path (fs w)) ∧
  requests (trace w') =
    requests (trace w)
    ++ [image_request image;
        prompt_request (main_theorem_prompt ("T1" +:+ LF));
        prompt_request (proof_prompt "MAIN");
        prompt_request (validation_prompt "MAIN" "PROOF")].
Proof.
  intros Hd Hfresh Hdoc Hpage.
  destruct (stub_run render_fn args w bytes image Hd Hfresh Hdoc Hpage)
    as (new & Hrun & Hreq).
  simpl. rewrite Hrun. simpl. split_and!; try done.
  - apply FSFacts.file_at_stage.
    rewrite !lookup_insert_ne by by intros ?%FSFacts.stage_key_inj.
    apply lookup_insert_eq.
  - apply FSFacts.file_at_stage.
    rewrite !lookup_insert_ne by by intros ?%FSFacts.stage_key_inj.
    apply lookup_insert_eq.
  - apply FSFacts.file_at_stage.
    rewrite !lookup_insert_ne by by intros ?%FSFacts.stage_key_inj.
    apply lookup_insert_eq.
  - apply FSFacts.file_at_stage. apply lookup_insert_eq.
  - intros path Hpath.
    rewrite <- (startup_fs_file_at args (fs w) path).
    by rewrite !file_at_insert_ne.
  - by rewrite requests_app, Hreq.
Qed.

(** The document next to an empty directory ["out"]. *)
Lemma end_to_end_files_witness :
  let w := {| fs := <[["out"] := Dir]> paper_fs; trace := [] |} in
  let w' := snd (main (stub_env one_page) sample_args w) in
  fst (main (stub_env one_page) sample_args w) = Ok () ∧
  fs w' =
    <[["out"; "validation.txt"] := File "OK"]>
      (<[["out"; "proof.txt"] := File "PROOF"]>
         (<[["out"; "main_theorem.txt"] := File "MAIN"]>
            (<[["out"; "extracted_text.txt"] := File ("T1" +:+ LF)]>
               (<[["out"] := Dir]> paper_fs)))) ∧
  FS.file_at "out/extracted_text.txt" (fs w') = Some ("T1" +:+ LF) ∧
  FS.file_at "out/main_theorem.txt" (fs w') = Some "MAIN" ∧
  FS.file_at "out/proof.txt" (fs w') = Some "PROOF" ∧
  FS.file_at "out/validation.txt" (fs w') = Some "OK" ∧
  (∀ path, (∀ s, Path.resolve path ≠ stage_key sample_args s) →
           FS.file_at path (fs w')
           = FS.file_at path (<[["out"] := Dir]> paper_fs)) ∧
  requests (trace w') =
    [image_request {| png := "p1" |};
     prompt_request (main_theorem_prompt ("T1" +:+ LF));
     prompt_request (proof_prompt "MAIN");
     prompt_request (validation_prompt "MAIN" "PROOF")].
Proof.
  exact (end_to_end_files one_page sample_args
           {| fs := <[["out"] := Dir]> paper_fs; trace := [] |}
           "%PDF" {| png := "p1" |}
           (or_introl eq_refl)
           (λ s, match s with
                 | Extract | MainTheorem | Prove | Validate => eq_refl
                 end)
           eq_refl eq_refl).
Defined.

(** ** C5 and C4: what a stage receives, and a failing stage *)

Section wiring.
Import FSFacts.
Context (e : env) (args : cli_args).

Lemma main_from_validation_extends t1 t2 t3 w :
  extends (λ _, True) w (snd (main_from_validation e args t1 t2 t3 w)).
Proof.
  apply (keeps_bind (λ _, True) (λ _, True)); try done.
  - change (main_validation e args t2 t3)
      with (stage_block e args PyNone t2 t3 Validate).
    by apply keeps_stage_block.
  - intros t4. by apply keeps_main_report.
Qed.

Lemma main_from_proof_extends t1 t2 w :
  extends (λ _, True) w (snd (main_from_proof e args t1 t2 w)).
Proof.
  apply (keeps_bind (λ _, True) (λ _, True)); try done.
  - change (main_proof e args t2) with (stage_block e args PyNone t2 PyNone Prove).
    by apply keeps_stage_block.
  - intros t3 w0 _. split; [done | apply main_from_validation_extends].
Qed.

Lemma main_report_extends t1 t2 t3 t4 w :
  extends (λ _, True) w (snd (main_report t1 t2 t3 t4 w)).
Proof. by apply (keeps_main_report (λ _, True) (λ _, True)). Qed.

Lemma save_result_extends filename v w :
  extends (λ _, True) w
    (snd (save_result (output_dir args) filename v w)).
Proof.
  apply (keeps_bind (λ _, True) (λ _, True)); try done.
  - by apply keeps_open_write.
  - intros _. by apply keeps_print.
Qed.

(** A text stage on a miss, followed by [K]: the first two events are
    the announcement and the request. *)
Lemma text_stage_trace t1 t2 t3 s req (K : value → io unit) w :
  stage_compute e args t1 t2 t3 s = chat_completions_create e req →
  fs w !! stage_key args s = None →
  (∀ a w0, extends (λ _, True) w0 (snd (K a w0))) →
  ∃ rest,
    trace (snd ((t <- stage_block e args t1 t2 t3 s;; K t) w))
    = trace w ++ EvPrint (miss_message s) :: EvCreate req :: rest.
Proof.
  intros Hc Hk HK. unfold bind at 1. rewrite stage_miss by done.
  rewrite Hc. unfold bind at 1, chat_completions_create.
  destruct (create e _ req) as [v |]; simpl.
  - set (w2 := log (EvCreate req) (log (EvPrint (miss_message s)) w)).
    destruct (save_result_extends (stage_file s) v w2) as (n1 & H1 & _).
    unfold bind at 1.
    destruct (save_result _ _ _ w2) as [[[] | ex] w3]; simpl in *.
    + destruct (HK v w3) as (n2 & H2 & _).
      rewrite H2, H1. simpl. rewrite <- !app_assoc. simpl. eauto.
    + rewrite H1. simpl. rewrite <- !app_assoc. simpl. eauto.
  - rewrite <- app_assoc. simpl. eauto.
Qed.

(** Where the run stands when the first stage has returned: it has
    returned a text, and its file reads back as that text. *)
Lemma upto_extracted_text_inv w v1 w1 :
  main_upto_extracted_text e args w = (Ok v1, w1) →
  ∃ t1 c1, v1 = PyStr t1 ∧
    fs w1 !! stage_key args Extract = Some (File c1) ∧
    Text.decode c1 = Some (Text.universal_newlines t1).
Proof.
  intros ([] & w0 & _ & H1)%bind_inv_Ok.
  by apply (stage_ok_file e args PyNone PyNone PyNone Extract) in H1.
Qed.

(** Where the run stands when the second stage has returned. *)
Lemma upto_main_theorem_inv w v1 v2 w2 :
  main_upto_main_theorem e args w = (Ok (v1, v2), w2) →
  ∃ t1 t2 c1 c2, v1 = PyStr t1 ∧ v2 = PyStr t2 ∧
    fs w2 !! stage_key args Extract = Some (File c1) ∧
    fs w2 !! stage_key args MainTheorem = Some (File c2) ∧
    Text.decode c1 = Some (Text.universal_newlines t1) ∧
    Text.decode c2 = Some (Text.universal_newlines t2) ∧
    fs w2 !! stage_key args Prove = fs w !! stage_key args Prove ∧
    fs w2 !! stage_key args Validate = fs w !! stage_key args Validate.
Proof.
  intros ([] & w0 & H0 & H)%bind_inv_Ok.
  apply bind_inv_Ok in H as (v1' & w1 & H1 & H).
  apply bind_inv_Ok in H as (v2' & w2' & H2 & H).
  unfold ret in H. simplify_eq.
  destruct (stage_ok_file e args PyNone PyNone PyNone Extract _ _ _ H1)
    as (t1 & c1 & -> & Hf1 & Hc1).
  destruct (stage_ok_file e args (PyStr t1) PyNone PyNone MainTheorem
              _ _ _ H2) as (t2 & c2 & -> & Hf2 & Hc2).
  assert (∀ k, k ≠ stage_key args MainTheorem → fs w2 !! k = fs w1 !! k) as Fr2.
  { intros k Hk.
    pose proof (stage_block_frame e args (PyStr t1) PyNone PyNone
                  MainTheorem k w1 Hk) as Fr.
    simpl in Fr. by rewrite H2 in Fr. }
  assert (∀ k, k ≠ stage_key args Extract → fs w1 !! k = fs w0 !! k) as Fr1.
  { intros k Hk.
    pose proof (stage_block_frame e args PyNone PyNone PyNone Extract k w0 Hk) as Fr.
    simpl in Fr. by rewrite H1 in Fr. }
  assert (∀ s, fs w0 !! stage_key args s = fs w !! stage_key args s) as Fr0.
  { intros s.
    pose proof (main_output_dir_frame args (stage_file s) w) as Fr.
    by rewrite H0 in Fr. }
  exists t1, t2, c1, c2. split_and!; try done.
  - by rewrite Fr2 by by intros ?%stage_key_inj.
  - rewrite Fr2, Fr1, Fr0 by by intros ?%stage_key_inj. done.
  - rewrite Fr2, Fr1, Fr0 by by intros ?%stage_key_inj. done.
Qed.

(** Where the run stands when the third stage has returned. *)
Lemma upto_proof_inv w v1 v2 v3 w3 :
  main_upto_proof e args w = (Ok (v1, v2, v3), w3) →
  ∃ t2 t3 c2 c3, v2 = PyStr t2 ∧ v3 = PyStr t3 ∧
    fs w3 !! stage_key args MainTheorem = Some (File c2) ∧
    fs w3 !! stage_key args Prove = Some (File c3) ∧
    Text.decode c2 = Some (Text.universal_newlines t2) ∧
    Text.decode c3 = Some (Text.universal_newlines t3).
Proof.
  intros ([] & w0 & H0 & H)%bind_inv_Ok.
  apply bind_inv_Ok in H as (v1' & w1 & H1 & H).
  apply bind_inv_Ok in H as (v2' & w2 & H2 & H).
  apply bind_inv_Ok in H as (v3' & w3' & H3 & H).
  unfold ret in H. simplify_eq.
  destruct (stage_ok_file e args v1 PyNone PyNone MainTheorem _ _ _ H2)
    as (t2 & c2 & -> & Hf2 & Hc2).
  destruct (stage_ok_file e args PyNone (PyStr t2) PyNone Prove _ _ _ H3)
    as (t3 & c3 & -> & Hf3 & Hc3).
  exists t2, t3, c2, c3. split_and!; try done.
  pose proof (stage_block_frame e args PyNone (PyStr t2) PyNone Prove
                (stage_key args MainTheorem) w2) as Fr.
  simpl in Fr. rewrite H3 in Fr. simpl in Fr.
  rewrite Fr by by intros ?%stage_key_inj. done.
Qed.

End wiring.

(** C5.  In every run: once the first stage has returned, it has
    returned a text [t1] that [extracted_text.txt] reads back as, and if
    [main_theorem.txt] is not there the next events of the run are the
    announcement of the second stage and the request built from the
    prompt on [t1]; once the third stage has returned, the second and
    third stages have returned texts [t2] and [t3] that
    [main_theorem.txt] and [proof.txt] read back as, and if
    [validation.txt] is not there the next events are the announcement
    of the fourth stage and the request built from the prompt on [t2]
    and [t3].  Both prompts contain their inputs whole, between fixed
    texts.  (A file reads back as a text when reading it gives the text
    with its carriage returns translated into newlines.) *)
Theorem stage_wiring (e : env) (args : cli_args) (w : world) :
  (∀ v1 w1,
     main_upto_extracted_text e args w = (Ok v1, w1) →
     ∃ t1,
       v1 = PyStr t1 ∧
       FS.text_at (stage_path args Extract) (fs w1)
         = Some (Text.universal_newlines t1) ∧
       (FS.path_exists (stage_path args MainTheorem) (fs w1) = false →
        ∃ rest,
          trace (snd (main e args w))
          = trace w1 ++ EvPrint (miss_message MainTheorem)
            :: EvCreate (prompt_request (main_theorem_prompt t1)) :: rest)) ∧
  (∀ v1 v2 v3 w3,
     main_upto_proof e args w = (Ok (v1, v2, v3), w3) →
     ∃ t2 t3,
       v2 = PyStr t2 ∧ v3 = PyStr t3 ∧
       FS.text_at (stage_path args MainTheorem) (fs w3)
         = Some (Text.universal_newlines t2) ∧
       FS.text_at (stage_path args Prove) (fs w3)
         = Some (Text.universal_newlines t3) ∧
       (FS.path_exists (stage_path args Validate) (fs w3) = false →
        ∃ rest,
          trace (snd (main e args w))
          = trace w3 ++ EvPrint (miss_message Validate)
            :: EvCreate (prompt_request (validation_prompt t2 t3)) :: rest)) ∧
  (∃ head tail, ∀ t, main_theorem_prompt t = head +:+ t +:+ tail) ∧
  (∃ head middle tail,
     ∀ t p, validation_prompt t p = head +:+ t +:+ middle +:+ p +:+ tail).
Proof.
  split_and!.
  - intros v1 w1 H.
    destruct (upto_extracted_text_inv e args w v1 w1 H)
      as (t1 & c1 & -> & Hf1 & Hc1).
    exists t1. split_and!; [done | |].
    + by rewrite (FSFacts.text_at_stage _ _ _ c1).
    + intros Habs%stage_absent. rewrite (main_split_1 e args w _ w1 H).
      apply (text_stage_trace e args (PyStr t1) PyNone PyNone MainTheorem
               (prompt_request (main_theorem_prompt t1))
               (main_from_proof e args (PyStr t1)) w1 eq_refl Habs).
      intros t2 w0. apply main_from_proof_extends.
  - intros v1 v2 v3 w3 H.
    destruct (upto_proof_inv e args w v1 v2 v3 w3 H)
      as (t2 & t3 & c2 & c3 & -> & -> & Hf2 & Hf3 & Hc2 & Hc3).
    exists t2, t3. split_and!; [done | done | | |].
    + by rewrite (FSFacts.text_at_stage _ _ _ c2).
    + by rewrite (FSFacts.text_at_stage _ _ _ c3).
    + intros Habs%stage_absent. rewrite (main_split_3 e args w _ _ _ w3 H).
      apply (text_stage_trace e args PyNone (PyStr t2) (PyStr t3) Validate
               (prompt_request (validation_prompt t2 t3))
               (main_report v1 (PyStr t2) (PyStr t3)) w3 eq_refl Habs).
      intros t4 w0. apply main_report_extends.
  - eexists _, _. intros t. reflexivity.
  - eexists _, _, _. intros t p. reflexivity.
Qed.

(** Three pages, nothing cached: the second stage is asked about the
    three page texts, the fourth about the answers ["R3"] and ["R4"] of
    the second and third. *)
Lemma stage_wiring_witness :
  let w := {| fs := <[["out"] := Dir]> paper_fs; trace := [] |} in
  let w1 := snd (main_upto_extracted_text counting_env sample_args w) in
  let w3 := snd (main_upto_proof counting_env sample_args w) in
  let t1 := "R0" +:+ LF +:+ "R1" +:+ LF +:+ "R2" +:+ LF in
  (∃ rest,
     trace (snd (main counting_env sample_args w))
     = trace w1 ++ EvPrint (miss_message MainTheorem)
       :: EvCreate (prompt_request (main_theorem_prompt t1)) :: rest) ∧
  (∃ rest,
     trace (snd (main counting_env sample_args w))
     = trace w3 ++ EvPrint (miss_message Validate)
       :: EvCreate (prompt_request (validation_prompt "R3" "R4")) :: rest).
Proof.
  intros w w1 w3 t1.
  destruct (stage_wiring counting_env sample_args w) as (H2 & H4 & _).
  assert (main_upto_extracted_text counting_env sample_args w
          = (Ok (PyStr t1), w1)) as E1 by reflexivity.
  assert (main_upto_proof counting_env sample_args w
          = (Ok (PyStr t1, PyStr "R3", PyStr "R4"), w3)) as E3 by reflexivity.
  destruct (H2 _ w1 E1) as (t1' & Ht1 & _ & Hnext2).
  destruct (H4 _ _ _ w3 E3) as (t2 & t3 & Ht2 & Ht3 & _ & _ & Hnext4).
  injection Ht1 as <-. injection Ht2 as <-. injection Ht3 as <-.
  split; [apply Hnext2 | apply Hnext4]; reflexivity.
Defined.

(** C4 (amended).  When the first two stages have returned and
    [proof.txt] is not there, the second stage has returned a text [t2],
    and the request for the proof is built from it.  If the call for it
    raises, [main] ends with [ServiceError] right after the request and
    [proof.txt] is not there.  If the call returns what cannot be
    written, a completion without content above all, [main] ends with
    the error of the write ([TypeError] for no content) right after
    that write, and [proof.txt] is there, empty.  In both cases the
    fourth stage does not run, [extracted_text.txt] and
    [main_theorem.txt] hold what they held when the second stage
    returned, and [validation.txt] is as it was when the run started:
    there or not, with the same contents. *)
Theorem stage3_failure (e : env) (args : cli_args) (w : world)
    (v1 v2 : value) (w2 : world) :
  main_upto_main_theorem e args w = (Ok (v1, v2), w2) →
  FS.path_exists (stage_path args Prove) (fs w2) = false →
  ∃ t2 c1 c2,
    v2 = PyStr t2 ∧
    FS.file_at (stage_path args Extract) (fs w2) = Some c1 ∧
    FS.file_at (stage_path args MainTheorem) (fs w2) = Some c2 ∧
    let req := prompt_request (proof_prompt t2) in
    let asked := trace w2 ++ [EvPrint (miss_message Prove); EvCreate req] in
    let w' := snd (main e args w) in
    let kept :=
      FS.file_at (stage_path args Extract) (fs w') = Some c1 ∧
      FS.file_at (stage_path args MainTheorem) (fs w') = Some c2 ∧
      FS.path_exists (stage_path args Validate) (fs w')
        = FS.path_exists (stage_path args Validate) (fs w) ∧
      FS.file_at (stage_path args Validate) (fs w')
        = FS.file_at (stage_path args Validate) (fs w) in
    (create e (requests (trace w2)) req = None →
     main e args w = (Raise ServiceError, {| fs := fs w2; trace := asked |}) ∧
     kept ∧
     FS.path_exists (stage_path args Prove) (fs w') = false) ∧
    (∀ v ex,
       create e (requests (trace w2)) req = Some v →
       encode v = Raise ex →
       FS.is_dir (output_dir args) (fs w2) = true →
       main e args w =
         (Raise ex,
          {| fs := <[stage_key args Prove := File ""]> (fs w2);
             trace := asked ++ [EvWrite (stage_path args Prove) v] |}) ∧
       kept ∧
       FS.file_at (stage_path args Prove) (fs w') = Some "").
Proof.
  intros H Habs%stage_absent.
  destruct (upto_main_theorem_inv e args w v1 v2 w2 H)
    as (t1 & t2 & c1 & c2 & -> & -> & Hf1 & Hf2 & _ & _ & _ & Hf4).
  exists t2, c1, c2.
  split_and!; [done | by apply FSFacts.file_at_stage.. |].
  cbv zeta.
  rewrite (main_split_2 e args w _ _ w2 H). unfold main_from_proof.
  change (main_proof e args (PyStr t2))
    with (stage_block e args PyNone (PyStr t2) PyNone Prove).
  assert (∀ line, requests (trace w2 ++ [EvPrint line]) = requests (trace w2))
    as Hreq.
  { intros line. rewrite requests_app. simpl. by rewrite app_nil_r. }
  split.
  - intros Hfail.
    erewrite bind_Raise; last first.
    { apply stage_miss_raise; [done |]. simpl.
      rewrite prove_theorem_text. apply create_failed. simpl.
      by rewrite Hreq. }
    unfold log. simpl. rewrite <- app_assoc. simpl.
    split_and!; try done; try by apply FSFacts.file_at_stage.
    + by rewrite !FSFacts.path_exists_stage, Hf4.
    + unfold stage_path.
      rewrite !FSFacts.file_at_join by apply FSFacts.stage_file_is_name.
      fold (stage_key args Validate). by rewrite Hf4.
    + by apply stage_absent.
  - intros v ex Hv Hex Hd.
    erewrite bind_Raise; last first.
    { eapply stage_miss_unwritable;
        [done | by apply FSFacts.is_dir_lookup | | exact Hex].
      simpl. rewrite prove_theorem_text. apply create_ok. simpl.
      by rewrite Hreq. }
    unfold log. simpl. rewrite <- !app_assoc. simpl.
    split_and!; try done.
    + apply FSFacts.file_at_stage.
      by rewrite lookup_insert_ne by by intros ?%FSFacts.stage_key_inj.
    + apply FSFacts.file_at_stage.
      by rewrite lookup_insert_ne by by intros ?%FSFacts.stage_key_inj.
    + rewrite !FSFacts.path_exists_stage.
      by rewrite lookup_insert_ne, Hf4 by by intros ?%FSFacts.stage_key_inj.
    + unfold stage_path.
      rewrite !FSFacts.file_at_join by apply FSFacts.stage_file_is_name.
      fold (stage_key args Validate) (stage_key args Prove).
      by rewrite lookup_insert_ne, Hf4 by by intros ?%FSFacts.stage_key_inj.
    + apply FSFacts.file_at_stage, lookup_insert_eq.
Qed.

(** One page, nothing cached: a service that fails on its third
    request, and one that answers it without content. *)
Lemma stage3_failure_witness :
  let w := {| fs := <[["out"] := Dir]> paper_fs; trace := [] |} in
  let w2 := snd (main_upto_main_theorem flaky_env sample_args w) in
  let w' := snd (main flaky_env sample_args w) in
  let s2 := snd (main_upto_main_theorem silent_env sample_args w) in
  let s' := snd (main silent_env sample_args w) in
  let asked tr :=
    tr ++ [EvPrint (miss_message Prove);
           EvCreate (prompt_request (proof_prompt "R1"))] in
  (main flaky_env sample_args w =
     (Raise ServiceError, {| fs := fs w2; trace := asked (trace w2) |}) ∧
   FS.file_at "out/extracted_text.txt" (fs w') = Some ("R0" +:+ LF) ∧
   FS.file_at "out/main_theorem.txt" (fs w') = Some "R1" ∧
   FS.path_exists "out/proof.txt" (fs w') = false ∧
   FS.path_exists "out/validation.txt" (fs w') = false ∧
   FS.file_at "out/validation.txt" (fs w') = None) ∧
  (main silent_env sample_args w =
     (Raise TypeError,
      {| fs := <[["out"; "proof.txt"] := File ""]> (fs s2);
         trace := asked (trace s2) ++ [EvWrite "out/proof.txt" PyNone] |}) ∧
   FS.file_at "out/extracted_text.txt" (fs s') = Some ("R0" +:+ LF) ∧
   FS.file_at "out/main_theorem.txt" (fs s') = Some "R1" ∧
   FS.file_at "out/proof.txt" (fs s') = Some "" ∧
   FS.path_exists "out/validation.txt" (fs s') = false ∧
   FS.file_at "out/validation.txt" (fs s') = None).
Proof.
  intros w w2 w' s2 s' asked. split.
  - assert (main_upto_main_theorem flaky_env sample_args w
            = (Ok (PyStr ("R0" +:+ LF), PyStr "R1"), w2)) as E2 by reflexivity.
    destruct (stage3_failure flaky_env sample_args w _ _ w2 E2 eq_refl)
      as (t2 & c1 & c2 & Ht2 & H1 & H2 & Hraise & _).
    injection Ht2 as <-. injection H1 as <-. injection H2 as <-.
    destruct (Hraise eq_refl) as (Hrun & (K1 & K2 & K3 & K4) & Hno).
    split_and!; [exact Hrun | exact K1 | exact K2 | exact Hno
                | exact K3 | exact K4].
  - assert (main_upto_main_theorem silent_env sample_args w
            = (Ok (PyStr ("R0" +:+ LF), PyStr "R1"), s2)) as E2 by reflexivity.
    destruct (stage3_failure silent_env sample_args w _ _ s2 E2 eq_refl)
      as (t2 & c1 & c2 & Ht2 & H1 & H2 & _ & Hnone).
    injection Ht2 as <-. injection H1 as <-. injection H2 as <-.
    destruct (Hnone PyNone TypeError eq_refl eq_refl eq_refl)
      as (Hrun & (K1 & K2 & K3 & K4) & Hempty).
    split_and!; [exact Hrun | exact K1 | exact K2 | exact Hempty
                | exact K3 | exact K4].
Defined.

(** C4 as stated fails in two ways.  A [validation.txt] left by an
    earlier run is still there after the third stage has failed: the
    first two stages return, [proof.txt] is not there, the request for
    the proof raises, [main] ends with [ServiceError], and
    [validation.txt] exists.  And when the service answers the request
    for the proof with a completion without content, [main] ends with
    [TypeError] and [proof.txt] exists, empty. *)
Lemma stage3_failure_leftovers :
  let w := {| fs := stale_validation_fs; trace := [] |} in
  let w2 := snd (main_upto_main_theorem flaky_env sample_args w) in
  let w' := snd (main flaky_env sample_args w) in
  let w0 := {| fs := <[["out"] := Dir]> paper_fs; trace := [] |} in
  let w02 := snd (main_upto_main_theorem silent_env sample_args w0) in
  let w0' := snd (main silent_env sample_args w0) in
  (main_upto_main_theorem flaky_env sample_args w
     = (Ok (PyStr ("R0" +:+ LF), PyStr "R1"), w2) ∧
   FS.path_exists (stage_path sample_args Prove) (fs w2) = false ∧
   create flaky_env (requests (trace w2)) (prompt_request (proof_prompt "R1"))
     = None ∧
   fst (main flaky_env sample_args w) = Raise ServiceError ∧
   FS.path_exists (stage_path sample_args Validate) (fs w') = true ∧
   FS.file_at (stage_path sample_args Validate) (fs w') = Some "stale") ∧
  (main_upto_main_theorem silent_env sample_args w0
     = (Ok (PyStr ("R0" +:+ LF), PyStr "R1"), w02) ∧
   FS.path_exists (stage_path sample_args Prove) (fs w02) = false ∧
   create silent_env (requests (trace w02))
     (prompt_request (proof_prompt "R1")) = Some PyNone ∧
   fst (main silent_env sample_args w0) = Raise TypeError ∧
   FS.path_exists (stage_path sample_args Prove) (fs w0') = true ∧
   FS.file_at (stage_path sample_args Prove) (fs w0') = Some "").
Proof. vm_compute. by split_and!. Qed.

(** * Further properties of the program *)

(** ** What a run leaves alone *)

Section keeps_run.
Import Path PathFacts FS FSFacts.
Context (I : gmap (list string) node → Prop) (P : event → Prop).
Context (e : env) (args : cli_args).
Hypothesis P_print : ∀ line, P (EvPrint line).
Hypothesis P_read : ∀ s, P (EvRead (stage_path args s)).
Hypothesis P_write : ∀ s text, P (EvWrite (stage_path args s) text).
Hypothesis P_convert : P (EvConvert (pdf_path args)).
Hypothesis P_makedirs : P (EvMakedirs (output_dir args)).
Hypothesis P_create : ∀ s r, issued_by s r → P (EvCreate r).
Hypothesis I_makedirs :
  ∀ fs fs', I fs → makedirs (output_dir args) fs = Ok fs' → I fs'.
Hypothesis I_write :
  ∀ s text fs fs',
    I fs → fs !! stage_key args s = None →
    write (stage_path args s) text fs = Ok fs' → I fs'.

Lemma run_stage_compute t1 t2 t3 s :
  keeps I P (stage_compute e args t1 t2 t3 s).
Proof.
  destruct s; simpl.
  - apply keeps_bind; [by apply keeps_convert_from_path |]. intros images.
    apply keeps_bind; [| intros text; apply keeps_ret].
    apply keeps_extract_pages; [done |].
    intros image. apply (P_create Extract). by exists image.
  - apply keeps_bind; [apply keeps_operand |]. intros t.
    apply keeps_chat_completions_create, (P_create MainTheorem). by exists t.
  - apply keeps_bind; [apply keeps_operand |]. intros t.
    apply keeps_chat_completions_create, (P_create Prove). by exists t.
  - apply keeps_bind; [apply keeps_operand |]. intros t.
    apply keeps_bind; [apply keeps_operand |]. intros p.
    apply keeps_chat_completions_create, (P_create Validate). by exists t, p.
Qed.

(** A stage whose file is there only prints and reads. *)
Lemma run_stage_present t1 t2 t3 s w :
  is_Some (fs w !! stage_key args s) →
  fs (snd (stage_block e args t1 t2 t3 s w)) = fs w ∧
  extends P w (snd (stage_block e args t1 t2 t3 s w)).
Proof.
  intros Hk. rewrite stage_block_run_stage. unfold run_stage.
  erewrite bind_Ok by apply stage_exists.
  rewrite bool_decide_eq_true_2 by done.
  erewrite bind_Ok by reflexivity.
  unfold load_result, bind, open_read. fold (stage_path args s).
  destruct (read (stage_path args s) _); simpl; (split; [done |]);
    exists [EvPrint (hit_message s); EvRead (stage_path args s)];
    (split; [simpl; by rewrite <- app_assoc | by repeat constructor]).
Qed.

Lemma run_stage_block t1 t2 t3 s :
  keeps I P (stage_block e args t1 t2 t3 s).
Proof.
  intros w HI. destruct (fs w !! stage_key args s) as [n |] eqn:Hk.
  { destruct (run_stage_present t1 t2 t3 s w) as [-> He]; [by rewrite Hk |].
    done. }
  rewrite stage_miss by done.
  set (w1 := log (EvPrint (miss_message s)) w).
  assert (extends P w w1) as E1 by by apply extends_log.
  destruct (run_stage_compute t1 t2 t3 s w1 HI) as [HI2 E2].
  pose proof (stage_compute_fs e args t1 t2 t3 s w1) as Hfs.
  destruct (stage_compute e args t1 t2 t3 s w1) as [[text | ex] w2] eqn:Hc;
    simpl in HI2, E2, Hfs.
  2: { rewrite (bind_Raise _ _ _ _ _ Hc). simpl.
       split; [done |]. eapply extends_trans; [exact E1 | exact E2]. }
  rewrite (bind_Ok _ _ _ _ _ Hc).
  assert (extends P w w2) as E by by eapply extends_trans.
  unfold save_result, bind. rewrite open_write_run.
  fold (stage_path args s).
  destruct (write (stage_path args s) "" (fs w2)) as [fs' | ex] eqn:Hw;
    simpl.
  2: { split; [done |].
       eapply extends_trans; [exact E |]. by apply extends_log. }
  destruct (encode text) as [bytes | ex]; simpl.
  - split.
    + eapply I_write; [exact HI2 | by rewrite Hfs |].
      by eapply write_bytes.
    + eapply extends_trans; [exact E |].
      eexists [_; _]. split; [simpl; by rewrite <- app_assoc |].
      by repeat constructor.
  - split; [eapply I_write; [exact HI2 | by rewrite Hfs | exact Hw] |].
    eapply extends_trans; [exact E |]. by apply extends_log.
Qed.

Lemma run_main_output_dir : keeps I P (main_output_dir args).
Proof.
  unfold main_output_dir.
  apply keeps_bind; [apply keeps_os_path_exists |]. intros present.
  apply keeps_if; [| apply keeps_ret].
  apply keeps_bind; [| intros _; by apply keeps_print].
  by apply keeps_os_makedirs.
Qed.

Lemma run_main_stages : keeps I P (main_stages e args).
Proof.
  unfold main_stages.
  apply keeps_bind; [apply (run_stage_block PyNone PyNone PyNone Extract) |].
  intros t1.
  apply keeps_bind; [apply (run_stage_block t1 PyNone PyNone MainTheorem) |].
  intros t2.
  apply keeps_bind; [apply (run_stage_block PyNone t2 PyNone Prove) |].
  intros t3.
  apply keeps_bind; [apply (run_stage_block PyNone t2 t3 Validate) |].
  intros t4.
  by apply keeps_main_report.
Qed.

Lemma run_main : keeps I P (main e args).
Proof.
  rewrite main_unfold.
  apply keeps_bind; [apply run_main_output_dir |]. intros _.
  apply run_main_stages.
Qed.

End keeps_run.

(** Nodes that are there stay as they are, through the stages and
    through a whole run. *)
Lemma node_kept_write args s text f f' (p : list string) (n : node) :
  f !! p = Some n → f !! stage_key args s = None →
  FS.write (stage_path args s) text f = Ok f' → f' !! p = Some n.
Proof.
  intros Hp Hk Hw.
  rewrite (FSFacts.write_join_other _ _ (FSFacts.stage_file_is_name s)
             _ _ _ _ Hw); [done |].
  intros ->. fold (stage_key args s) in Hp. congruence.
Qed.

Lemma stage_block_keeps_node e args t1 t2 t3 s w (p : list string)
    (n : node) :
  fs w !! p = Some n →
  fs (snd (stage_block e args t1 t2 t3 s w)) !! p = Some n.
Proof.
  intros Hp.
  apply (run_stage_block (λ f, f !! p = Some n) (λ _, True)); try done.
  intros s' text f f'. apply node_kept_write.
Qed.

Lemma main_keeps_node e args w (p : list string) (n : node) :
  fs w !! p = Some n → fs (snd (main e args w)) !! p = Some n.
Proof.
  intros Hp.
  apply (run_main (λ f, f !! p = Some n) (λ _, True)); try done.
  - intros f f' Hf Hmk. by eapply FSFacts.makedirs_keeps.
  - intros s text f f'. apply node_kept_write.
Qed.

Lemma file_at_kept f f' path c :
  (∀ (p : list string) (n : node), f !! p = Some n → f' !! p = Some n) →
  FS.file_at path f = Some c → FS.file_at path f' = Some c.
Proof.
  intros Hkept. unfold FS.file_at, FS.stat, FS.lookup_path.
  case_bool_decide; [done |]. case_bool_decide; [done |].
  destruct (f !! Path.resolve path) as [[|c']|] eqn:Hp; try done.
  rewrite (Hkept _ _ Hp). done.
Qed.

(** Every regular file that is there when [main] starts (the document,
    a stage file, any other file) is there when [main] ends, however it
    ends, with the same contents. *)
Theorem main_keeps_files (e : env) (args : cli_args) (w : world)
    (path c : string) :
  FS.file_at path (fs w) = Some c →
  FS.file_at path (fs (snd (main e args w))) = Some c.
Proof.
  apply file_at_kept. intros p n. apply main_keeps_node.
Qed.

Lemma main_keeps_files_witness :
  let w := {| fs := notes_fs; trace := [] |} in
  FS.file_at "out/notes.txt" (fs (snd (main counting_env sample_args w)))
  = Some "keep me".
Proof.
  exact (main_keeps_files counting_env sample_args
           {| fs := notes_fs; trace := [] |} "out/notes.txt" "keep me"
           eq_refl).
Defined.

(** Whatever the outcome of [main], the only directory it makes is the
    output directory, the only document it renders is the one at the
    input path, it reads and writes no file but the four stage files,
    and every request it makes is built by one of the four functions. *)
Theorem main_effects_confined (e : env) (args : cli_args) (w : world) :
  extends (confined args) w (snd (main e args w)).
Proof.
  apply (run_main (λ _, True) (confined args)); simpl; eauto.
Qed.

(** ** Runs that succeed *)

Lemma main_output_dir_ok_exists args w w0 :
  main_output_dir args w = (Ok (), w0) →
  FS.path_exists (output_dir args) (fs w0) = true.
Proof.
  unfold main_output_dir. intros (present & w1 & Hex & H)%bind_inv_Ok.
  unfold os_path_exists in Hex. simplify_eq.
  destruct (FS.path_exists (output_dir args) (fs w1)) eqn:Hd; simpl in H.
  - unfold ret in H. by simplify_eq.
  - apply bind_inv_Ok in H as ([] & w2 & Hmk & Hp).
    unfold print in Hp. simplify_eq. simpl.
    unfold os_makedirs in Hmk.
    destruct (FS.makedirs (output_dir args) (fs w1)) eqn:Hm; simplify_eq.
    simpl. by eapply FSFacts.is_dir_exists, FSFacts.makedirs_is_dir.
Qed.

Lemma path_exists_kept f f' path :
  (∀ (p : list string) (n : node), f !! p = Some n → f' !! p = Some n) →
  FS.path_exists path f = true → FS.path_exists path f' = true.
Proof.
  intros Hkept. unfold FS.path_exists, FS.stat, FS.lookup_path.
  destruct (bool_decide (path = "")); [done |].
  destruct (bool_decide (Path.resolve path = [] ∨ Path.resolve path = ["/"]));
    [done |].
  destruct (f !! Path.resolve path) as [n |] eqn:Hn;
    [| by intros [? ?]%bool_decide_eq_true].
  by rewrite (Hkept _ _ Hn).
Qed.

Lemma read_or_written_decode before after k t :
  read_or_written before after k t →
  ∃ c, after !! k = Some (File c) ∧
       Text.decode c = Some (Text.universal_newlines t).
Proof.
  intros (c & Hk & [[_ Hc] | (_ & Hc & Hv)]); exists c; (split; [done |]).
  - apply TextFacts.decode_Some in Hc as Hc'. destruct Hc' as [_ ->].
    by rewrite TextFacts.universal_newlines_idemp.
  - subst c. by apply TextFacts.decode_valid.
Qed.

(** The shape of a run that succeeds: the four stages returned texts,
    each has its file, and the report closes the trace. *)
Lemma main_success_inv e args w :
  fst (main e args w) = Ok () →
  ∃ t1 t2 t3 t4 w4,
    snd (main e args w)
    = {| fs := fs w4;
         trace := trace w4 ++ (EvPrint <$> report t1 t2 t3 t4) |} ∧
    FS.path_exists (output_dir args) (fs w4) = true ∧
    ∀ s, read_or_written (fs w) (fs w4) (stage_key args s)
           (stage_text t1 t2 t3 t4 s).
Proof.
  destruct (main e args w) as [[[] | ex] w'] eqn:Hrun; [| done]. intros _.
  unfold main in Hrun.
  apply bind_inv_Ok in Hrun as ([] & w0 & H0 & Hrun).
  apply bind_inv_Ok in Hrun as (v1 & w1 & H1 & Hrun).
  apply bind_inv_Ok in Hrun as (v2 & w2 & H2 & Hrun).
  apply bind_inv_Ok in Hrun as (v3 & w3 & H3 & Hrun).
  apply bind_inv_Ok in Hrun as (v4 & w4 & H4 & Hrun).
  rewrite main_report_run in Hrun. simplify_eq.
  change (stage_block e args PyNone PyNone PyNone Extract w0 = (Ok v1, w1))
    in H1.
  change (stage_block e args v1 PyNone PyNone MainTheorem w1 = (Ok v2, w2))
    in H2.
  change (stage_block e args PyNone v2 PyNone Prove w2 = (Ok v3, w3)) in H3.
  change (stage_block e args PyNone v2 v3 Validate w3 = (Ok v4, w4)) in H4.
  pose proof (λ k, stage_block_frame e args PyNone PyNone PyNone Extract k w0)
    as F1.
  pose proof (λ k, stage_block_frame e args v1 PyNone PyNone MainTheorem k w1)
    as F2.
  pose proof (λ k, stage_block_frame e args PyNone v2 PyNone Prove k w2) as F3.
  pose proof (λ k, stage_block_frame e args PyNone v2 v3 Validate k w3) as F4.
  rewrite H1 in F1. rewrite H2 in F2. rewrite H3 in F3. rewrite H4 in F4.
  simpl in F1, F2, F3, F4.
  assert (∀ s, fs w0 !! stage_key args s = fs w !! stage_key args s) as F0.
  { intros s. pose proof (main_output_dir_frame args (stage_file s) w) as Fr.
    by rewrite H0 in Fr. }
  destruct (stage_ok_inv e args _ _ _ _ _ _ _ H1) as (t1 & c1 & -> & K1 & I1).
  destruct (stage_ok_inv e args _ _ _ _ _ _ _ H2) as (t2 & c2 & -> & K2 & I2).
  destruct (stage_ok_inv e args _ _ _ _ _ _ _ H3) as (t3 & c3 & -> & K3 & I3).
  destruct (stage_ok_inv e args _ _ _ _ _ _ _ H4) as (t4 & c4 & -> & K4 & I4).
  exists t1, t2, t3, t4, w4. simpl. split_and!; [done | |].
  { apply main_output_dir_ok_exists in H0.
    eapply path_exists_kept; [| exact H0]. intros p n Hp.
    pose proof (stage_block_keeps_node e args PyNone PyNone PyNone Extract
                  w0 p n Hp) as Hp1.
    rewrite H1 in Hp1.
    pose proof (stage_block_keeps_node e args (PyStr t1) PyNone PyNone
                  MainTheorem w1 p n Hp1) as Hp2.
    rewrite H2 in Hp2.
    pose proof (stage_block_keeps_node e args PyNone (PyStr t2) PyNone
                  Prove w2 p n Hp2) as Hp3.
    rewrite H3 in Hp3.
    pose proof (stage_block_keeps_node e args PyNone (PyStr t2) (PyStr t3)
                  Validate w3 p n Hp3) as Hp4.
    by rewrite H4 in Hp4. }
  intros [].
  - exists c1. simpl.
    rewrite F4, F3, F2 by by intros ?%FSFacts.stage_key_inj.
    split; [done |]. rewrite <- F0.
    destruct I1 as [(? & ? & _) | (? & ? & ? & _)]; [by left | by right].
  - exists c2. simpl.
    rewrite F4, F3 by by intros ?%FSFacts.stage_key_inj.
    split; [done |].
    rewrite <- F0, <- F1 by by intros ?%FSFacts.stage_key_inj.
    destruct I2 as [(? & ? & _) | (? & ? & ? & _)]; [by left | by right].
  - exists c3. simpl.
    rewrite F4 by by intros ?%FSFacts.stage_key_inj.
    split; [done |].
    rewrite <- F0, <- F1, <- F2 by by intros ?%FSFacts.stage_key_inj.
    destruct I3 as [(? & ? & _) | (? & ? & ? & _)]; [by left | by right].
  - exists c4. simpl. split; [done |].
    rewrite <- F0, <- F1, <- F2, <- F3 by by intros ?%FSFacts.stage_key_inj.
    destruct I4 as [(? & ? & _) | (? & ? & ? & _)]; [by left | by right].
Qed.

(** When [main] succeeds, the four stage files exist and the run ends
    with the report of the four texts that the files read back as.  The
    text reported for a stage whose file was there when the run started
    is what that file reads as (its contents decoded, newlines
    translated); the text reported for a stage whose file was not there
    is what the file holds now, byte for byte. *)
Theorem success_reports_files (e : env) (args : cli_args) (w : world) :
  fst (main e args w) = Ok () →
  let w' := snd (main e args w) in
  ∃ t1 t2 t3 t4 before,
    trace w' = before ++ (EvPrint <$> report t1 t2 t3 t4) ∧
    ∀ s,
      let t := stage_text t1 t2 t3 t4 s in
      FS.text_at (stage_path args s) (fs w')
        = Some (Text.universal_newlines t) ∧
      (∀ c, FS.file_at (stage_path args s) (fs w) = Some c →
            FS.file_at (stage_path args s) (fs w') = Some c ∧
            Text.decode c = Some t) ∧
      (FS.path_exists (stage_path args s) (fs w) = false →
       FS.file_at (stage_path args s) (fs w') = Some t).
Proof.
  intros (t1 & t2 & t3 & t4 & w4 & -> & _ & Hs)%main_success_inv.
  exists t1, t2, t3, t4, (trace w4). simpl. split; [done |].
  intros s. specialize (Hs s).
  destruct (read_or_written_decode _ _ _ _ Hs) as (c' & Hk' & Hc').
  destruct Hs as (c & Hk & Hcase). split_and!.
  - by rewrite (FSFacts.text_at_stage _ _ _ c').
  - intros c0 H0%FSFacts.file_at_stage.
    destruct Hcase as [[Hb Hc] | (Hb & _)]; [| congruence].
    rewrite H0 in Hb. simplify_eq. split; [| done].
    by apply FSFacts.file_at_stage.
  - intros H0%stage_absent.
    destruct Hcase as [[Hb _] | (_ & -> & _)]; [congruence |].
    by apply FSFacts.file_at_stage.
Qed.

Lemma success_reports_files_witness :
  let w := {| fs := <[["out"] := Dir]> paper_fs; trace := [] |} in
  let w' := snd (main counting_env sample_args w) in
  ∃ t1 t2 t3 t4 before,
    trace w' = before ++ (EvPrint <$> report t1 t2 t3 t4) ∧
    ∀ s,
      let t := stage_text t1 t2 t3 t4 s in
      FS.text_at (stage_path sample_args s) (fs w')
        = Some (Text.universal_newlines t) ∧
      (∀ c, FS.file_at (stage_path sample_args s) (fs w) = Some c →
            FS.file_at (stage_path sample_args s) (fs w') = Some c ∧
            Text.decode c = Some t) ∧
      (FS.path_exists (stage_path sample_args s) (fs w) = false →
       FS.file_at (stage_path sample_args s) (fs w') = Some t).
Proof.
  exact (success_reports_files counting_env sample_args
           {| fs := <[["out"] := Dir]> paper_fs; trace := [] |} eq_refl).
Defined.

(** After a run that succeeded, a second run on the same arguments
    succeeds with any service and any renderer: it makes no request,
    leaves the file system as it is, reads the four files and prints the
    report that closed the first run, with the carriage returns of its
    four texts translated into newlines: the same report when the texts
    hold none. *)
Theorem rerun_after_success (e : env) (args : cli_args) (w : world) :
  fst (main e args w) = Ok () →
  let w1 := snd (main e args w) in
  ∃ t1 t2 t3 t4 before,
    trace w1 = before ++ (EvPrint <$> report t1 t2 t3 t4) ∧
    (∀ e2,
       main e2 args w1 =
       (Ok (),
        {| fs := fs w1;
           trace := trace w1
                    ++ hit_events args Extract ++ hit_events args MainTheorem
                    ++ hit_events args Prove ++ hit_events args Validate
                    ++ (EvPrint <$> report (Text.universal_newlines t1)
                                      (Text.universal_newlines t2)
                                      (Text.universal_newlines t3)
                                      (Text.universal_newlines t4)) |})) ∧
    (Forall (λ t, Text.cr_free t = true) [t1; t2; t3; t4] →
     report (Text.universal_newlines t1) (Text.universal_newlines t2)
       (Text.universal_newlines t3) (Text.universal_newlines t4)
     = report t1 t2 t3 t4).
Proof.
  intros (t1 & t2 & t3 & t4 & w4 & -> & Hd & Hs)%main_success_inv.
  exists t1, t2, t3, t4, (trace w4). split_and!; [done | |].
  - intros e2.
    destruct (read_or_written_decode _ _ _ _ (Hs Extract))
      as (c1 & K1 & D1).
    destruct (read_or_written_decode _ _ _ _ (Hs MainTheorem))
      as (c2 & K2 & D2).
    destruct (read_or_written_decode _ _ _ _ (Hs Prove)) as (c3 & K3 & D3).
    destruct (read_or_written_decode _ _ _ _ (Hs Validate))
      as (c4 & K4 & D4).
    simpl in *.
    rewrite (all_cached_run e2 args _ c1 c2 c3 c4) by done.
    simpl. by rewrite D1, D2, D3, D4.
  - intros Hall. repeat (apply Forall_cons in Hall as [? Hall]).
    by rewrite !TextFacts.universal_newlines_id by done.
Qed.

Lemma rerun_after_success_witness :
  let w := {| fs := <[["out"] := Dir]> paper_fs; trace := [] |} in
  let w1 := snd (main counting_env sample_args w) in
  ∃ t1 t2 t3 t4 before,
    trace w1 = before ++ (EvPrint <$> report t1 t2 t3 t4) ∧
    (∀ e2,
       main e2 sample_args w1 =
       (Ok (),
        {| fs := fs w1;
           trace := trace w1
                    ++ hit_events sample_args Extract
                    ++ hit_events sample_args MainTheorem
                    ++ hit_events sample_args Prove
                    ++ hit_events sample_args Validate
                    ++ (EvPrint <$> report (Text.universal_newlines t1)
                                      (Text.universal_newlines t2)
                                      (Text.universal_newlines t3)
                                      (Text.universal_newlines t4)) |})) ∧
    (Forall (λ t, Text.cr_free t = true) [t1; t2; t3; t4] →
     report (Text.universal_newlines t1) (Text.universal_newlines t2)
       (Text.universal_newlines t3) (Text.universal_newlines t4)
     = report t1 t2 t3 t4).
Proof.
  exact (rerun_after_success counting_env sample_args
           {| fs := <[["out"] := Dir]> paper_fs; trace := [] |} eq_refl).
Defined.

(** ** [save_result] and [load_result] *)

Lemma write_inv path bytes f f' :
  FS.write path bytes f = Ok f' →
  path ≠ "" ∧ Path.endswith_slash path = false ∧
  FS.lookup_path f (Path.resolve path) ≠ Some Dir ∧
  f' = <[Path.resolve path := File bytes]> f.
Proof.
  unfold FS.write. case_bool_decide; [done |].
  destruct (FS.lookup_path f (Path.resolve path)) as [[|c]|] eqn:Hl;
    [done | ..];
    destruct (FS.lookup_path f (removelast (Path.resolve path))) as [[|?]|];
    try done; destruct (Path.endswith_slash path); try done;
    intros ?; by simplify_eq.
Qed.

Lemma write_lookup path bytes f f' :
  FS.write path bytes f = Ok f' →
  FS.lookup_path f' (Path.resolve path) = Some (File bytes).
Proof.
  intros (Hne & _ & Hl & ->)%write_inv.
  unfold FS.lookup_path in *. case_bool_decide; [done |].
  by rewrite lookup_insert_eq.
Qed.

Lemma write_read path bytes f f' :
  FS.write path bytes f = Ok f' →
  FS.read path f' = match Text.decode bytes with
                    | Some text => Ok text
                    | None => Raise UnicodeDecodeError
                    end.
Proof.
  intros Hw. pose proof (write_lookup _ _ _ _ Hw) as Hl.
  apply write_inv in Hw as (Hne & Hs & _ & _). unfold FS.read.
  by rewrite bool_decide_eq_false_2, Hl, Hs by done.
Qed.

Lemma write_file_at path bytes f f' :
  FS.write path bytes f = Ok f' → FS.file_at path f' = Some bytes.
Proof.
  intros Hw. pose proof (write_lookup _ _ _ _ Hw) as Hl.
  apply write_inv in Hw as (Hne & Hs & _ & _). unfold FS.file_at, FS.stat.
  by rewrite bool_decide_eq_false_2, Hl, Hs by done.
Qed.

Lemma write_file_at_other path bytes f f' other :
  FS.write path bytes f = Ok f' →
  Path.resolve other ≠ Path.resolve path →
  FS.file_at other f' = FS.file_at other f.
Proof.
  intros (_ & _ & _ & ->)%write_inv Hne. by apply file_at_insert_ne.
Qed.

(** What [save_result] has written, [load_result] reads back, up to the
    newlines.  For every directory, file name and value, if
    [save_result] returns then the value is a text, the file holds it
    byte for byte, [load_result] on the same directory and name returns
    the text with every "\r\n" and "\r" turned into "\n", which is the
    text itself when it holds no carriage return, and the files at other
    places are as they were. *)
Theorem save_then_load (output_dir filename : string) (v : value)
    (w w1 : world) :
  save_result output_dir filename v w = (Ok (), w1) →
  let path := Path.join output_dir filename in
  ∃ text,
    v = PyStr text ∧
    FS.file_at path (fs w1) = Some text ∧
    load_result output_dir filename w1
      = (Ok (PyStr (Text.universal_newlines text)), log (EvRead path) w1) ∧
    (Text.cr_free text = true →
     load_result output_dir filename w1
       = (Ok (PyStr text), log (EvRead path) w1)) ∧
    (∀ other,
       Path.resolve other ≠ Path.resolve path →
       FS.file_at other (fs w1) = FS.file_at other (fs w)).
Proof.
  unfold save_result. intros ([] & w0 & Hw & Hp)%bind_inv_Ok.
  unfold print in Hp. simplify_eq. rewrite open_write_run in Hw.
  destruct (FS.write _ "" (fs w)) as [f0 |] eqn:Hwr; [| done].
  destruct (encode v) as [bytes |] eqn:Hv; [| done].
  apply encode_Ok in Hv as [-> Hv]. simplify_eq.
  apply (FSFacts.write_bytes _ _ bytes) in Hwr.
  assert (load_result output_dir filename
            (log (EvPrint ("[INFO] " +:+ filename +:+ " に結果を保存しました。"))
               {| fs := <[Path.resolve (Path.join output_dir filename)
                            := File bytes]> (fs w);
                  trace := trace w
                           ++ [EvWrite (Path.join output_dir filename)
                                 (PyStr bytes)] |})
          = (Ok (PyStr (Text.universal_newlines bytes)),
             log (EvRead (Path.join output_dir filename))
               (log (EvPrint ("[INFO] " +:+ filename
                              +:+ " に結果を保存しました。"))
                  {| fs := <[Path.resolve (Path.join output_dir filename)
                               := File bytes]> (fs w);
                     trace := trace w
                              ++ [EvWrite (Path.join output_dir filename)
                                    (PyStr bytes)] |}))) as Hload.
  { unfold load_result, bind, open_read. simpl.
    by rewrite (write_read _ _ _ _ Hwr), TextFacts.decode_valid. }
  exists bytes. cbv zeta. split_and!; [done | | done | |].
  - simpl. by eapply write_file_at.
  - intros Hcr. by rewrite Hload, TextFacts.universal_newlines_id.
  - intros other Hne. simpl. by eapply write_file_at_other.
Qed.

Lemma save_then_load_witness :
  let w := {| fs := notes_fs; trace := [] |} in
  let text := "by induction" +:+ String Text.cr (String Text.lf "") in
  let w1 := snd (save_result "out/" "proof.txt" (PyStr text) w) in
  FS.file_at "out/proof.txt" (fs w1) = Some text ∧
  load_result "out/" "proof.txt" w1
    = (Ok (PyStr ("by induction" +:+ LF)), log (EvRead "out/proof.txt") w1).
Proof.
  intros w text w1.
  destruct (save_then_load "out/" "proof.txt" (PyStr text) w w1 eq_refl)
    as (text' & Hv & Hfile & Hload & _).
  injection Hv as <-. split; [exact Hfile | exact Hload].
Defined.

(** ** The page loop when a request fails *)

(** The loop stops at the first request that raises or is answered
    without content: it has gone through the first [k] pages, and it
    returns exactly when the service answers all the page requests with
    texts. *)
Lemma extract_pages_prefix e images :
  ∀ i full_text w,
  ∃ k, k ≤ length images ∧
    snd (extract_pages e i images full_text w)
    = {| fs := fs w; trace := trace w ++ page_events i (take k images) |} ∧
    match fst (extract_pages e i images full_text w) with
    | Ok text =>
        k = length images ∧
        ∃ texts,
          replies e (requests (trace w)) (image_request <$> images)
          = Some texts ∧
          text = full_text +:+ join_pages texts
    | Raise ex =>
        first_failure e (requests (trace w)) (image_request <$> images)
        = Some ex ∧
        0 < k ∧
        replies e (requests (trace w)) (image_request <$> images) = None
    end.
Proof.
  induction images as [|image images IH]; intros i full_text w.
  - exists 0. simpl. rewrite app_nil_r, world_eta.
    split_and!; [done.. |]. exists []. by rewrite append_nil_r.
  - simpl. erewrite bind_Ok by reflexivity.
    set (w1 := log (EvPrint _) w).
    assert (requests (trace w1) = requests (trace w)) as Hreq1.
    { simpl. rewrite requests_app. simpl. by rewrite app_nil_r. }
    unfold process_image_with_gpt4o.
    destruct (create e (requests (trace w)) (image_request image))
      as [[text |] |] eqn:Hc.
    + erewrite bind_Ok by (apply create_ok; by rewrite Hreq1).
      erewrite bind_Ok by reflexivity.
      set (w2 := log (EvCreate (image_request image)) w1).
      destruct (IH (S i) (full_text +:+ (text +:+ LF)) w2)
        as (k & Hk & Hw & Hr).
      exists (S k). split; [simpl; lia |]. rewrite Hw. simpl.
      split; [by rewrite <- !app_assoc |].
      assert (requests (trace w2)
              = requests (trace w) ++ [image_request image]) as Hreq.
      { simpl. rewrite !requests_app. simpl. by rewrite app_nil_r. }
      rewrite Hreq in Hr.
      destruct (fst (extract_pages e (S i) images _ w2)) as [t | ex].
      * destruct Hr as (-> & texts & Hrep & ->). split; [done |].
        exists (text :: texts). unfold fmap in Hrep. rewrite Hrep. simpl.
        by rewrite append_assoc.
      * destruct Hr as (Hff & _ & Hrep). unfold fmap in Hrep, Hff.
        rewrite Hrep. split_and!; [done | lia | done].
    + erewrite bind_Ok by (apply create_ok; by rewrite Hreq1).
      erewrite bind_Raise by reflexivity.
      exists 1. split; [simpl; lia |]. simpl.
      unfold log, w1. simpl. rewrite <- app_assoc.
      split_and!; [done | done | lia | done].
    + erewrite bind_Raise by (apply create_failed; by rewrite Hreq1).
      exists 1. split; [simpl; lia |]. simpl.
      unfold log, w1. simpl. rewrite <- app_assoc.
      split_and!; [done | done | lia | done].
Qed.

(** What ends the page loop is the error of a call or the [TypeError] of
    an answer without content. *)
Lemma first_failure_kind e history reqs ex :
  first_failure e history reqs = Some ex → ex = ServiceError ∨ ex = TypeError.
Proof.
  revert history. induction reqs as [|r reqs IH]; intros history; simpl;
    [done |].
  destruct (create e history r) as [[text |] |]; [apply IH | ..];
    intros ?; simplify_eq; auto.
Qed.

(** Whatever the service does, the requests of [extract_text_via_gpt4o]
    on a valid document are those of the first [k] pages, in page
    order, each after its announcement; the function touches no file;
    it returns only after all the pages ([k] is their number), and
    otherwise raises at the [k]-th page: the error of the call for that
    page, or [TypeError] when that page was answered without content. *)
Theorem extraction_stops_at_failure (e : env) (pdf : string) (w : world)
    (bytes : string) (images : list image) :
  FS.file_at pdf (fs w) = Some bytes →
  render e bytes = Some images →
  let r := extract_text_via_gpt4o e pdf w in
  ∃ k, k ≤ length images ∧
    snd r = {| fs := fs w;
               trace := trace w ++ EvConvert pdf
                        :: page_events 0 (take k images) |} ∧
    match fst r with
    | Ok v =>
        k = length images ∧
        ∃ texts,
          replies e (requests (trace w)) (image_request <$> images)
          = Some texts ∧
          v = PyStr (join_pages texts)
    | Raise ex =>
        first_failure e (requests (trace w)) (image_request <$> images)
        = Some ex ∧
        (ex = ServiceError ∨ ex = TypeError) ∧
        0 < k ∧
        replies e (requests (trace w)) (image_request <$> images) = None
    end.
Proof.
  intros Hf Hr. simpl. unfold extract_text_via_gpt4o.
  erewrite bind_Ok; last first.
  { unfold convert_from_path. by rewrite Hf, Hr. }
  destruct (extract_pages_prefix e images 0 "" (log (EvConvert pdf) w))
    as (k & Hk & Hw & Hres).
  simpl in Hres. rewrite requests_app in Hres. simpl in Hres.
  rewrite app_nil_r in Hres.
  exists k. split; [done |].
  destruct (extract_pages e 0 images "" (log (EvConvert pdf) w))
    as [[text | ex] w1] eqn:Hp; simpl in Hw, Hres; subst w1.
  - rewrite (bind_Ok _ _ _ _ _ Hp). unfold ret. simpl.
    split; [by rewrite <- app_assoc |].
    destruct Hres as (-> & texts & Hrep & ->). split; [done |].
    by exists texts.
  - rewrite (bind_Raise _ _ _ _ _ Hp). simpl.
    split; [by rewrite <- app_assoc |].
    destruct Hres as (Hff & Hpos & Hrep). split_and!; try done.
    by eapply first_failure_kind.
Qed.

Lemma extraction_stops_at_failure_witness :
  let w := {| fs := paper_fs; trace := [] |} in
  let r := extract_text_via_gpt4o one_answer_env "paper.pdf" w in
  ∃ k, k ≤ length three_pages ∧
    snd r = {| fs := paper_fs;
               trace := EvConvert "paper.pdf"
                        :: page_events 0 (take k three_pages) |} ∧
    match fst r with
    | Ok v =>
        k = length three_pages ∧
        ∃ texts,
          replies one_answer_env [] (image_request <$> three_pages)
          = Some texts ∧
          v = PyStr (join_pages texts)
    | Raise ex =>
        first_failure one_answer_env [] (image_request <$> three_pages)
        = Some ex ∧
        (ex = ServiceError ∨ ex = TypeError) ∧
        0 < k ∧
        replies one_answer_env [] (image_request <$> three_pages) = None
    end.
Proof.
  exact (extraction_stops_at_failure one_answer_env "paper.pdf"
           {| fs := paper_fs; trace := [] |} "%PDF" three_pages
           eq_refl eq_refl).
Defined.

Lemma page_events_no_write i images :
  Forall not_a_write (page_events i images).
Proof.
  revert i. induction images as [|image images IH]; intros i; simpl;
    by repeat constructor.
Qed.

Lemma requests_startup_events d f : requests (startup_events d f) = [].
Proof. unfold startup_events. by destruct (FS.makedirs d f). Qed.

(** When a page request fails, the texts of the pages before are lost:
    with an output directory that is there or can be made and no
    [extracted_text.txt], if the call for some page raises or is
    answered without content, [main] raises the error [ex] of the first
    such page ([ServiceError] or [TypeError]), writes no file at all and
    leaves [extracted_text.txt] absent; the requests of the run are
    those of the first [k] pages, for some [k] that is at least one. *)
Theorem failed_page_writes_nothing (e : env) (args : cli_args) (w : world)
    (bytes : string) (images : list image) (ex : exn) :
  startable_output_dir (output_dir args) (fs w) →
  FS.path_exists (stage_path args Extract) (fs w) = false →
  FS.file_at (pdf_path args) (fs w) = Some bytes →
  render e bytes = Some images →
  first_failure e (requests (trace w)) (image_request <$> images) = Some ex →
  let w' := snd (main e args w) in
  fst (main e args w) = Raise ex ∧
  fs w' = startup_fs (output_dir args) (fs w) ∧
  FS.path_exists (stage_path args Extract) (fs w') = false ∧
  extends not_a_write w w' ∧
  ∃ k, 0 < k ≤ length images ∧
       requests (trace w')
       = requests (trace w) ++ (image_request <$> take k images).
Proof.
  intros Hd Hk%stage_absent Hf Hr Hfail.
  set (w0 := {| fs := startup_fs (output_dir args) (fs w);
                trace := trace w ++ startup_events (output_dir args) (fs w) |}).
  set (w1 := log (EvPrint (miss_message Extract)) w0).
  assert (FS.file_at (pdf_path args) (fs w1) = Some bytes) as Hf1
    by (simpl; by rewrite startup_fs_file_at).
  unfold extract_text_via_gpt4o.
  assert (convert_from_path e (pdf_path args) w1
          = (Ok images, log (EvConvert (pdf_path args)) w1)) as Hconv.
  { unfold convert_from_path. by rewrite Hf1, Hr. }
  destruct (extract_pages_prefix e images 0 ""
              (log (EvConvert (pdf_path args)) w1))
    as (k & Hle & Hw & Hres).
  simpl in Hres. rewrite !requests_app, requests_startup_events in Hres.
  simpl in Hres. rewrite !app_nil_r in Hres.
  destruct (extract_pages e 0 images ""
              (log (EvConvert (pdf_path args)) w1)) as [[text | ex'] w2]
    eqn:Hpages; simpl in Hres, Hw.
  { destruct Hres as (_ & texts & Htexts & _).
    exfalso. clear -Htexts Hfail. revert Htexts Hfail.
    generalize (requests (trace w)). generalize texts.
    induction images as [|image images IH]; intros ts history; simpl;
      [done |].
    destruct (create e history _) as [[t |] |]; [| done..].
    destruct (replies e _ _) as [ts' |] eqn:Hrep; [| done].
    intros _. by apply (IH ts'). }
  destruct Hres as (Hex & Hpos & _).
  assert (ex' = ex) as -> by congruence.
  assert (main e args w = (Raise ex, w2)) as Hrun.
  { rewrite main_unfold.
    erewrite bind_Ok by by apply main_output_dir_startable.
    fold w0. unfold main_stages. erewrite bind_Raise; [done |].
    change (main_extracted_text e args)
      with (stage_block e args PyNone PyNone PyNone Extract).
    apply stage_miss_raise; [simpl; by rewrite startup_fs_stage |].
    fold w1. simpl. unfold extract_text_via_gpt4o.
    erewrite bind_Ok by exact Hconv. by erewrite bind_Raise by exact Hpages. }
  simpl. rewrite Hrun. simpl. subst w2. simpl.
  split_and!; [done | done | | |].
  - apply stage_absent. by rewrite startup_fs_stage.
  - eexists. rewrite <- !app_assoc. split; [done |].
    apply Forall_app. split.
    { unfold startup_events, created_events.
      destruct (FS.makedirs _ _); by repeat constructor. }
    repeat constructor. apply page_events_no_write.
  - exists k. split; [lia |].
    rewrite !requests_app, requests_startup_events. simpl.
    by rewrite !app_nil_r, requests_page_events.
Qed.

Lemma failed_page_writes_nothing_witness :
  let w := {| fs := <[["out"] := Dir]> paper_fs; trace := [] |} in
  let w' := snd (main one_answer_env sample_args w) in
  fst (main one_answer_env sample_args w) = Raise ServiceError ∧
  fs w' = <[["out"] := Dir]> paper_fs ∧
  FS.path_exists "out/extracted_text.txt" (fs w') = false ∧
  extends not_a_write w w' ∧
  ∃ k, 0 < k ≤ length three_pages ∧
       requests (trace w') = image_request <$> take k three_pages.
Proof.
  exact (failed_page_writes_nothing one_answer_env sample_args
           {| fs := <[["out"] := Dir]> paper_fs; trace := [] |}
           "%PDF" three_pages ServiceError
           (or_introl eq_refl) eq_refl eq_refl eq_refl eq_refl).
Defined.

(** ** Where a run picks up *)

Section resume.
Context (e : env) (args : cli_args).

Lemma main_from_main_theorem_extends t1 w :
  extends (λ _, True) w (snd (main_from_main_theorem e args t1 w)).
Proof.
  apply (keeps_bind (λ _, True) (λ _, True)); try done.
  - change (main_main_theorem e args t1)
      with (stage_block e args t1 PyNone PyNone MainTheorem).
    by apply keeps_stage_block.
  - intros t2 w0 _. split; [done | apply main_from_proof_extends].
Qed.

(** The computation of a stage on texts starts with its first event,
    whatever comes after. *)
Lemma stage_compute_first_event t1 t2 t3 s w :
  ∃ rest,
    trace (snd (stage_compute e args (PyStr t1) (PyStr t2) (PyStr t3) s w))
    = trace w ++ first_compute_event args t1 t2 t3 s :: rest.
Proof.
  destruct s; simpl.
  - unfold extract_text_via_gpt4o, convert_from_path. unfold bind at 1.
    destruct (FS.file_at (pdf_path args) (fs w)) as [bytes |];
      [destruct (render e bytes) as [images |] |]; simpl; eauto.
    destruct (keeps_extract_pages (λ _, True) (λ _, True) e (λ _, I)
                0 images "" (λ _, I) (log (EvConvert (pdf_path args)) w) I)
      as [_ (new & Hnew & _)].
    unfold bind, ret.
    destruct (extract_pages e 0 images "" _) as [[text | ex] w1];
      simpl in *; rewrite Hnew, <- app_assoc; simpl; eauto.
  - rewrite extract_main_theorem_text. unfold chat_completions_create.
    destruct (create e _ _); simpl; eauto.
  - rewrite prove_theorem_text. unfold chat_completions_create.
    destruct (create e _ _); simpl; eauto.
  - rewrite validate_proof_text. unfold chat_completions_create.
    destruct (create e _ _); simpl; eauto.
Qed.

(** A stage on a miss, followed by [K]: the announcement, then the
    first event of the computation. *)
Lemma miss_first_events t1 t2 t3 s (K : value → io unit) w :
  fs w !! stage_key args s = None →
  (∀ a w0, extends (λ _, True) w0 (snd (K a w0))) →
  ∃ rest,
    trace (snd ((t <- stage_block e args (PyStr t1) (PyStr t2) (PyStr t3) s;;
                 K t) w))
    = trace w ++ EvPrint (miss_message s)
      :: first_compute_event args t1 t2 t3 s :: rest.
Proof.
  intros Hk HK. unfold bind at 1. rewrite stage_miss by done.
  set (w1 := log (EvPrint (miss_message s)) w).
  destruct (stage_compute_first_event t1 t2 t3 s w1) as (r1 & H1).
  destruct (stage_compute e args (PyStr t1) (PyStr t2) (PyStr t3) s w1)
    as [[text | ex] w2] eqn:Hc; simpl in H1.
  - rewrite (bind_Ok _ _ _ _ _ Hc).
    destruct (save_result_extends args (stage_file s) text w2)
      as (n1 & H2 & _).
    unfold bind at 1.
    destruct (save_result _ _ _ w2) as [[[] | ex] w3]; simpl in *.
    + destruct (HK text w3) as (n2 & H3 & _).
      rewrite H3, H2, H1. simpl. rewrite <- !app_assoc. simpl. eauto.
    + rewrite H2, H1. simpl. rewrite <- !app_assoc. simpl. eauto.
  - rewrite (bind_Raise _ _ _ _ _ Hc). simpl.
    rewrite H1. simpl. rewrite <- !app_assoc. simpl. eauto.
Qed.

End resume.

(** A run picks up at the first stage whose file is missing.  When the
    path of the output directory is there, the files of the stages
    before [s] are there and read as the texts [t1], [t2], [t3] (they
    are UTF-8, and these are their contents with the newlines
    translated), and the file of [s] is not there, the run reads the
    files of the stages before [s], in order, then announces the
    computation of [s] and starts it on the texts read: the rendering of
    the document for the extraction, the request built from the texts
    read for the other stages. *)
Theorem resumes_at_first_missing (e : env) (args : cli_args) (w : world)
    (t1 t2 t3 : string) (s : stage) :
  FS.path_exists (output_dir args) (fs w) = true →
  Forall (λ s', FS.text_at (stage_path args s') (fs w)
                = Some (text_of t1 t2 t3 s')) (stages_before s) →
  FS.path_exists (stage_path args s) (fs w) = false →
  ∃ rest,
    trace (snd (main e args w))
    = trace w ++ concat (hit_events args <$> stages_before s)
      ++ EvPrint (miss_message s)
      :: first_compute_event args t1 t2 t3 s :: rest.
Proof.
  assert (∀ s' t, FS.text_at (stage_path args s') (fs w) = Some t →
            ∃ c, fs w !! stage_key args s' = Some (File c) ∧
                 Text.decode c = Some t) as Hread.
  { intros s' t. unfold FS.text_at.
    destruct (FS.file_at _ _) as [c |] eqn:Hc; [| done].
    apply FSFacts.file_at_stage in Hc. eauto. }
  intros Hd Hbefore Habs%stage_absent. unfold main.
  erewrite bind_Ok by by apply main_output_dir_present.
  destruct s; simpl in Hbefore; simpl.
  - change (main_extracted_text e args)
      with (stage_block e args (PyStr t1) (PyStr t2) (PyStr t3) Extract).
    apply (miss_first_events e args t1 t2 t3 Extract
             (main_from_main_theorem e args) w Habs).
    intros a w0. apply main_from_main_theorem_extends.
  - apply Forall_cons in Hbefore as [(c1 & H1 & D1)%Hread _].
    erewrite bind_Ok
      by by apply (stage_hit e args PyNone PyNone PyNone Extract _ c1).
    change (main_main_theorem e args (PyStr t1))
      with (stage_block e args (PyStr t1) (PyStr t2) (PyStr t3) MainTheorem).
    destruct (miss_first_events e args t1 t2 t3 MainTheorem
                (main_from_proof e args (PyStr t1))
                {| fs := fs w; trace := trace w ++ hit_events args Extract |}
                Habs (λ a w0, main_from_proof_extends e args (PyStr t1) a w0))
      as (rest & Hrest).
    exists rest. etrans; [exact Hrest |]. simpl.
    by rewrite <- !app_assoc.
  - apply Forall_cons in Hbefore as [(c1 & H1 & D1)%Hread Hbefore].
    apply Forall_cons in Hbefore as [(c2 & H2 & D2)%Hread _].
    erewrite bind_Ok
      by by apply (stage_hit e args PyNone PyNone PyNone Extract _ c1).
    erewrite bind_Ok
      by by apply (stage_hit e args (PyStr t1) PyNone PyNone MainTheorem _ c2).
    change (main_proof e args (PyStr t2))
      with (stage_block e args (PyStr t1) (PyStr t2) (PyStr t3) Prove).
    destruct (miss_first_events e args t1 t2 t3 Prove
                (main_from_validation e args (PyStr t1) (PyStr t2))
                {| fs := fs w;
                   trace := (trace w ++ hit_events args Extract)
                            ++ hit_events args MainTheorem |}
                Habs (λ a w0, main_from_validation_extends e args
                                (PyStr t1) (PyStr t2) a w0))
      as (rest & Hrest).
    exists rest. etrans; [exact Hrest |]. simpl.
    by rewrite <- !app_assoc.
  - apply Forall_cons in Hbefore as [(c1 & H1 & D1)%Hread Hbefore].
    apply Forall_cons in Hbefore as [(c2 & H2 & D2)%Hread Hbefore].
    apply Forall_cons in Hbefore as [(c3 & H3 & D3)%Hread _].
    erewrite bind_Ok
      by by apply (stage_hit e args PyNone PyNone PyNone Extract _ c1).
    erewrite bind_Ok
      by by apply (stage_hit e args (PyStr t1) PyNone PyNone MainTheorem _ c2).
    erewrite bind_Ok
      by by apply (stage_hit e args PyNone (PyStr t2) PyNone Prove _ c3).
    change (main_validation e args (PyStr t2) (PyStr t3))
      with (stage_block e args (PyStr t1) (PyStr t2) (PyStr t3) Validate).
    destruct (miss_first_events e args t1 t2 t3 Validate
                (main_report (PyStr t1) (PyStr t2) (PyStr t3))
                {| fs := fs w;
                   trace := ((trace w ++ hit_events args Extract)
                             ++ hit_events args MainTheorem)
                            ++ hit_events args Prove |}
                Habs (λ a w0, main_report_extends (PyStr t1) (PyStr t2)
                                (PyStr t3) a w0))
      as (rest & Hrest).
    exists rest. etrans; [exact Hrest |]. simpl.
    by rewrite <- !app_assoc.
Qed.

(** The first two files are there: the run reads them and asks for a
    proof of the cached main theorem. *)
Lemma resumes_at_first_missing_witness :
  let w := {| fs := two_cached_fs; trace := [] |} in
  ∃ rest,
    trace (snd (main failing_env sample_args w))
    = hit_events sample_args Extract ++ hit_events sample_args MainTheorem
      ++ EvPrint (miss_message Prove)
      :: EvCreate (prompt_request (proof_prompt "1 + 1 = 2")) :: rest.
Proof.
  refine (resumes_at_first_missing failing_env sample_args
            {| fs := two_cached_fs; trace := [] |}
            "page one" "1 + 1 = 2" "" Prove eq_refl _ eq_refl).
  repeat constructor.
Defined.

(** ** How a run fails *)

Lemma bind_inv_Raise {A B} (m : io A) (k : A → io B) w ex w' :
  bind m k w = (Raise ex, w') →
  m w = (Raise ex, w') ∨ ∃ a w1, m w = (Ok a, w1) ∧ k a w1 = (Raise ex, w').
Proof.
  unfold bind. destruct (m w) as [[a | ex0] w1]; [eauto |].
  intros ?. simplify_eq. by left.
Qed.

Lemma mkdirs_raise pre rest f ex :
  FS.mkdirs pre rest f = Raise ex → ex = NotADirectoryError.
Proof.
  revert pre f. induction rest as [|c rest IH]; intros pre f; simpl;
    [done |].
  destruct (FS.lookup_path f (pre ++ [c])) as [[|?]|]; eauto.
  intros ?. by simplify_eq.
Qed.

Lemma encode_Raise v ex :
  encode v = Raise ex →
  (v = PyNone ∧ ex = TypeError) ∨
  (∃ text, v = PyStr text ∧ Text.utf8_valid text = false
           ∧ ex = UnicodeEncodeError).
Proof.
  destruct v as [text |]; simpl.
  - destruct (Text.utf8_valid text) eqn:Hv; intros ?; simplify_eq.
    right. by exists text.
  - intros ?. simplify_eq. by left.
Qed.

Section failures.
Import Path PathFacts FS FSFacts.
Context (e : env) (args : cli_args).

(** [failed ex w']: the last event of [w'] is an operation that raises
    [ex]. *)
#[local] Abbreviation failed ex w' :=
  (∃ before ev, trace w' = before ++ [ev] ∧ caused_by e args before ev ex).

Lemma main_output_dir_raise w ex w' :
  main_output_dir args w = (Raise ex, w') → failed ex w'.
Proof.
  unfold main_output_dir. unfold bind at 1, os_path_exists.
  destruct (path_exists (output_dir args) (fs w)) eqn:Hex; simpl;
    [done |].
  unfold bind, os_makedirs, makedirs.
  case_bool_decide as Hd.
  { intros ?. simplify_eq. exists (trace w), (EvMakedirs (output_dir args)).
    by split. }
  case_bool_decide as Hl.
  - intros ?. simplify_eq. exists (trace w), (EvMakedirs (output_dir args)).
    split; [done |]. simpl. split; [done |].
    unfold path_exists, stat in Hex.
    rewrite (bool_decide_eq_false_2 (output_dir args = "")) in Hex by done.
    apply bool_decide_eq_false in Hex.
    destruct Hl as [[|c] Hl]; rewrite Hl in Hex; [by destruct Hex |].
    destruct (endswith_slash (output_dir args)); [done |]. by destruct Hex.
  - destruct (mkdirs [] (resolve (output_dir args)) (fs w)) eqn:Hmk;
      [done |].
    apply mkdirs_raise in Hmk as ->. intros ?. simplify_eq.
    exists (trace w), (EvMakedirs (output_dir args)). by split.
Qed.

Lemma extract_pages_raise images :
  ∀ i full_text w ex w',
  extract_pages e i images full_text w = (Raise ex, w') → failed ex w'.
Proof.
  induction images as [|image images IH]; intros i full_text w ex w';
    simpl; [done |].
  erewrite bind_Ok by reflexivity.
  intros [H | (page & w2 & Hpage & H)]%bind_inv_Raise.
  { unfold process_image_with_gpt4o, chat_completions_create in H.
    destruct (create e _ _) eqn:Hc; simplify_eq.
    eexists _, _. split; [reflexivity |]. exact Hc. }
  apply bind_inv_Raise in H as [H | (text & w3 & _ & H)]; [| by eapply IH].
  destruct page as [text |]; [done |].
  unfold operand, raise in H. simplify_eq.
  unfold process_image_with_gpt4o, chat_completions_create in Hpage.
  destruct (create e _ _) eqn:Hc; simplify_eq.
  eexists _, _. split; [reflexivity |]. simpl. split; [exact Hc |].
  by exists image.
Qed.

Lemma stage_compute_raise t1 t2 t3 s w ex w' :
  stage_compute e args (PyStr t1) (PyStr t2) (PyStr t3) s w = (Raise ex, w') →
  failed ex w'.
Proof.
  destruct s; simpl.
  - unfold extract_text_via_gpt4o.
    intros [H | (images & w1 & _ & H)]%bind_inv_Raise.
    + unfold convert_from_path in H.
      destruct (file_at _ _) as [bytes |];
        [destruct (render e bytes) |]; simplify_eq;
        by exists (trace w), (EvConvert (pdf_path args)).
    + apply bind_inv_Raise in H as [H | (text & w2 & _ & H)]; [| done].
      by eapply extract_pages_raise.
  - rewrite extract_main_theorem_text. unfold chat_completions_create.
    destruct (create e _ _) eqn:Hc; intros ?; simplify_eq.
    eexists _, _. split; [reflexivity | exact Hc].
  - rewrite prove_theorem_text. unfold chat_completions_create.
    destruct (create e _ _) eqn:Hc; intros ?; simplify_eq.
    eexists _, _. split; [reflexivity | exact Hc].
  - rewrite validate_proof_text. unfold chat_completions_create.
    destruct (create e _ _) eqn:Hc; intros ?; simplify_eq.
    eexists _, _. split; [reflexivity | exact Hc].
Qed.

(** Once the path of the output directory is there, a stage on texts
    fails only in the listed ways. *)
Lemma stage_block_raise t1 t2 t3 s w ex w' :
  path_exists (output_dir args) (fs w) = true →
  stage_block e args (PyStr t1) (PyStr t2) (PyStr t3) s w = (Raise ex, w') →
  failed ex w'.
Proof.
  intros Hd. destruct (fs w !! stage_key args s) as [[|c]|] eqn:Hk.
  - rewrite stage_block_run_stage. unfold run_stage.
    erewrite bind_Ok by apply stage_exists.
    rewrite bool_decide_eq_true_2 by by rewrite Hk.
    erewrite bind_Ok by reflexivity.
    unfold load_result, bind, open_read.
    rewrite read_join by apply stage_file_is_name.
    simpl. fold (stage_key args s). rewrite Hk. intros ?. simplify_eq.
    eexists _, _. split; [reflexivity |]. simpl. by exists s.
  - rewrite (stage_hit_read e args _ _ _ s w c Hk).
    destruct (Text.decode c); intros ?; simplify_eq.
    eexists (_ ++ [_]), _. split; [by rewrite <- app_assoc |].
    simpl. by exists s.
  - rewrite stage_miss by done.
    intros [H | (v & w2 & Hc & H)]%bind_inv_Raise;
      [by eapply stage_compute_raise |].
    pose proof (stage_compute_fs e args (PyStr t1) (PyStr t2) (PyStr t3) s
                  (log (EvPrint (miss_message s)) w)) as Hfs.
    rewrite Hc in Hfs. simpl in Hfs.
    apply bind_inv_Raise in H as [H | ([] & w3 & _ & H)]; [| done].
    unfold save_result in H.
    apply bind_inv_Raise in H as [H | ([] & w3 & _ & H)]; [| done].
    rewrite open_write_run in H.
    rewrite write_join in H by apply stage_file_is_name.
    fold (stage_key args s) in H. rewrite Hfs, Hk in H.
    destruct (path_exists_lookup _ _ Hd) as [n Hn]. rewrite Hn in H.
    destruct n as [|c].
    + destruct (encode v) as [bytes |] eqn:Hv; [done |]. simplify_eq.
      eexists _, _. split; [reflexivity |].
      apply encode_Raise in Hv as [[-> ->] | (text & -> & Hv & ->)]; simpl.
      * split; [done |]. by exists s.
      * split; [by exists text |]. by exists s.
    + simplify_eq. eexists _, _. split; [reflexivity |]. simpl. by exists s.
Qed.

Lemma stage_block_ok_exists t1 t2 t3 s w v w' :
  path_exists (output_dir args) (fs w) = true →
  stage_block e args t1 t2 t3 s w = (Ok v, w') →
  path_exists (output_dir args) (fs w') = true ∧ ∃ text, v = PyStr text.
Proof.
  intros Hd Hrun. split.
  - eapply path_exists_kept; [| exact Hd].
    intros p n Hp.
    pose proof (stage_block_keeps_node e args t1 t2 t3 s w p n Hp) as K.
    by rewrite Hrun in K.
  - apply stage_ok_file in Hrun as (text & c & -> & _). by exists text.
Qed.

Lemma main_stages_raise w0 ex w' :
  path_exists (output_dir args) (fs w0) = true →
  main_stages e args w0 = (Raise ex, w') → failed ex w'.
Proof.
  unfold main_stages. intros Hd0 H.
  apply bind_inv_Raise in H as [H | (v1 & w1 & H1 & H)];
    [by eapply (stage_block_raise "" "" "" Extract) |].
  destruct (stage_block_ok_exists PyNone PyNone PyNone Extract _ _ _ Hd0 H1)
    as (Hd1 & t1 & ->).
  apply bind_inv_Raise in H as [H | (v2 & w2 & H2 & H)];
    [by eapply (stage_block_raise t1 "" "" MainTheorem) |].
  destruct (stage_block_ok_exists (PyStr t1) PyNone PyNone MainTheorem
              _ _ _ Hd1 H2) as (Hd2 & t2 & ->).
  apply bind_inv_Raise in H as [H | (v3 & w3 & H3 & H)];
    [by eapply (stage_block_raise "" t2 "" Prove) |].
  destruct (stage_block_ok_exists PyNone (PyStr t2) PyNone Prove
              _ _ _ Hd2 H3) as (Hd3 & t3 & ->).
  apply bind_inv_Raise in H as [H | (v4 & w4 & H4 & H)];
    [by eapply (stage_block_raise "" t2 t3 Validate) |].
  by rewrite main_report_run in H.
Qed.

End failures.

(** Where the errors of a run come from, in the two parts of [main]
    around the construction of the client (line 140), which is not among
    them.  When lines 135-138 raise, and when after them lines 142-190
    raise, the last event of the run is the operation that raised, and
    operation and exception go together in one of these ways:
    [makedirs] on the output path, with [FileNotFoundError] (the path is
    empty), [NotADirectoryError] or [FileExistsError] (the path ends in
    a slash); the rendering of the document, with [DocumentError]; a
    request whose call raises, with [ServiceError]; a page request
    answered without content, with [TypeError]; the reading of a stage
    file, with [IsADirectoryError] or [UnicodeDecodeError]; the writing
    of a stage file, with [NotADirectoryError], with [TypeError] (the
    value is [None]) or with [UnicodeEncodeError] (the value is a text
    that has no encoding).  In particular nothing is printed, asked or
    written after the failure. *)
Theorem main_failure_causes (e : env) (args : cli_args) (w : world)
    (ex : exn) :
  (fst (main_output_dir args w) = Raise ex →
   ∃ before ev,
     trace (snd (main_output_dir args w)) = before ++ [ev] ∧
     caused_by e args before ev ex) ∧
  (∀ w0,
     main_output_dir args w = (Ok (), w0) →
     fst (main_stages e args w0) = Raise ex →
     ∃ before ev,
       trace (snd (main_stages e args w0)) = before ++ [ev] ∧
       caused_by e args before ev ex).
Proof.
  split.
  - destruct (main_output_dir args w) as [[[] | ex0] w'] eqn:Hrun; [done |].
    simpl. intros ?. simplify_eq. by eapply main_output_dir_raise.
  - intros w0 H0%main_output_dir_ok_exists.
    destruct (main_stages e args w0) as [[[] | ex0] w'] eqn:Hrun; [done |].
    simpl. intros ?. simplify_eq. by eapply main_stages_raise.
Qed.

(** The document given as the output directory: the pages are
    extracted, then the first write fails.  A regular file followed by a
    slash given as the output directory: [makedirs] fails. *)
Lemma main_failure_causes_witness :
  let w := {| fs := paper_fs; trace := [] |} in
  let w0 := {| fs := notes_file_fs; trace := [] |} in
  (∃ before ev,
     trace (snd (main_stages counting_env clashing_args w)) = before ++ [ev] ∧
     caused_by counting_env clashing_args before ev NotADirectoryError) ∧
  (∃ before ev,
     trace (snd (main_output_dir file_slash_args w0)) = before ++ [ev] ∧
     caused_by failing_env file_slash_args before ev FileExistsError).
Proof.
  split.
  - exact (proj2 (main_failure_causes counting_env clashing_args
                    {| fs := paper_fs; trace := [] |} NotADirectoryError)
             _ eq_refl eq_refl).
  - exact (proj1 (main_failure_causes failing_env file_slash_args
                    {| fs := notes_file_fs; trace := [] |} FileExistsError)
             eq_refl).
Defined.

(** ** The requests of a run, in order *)

Lemma request_free_requests w w' :
  extends request_free w w' → requests (trace w') = requests (trace w).
Proof.
  intros (new & -> & Hnew). rewrite requests_app.
  assert (requests new = []) as ->; [| by rewrite app_nil_r].
  induction Hnew as [|[] new Hev _ IH]; simpl; done.
Qed.

Lemma requests_only_of_requests s w w' :
  extends (requests_only_of s) w w' →
  ∃ rs, requests (trace w') = requests (trace w) ++ rs ∧
        Forall (issued_by s) rs.
Proof.
  intros (new & -> & Hnew). exists (requests new).
  split; [apply requests_app |].
  induction Hnew as [|[] new Hev _ IH]; simpl; try done.
  by constructor.
Qed.

Section request_order.
Import FSFacts.
Context (e : env) (args : cli_args).

Lemma main_output_dir_requests w :
  requests (trace (snd (main_output_dir args w))) = requests (trace w).
Proof.
  apply request_free_requests.
  by apply (keeps_main_output_dir (λ _, True) request_free).
Qed.

Lemma main_report_requests t1 t2 t3 t4 w :
  requests (trace (snd (main_report t1 t2 t3 t4 w))) = requests (trace w).
Proof.
  apply request_free_requests.
  by apply (keeps_main_report (λ _, True) request_free).
Qed.

Lemma save_result_requests filename text w :
  requests (trace (snd (save_result (output_dir args) filename text w)))
  = requests (trace w).
Proof.
  apply request_free_requests.
  apply (keeps_bind (λ _, True) request_free); try done.
  - by apply keeps_open_write.
  - intros _. by apply keeps_print.
Qed.

(** The requests of a stage are requests of its function. *)
Lemma stage_requests_issued t1 t2 t3 s w :
  ∃ rs,
    requests (trace (snd (stage_block e args t1 t2 t3 s w)))
    = requests (trace w) ++ rs ∧
    Forall (issued_by s) rs.
Proof.
  apply requests_only_of_requests.
  by apply (keeps_stage_block (λ _, True) (requests_only_of s)).
Qed.

(** A text stage makes at most one request. *)
Lemma text_stage_one_request t1 t2 t3 s w :
  s ≠ Extract →
  length (requests (trace (snd (stage_block e args t1 t2 t3 s w))))
  ≤ S (length (requests (trace w))).
Proof.
  intros Hs. destruct (fs w !! stage_key args s) as [n |] eqn:Hk.
  - destruct (run_stage_present request_free e args (λ _, I) (λ _, I)
                t1 t2 t3 s w) as [_ He]; [by rewrite Hk |].
    rewrite (request_free_requests _ _ He). lia.
  - rewrite stage_miss by done.
    set (w1 := log (EvPrint (miss_message s)) w).
    assert ((∃ req, stage_compute e args t1 t2 t3 s
                    = chat_completions_create e req) ∨
            stage_compute e args t1 t2 t3 s = raise TypeError)
      as [[req Hc] | Hc].
    { destruct s; [done | ..]; simpl.
      - destruct t1; [left; by eexists | by right].
      - destruct t2; [left; by eexists | by right].
      - destruct t2; [| by right]. destruct t3; [left; by eexists | by right]. }
    2: { rewrite Hc. simpl. rewrite !requests_app, !length_app. simpl. lia. }
    rewrite Hc. unfold bind at 1, chat_completions_create.
    destruct (create e _ req) as [text |]; simpl.
    + unfold bind at 1.
      pose proof (save_result_requests (stage_file s) text
                    (log (EvCreate req) w1)) as Hsave.
      destruct (save_result _ _ text _) as [[[] | ex] w3]; simpl in *;
        rewrite Hsave, !requests_app, !length_app; simpl; lia.
    + rewrite !requests_app, !length_app. simpl. lia.
Qed.

Lemma text_stage_requests t1 t2 t3 s w :
  s ≠ Extract →
  ∃ rs,
    requests (trace (snd (stage_block e args t1 t2 t3 s w)))
    = requests (trace w) ++ rs ∧
    at_most_one s rs.
Proof.
  intros Hs. destruct (stage_requests_issued t1 t2 t3 s w) as (rs & Hrs & Hi).
  exists rs. split; [done |].
  pose proof (text_stage_one_request t1 t2 t3 s w Hs) as Hlen.
  rewrite Hrs, length_app in Hlen.
  destruct rs as [|r [|r' rs]]; [by left | | simpl in Hlen; lia].
  right. exists r. split; [done |]. by inversion Hi.
Qed.

End request_order.

(** The requests of any run of [main], in the order they are made, are
    requests for pages, then at most one request for the main theorem,
    then at most one for the proof, then at most one for the
    validation; nothing else is asked of the service, and no stage is
    asked before an earlier one. *)
Theorem requests_in_stage_order (e : env) (args : cli_args) (w : world) :
  ∃ pages thm prf val,
    requests (trace (snd (main e args w)))
    = requests (trace w) ++ pages ++ thm ++ prf ++ val ∧
    Forall (issued_by Extract) pages ∧
    at_most_one MainTheorem thm ∧
    at_most_one Prove prf ∧
    at_most_one Validate val.
Proof.
  unfold main. unfold bind at 1.
  pose proof (main_output_dir_requests args w) as H0.
  destruct (main_output_dir args w) as [[[] | ex] w0]; simpl in H0;
    [| exists [], [], [], []; simpl; rewrite H0, app_nil_r;
       split_and!; [done | done | by left..]].
  unfold bind at 1.
  destruct (stage_requests_issued e args PyNone PyNone PyNone Extract w0)
    as (pages & H1 & Hpages).
  simpl in H1.
  destruct (main_extracted_text e args w0) as [[t1 | ex] w1]; simpl in H1;
    [| exists pages, [], [], []; simpl; rewrite H1, H0, !app_nil_r;
       split_and!; [done | done | by left..]].
  unfold bind at 1.
  destruct (text_stage_requests e args t1 PyNone PyNone MainTheorem w1)
    as (thm & H2 & Hthm); [done |].
  simpl in H2.
  destruct (main_main_theorem e args t1 w1) as [[t2 | ex] w2]; simpl in H2;
    [| exists pages, thm, [], []; simpl; rewrite H2, H1, H0, !app_nil_r;
       rewrite <- !app_assoc; split_and!; [done | done | done | by left..]].
  unfold bind at 1.
  destruct (text_stage_requests e args PyNone t2 PyNone Prove w2)
    as (prf & H3 & Hprf); [done |].
  simpl in H3.
  destruct (main_proof e args t2 w2) as [[t3 | ex] w3]; simpl in H3;
    [| exists pages, thm, prf, []; simpl;
       rewrite H3, H2, H1, H0, !app_nil_r, <- !app_assoc;
       split_and!; [done | done | done | done | by left]].
  unfold bind at 1.
  destruct (text_stage_requests e args PyNone t2 t3 Validate w3)
    as (val & H4 & Hval); [done |].
  simpl in H4.
  destruct (main_validation e args t2 t3 w3) as [[t4 | ex] w4]; simpl in H4.
  - exists pages, thm, prf, val.
    rewrite main_report_requests, H4, H3, H2, H1, H0, <- !app_assoc.
    by split_and!.
  - exists pages, thm, prf, val. simpl.
    rewrite H4, H3, H2, H1, H0, <- !app_assoc. by split_and!.
Qed.

(** ** The order in which the stage files appear *)

Section file_order.
Import Path PathFacts FS FSFacts.
Context (e : env) (args : cli_args).

(** A stage that raises leaves its file as it found it, or, when the
    value computed cannot be written, leaves the empty file that [open]
    made. *)
Lemma stage_block_raise_key t1 t2 t3 s w ex w' :
  stage_block e args t1 t2 t3 s w = (Raise ex, w') →
  fs w' !! stage_key args s = fs w !! stage_key args s ∨
  fs w' !! stage_key args s = Some (File "").
Proof.
  intros Hrun. destruct (fs w !! stage_key args s) as [n |] eqn:Hk.
  { destruct (run_stage_present (λ _, True) e args (λ _, I) (λ _, I)
                t1 t2 t3 s w) as [Hfs _]; [by rewrite Hk |].
    rewrite Hrun in Hfs. simpl in Hfs. left. by rewrite Hfs. }
  rewrite stage_miss in Hrun by done.
  pose proof (stage_compute_fs e args t1 t2 t3 s
                (log (EvPrint (miss_message s)) w)) as Hfs.
  apply bind_inv_Raise in Hrun as [Hc | (v & w1 & Hc & Hrun)];
    rewrite Hc in Hfs; simpl in Hfs; [left; by rewrite Hfs |].
  unfold save_result, bind in Hrun. rewrite open_write_run in Hrun.
  destruct (write _ "" (fs w1)) as [fs0 |] eqn:Hwr.
  - apply write_Ok in Hwr as ->.
    rewrite resolve_join in Hrun by apply stage_file_is_name.
    destruct (encode v); [by unfold print in Hrun |]. simplify_eq. simpl.
    right. apply lookup_insert_eq.
  - simplify_eq. simpl. left. by rewrite Hfs.
Qed.

Lemma stage_ok_key t1 t2 t3 s w v w' :
  stage_block e args t1 t2 t3 s w = (Ok v, w') →
  ∃ c, fs w' !! stage_key args s = Some (File c).
Proof. intros (text & c & _ & Hk & _)%stage_ok_file. by exists c. Qed.

(** The output directory block makes no stage file. *)
Lemma main_output_dir_stage_key s w :
  fs (snd (main_output_dir args w)) !! stage_key args s
  = fs w !! stage_key args s.
Proof.
  unfold main_output_dir, bind, os_path_exists, os_makedirs. simpl.
  destruct (path_exists (output_dir args) (fs w)); simpl; [done |].
  destruct (makedirs (output_dir args) (fs w)) eqn:Hmk; simpl; [| done].
  by apply makedirs_child.
Qed.

#[local] Ltac order_block t H F K :=
  lazymatch goal with
  | |- context [bind (stage_block ?e' ?a ?t1 ?t2 ?t3 ?s') _ ?w'] =>
      pose proof (λ k, stage_block_frame e' a t1 t2 t3 s' k w') as F;
      pose proof (stage_block_keeps_node e' a t1 t2 t3 s' w') as K;
      destruct (stage_block e' a t1 t2 t3 s' w') as [[t | ?] ?] eqn:H;
      simpl in F, K;
      [ rewrite (bind_Ok _ _ _ _ _ H); apply stage_ok_key in H as [? H]
      | rewrite (bind_Raise _ _ _ _ _ H);
        apply stage_block_raise_key in H as [H | H] ]
  end.

#[local] Ltac order_close Hnone :=
  let Hsome := fresh "Hsome" in
  simpl; intros Hsome;
  first
    [ exfalso;
      repeat match goal with
             | F : ∀ k, k ≠ _ → _ !! k = _ !! k |- _ =>
                 rewrite F in Hsome by (by intros ?%stage_key_inj)
             | H : fs _ !! _ = fs _ !! _ |- _ => rewrite H in Hsome
             end;
      rewrite Hnone in Hsome; by destruct Hsome
    | repeat constructor; eauto 10 ].

Lemma main_stages_file_order w s :
  fs w !! stage_key args s = None →
  is_Some (fs (snd (main_stages e args w)) !! stage_key args s) →
  Forall (λ s', ∃ c, fs (snd (main_stages e args w)) !! stage_key args s'
                     = Some (File c))
         (stages_before s ++ [s]).
Proof.
  intros Hnone. unfold main_stages.
  change (main_extracted_text e args)
    with (stage_block e args PyNone PyNone PyNone Extract).
  order_block t1 H1 F1 K1; [| destruct s; order_close Hnone ..].
  change (main_main_theorem e args t1)
    with (stage_block e args t1 PyNone PyNone MainTheorem).
  order_block t2 H2 F2 K2; [| destruct s; order_close Hnone ..].
  change (main_proof e args t2) with (stage_block e args PyNone t2 PyNone Prove).
  order_block t3 H3 F3 K3; [| destruct s; order_close Hnone ..].
  change (main_validation e args t2 t3)
    with (stage_block e args PyNone t2 t3 Validate).
  order_block t4 H4 F4 K4; [| destruct s; order_close Hnone ..].
  rewrite main_report_run. destruct s; order_close Hnone.
Qed.

End file_order.

(** The stage files appear in the order of the stages: when the file of
    a stage is not there before a run of [main] and is there after it,
    however the run ended, then after the run the files of all the
    earlier stages and the file of the stage itself are regular files.
    No run leaves the file of a later stage that it made without the
    files of the stages it was computed from. *)
Theorem stage_files_appear_in_order (e : env) (args : cli_args) (w : world)
    (s : stage) :
  FS.path_exists (stage_path args s) (fs w) = false →
  FS.path_exists (stage_path args s) (fs (snd (main e args w))) = true →
  Forall (λ s', ∃ c, FS.file_at (stage_path args s')
                       (fs (snd (main e args w))) = Some c)
         (stages_before s ++ [s]).
Proof.
  intros Hnone%stage_absent. rewrite FSFacts.path_exists_stage.
  intros Hsome%bool_decide_eq_true.
  rewrite <- (main_output_dir_stage_key args s) in Hnone.
  revert Hsome. rewrite main_unfold.
  destruct (main_output_dir args w) as [[[] | ex] w0] eqn:H0.
  - rewrite (bind_Ok _ _ _ _ _ H0). simpl in Hnone. intros Hsome.
    eapply Forall_impl; [by apply main_stages_file_order |].
    intros s' [c Hc]. exists c. by apply FSFacts.file_at_stage.
  - rewrite (bind_Raise _ _ _ _ _ H0). simpl in *. rewrite Hnone.
    by intros [? ?].
Qed.

Lemma stage_files_appear_in_order_witness :
  let w := {| fs := paper_fs; trace := [] |} in
  fst (main flaky_env sample_args w) = Raise ServiceError ∧
  Forall (λ s', ∃ c, FS.file_at (stage_path sample_args s')
                       (fs (snd (main flaky_env sample_args w))) = Some c)
         [Extract; MainTheorem].
Proof.
  split; [reflexivity |].
  exact (stage_files_appear_in_order flaky_env sample_args
           {| fs := paper_fs; trace := [] |} MainTheorem eq_refl eq_refl).
Defined.

(** ** The data URL of a page *)

Lemma string_ind3 (P : string → Prop) :
  P "" →
  (∀ a, P (String a "")) →
  (∀ a b, P (String a (String b ""))) →
  (∀ a b c rest, P rest → P (String a (String b (String c rest)))) →
  ∀ s, P s.
Proof.
  intros H0 H1 H2 H3 s.
  enough (P s ∧ (∀ a, P (String a s)) ∧ (∀ a b, P (String a (String b s))))
    by tauto.
  induction s as [|c s (IH0 & IH1 & IH2)]; [by split_and! |].
  split_and!; [apply IH1 | intros a; apply IH2 | intros a b; by apply H3].
Qed.

#[local] Ltac b64_arith := zify; Z.to_euclidean_division_equations; lia.

Lemma b64_digit_mod n : b64_digit (n `mod` 64) = b64_digit n.
Proof. unfold b64_digit. by rewrite N.Div0.mod_mod. Qed.

Lemma b64_index_digit_small (k : nat) :
  k < 64 → b64_index (b64_digit (N.of_nat k)) = Some (N.of_nat k).
Proof.
  intros Hk. do 64 (destruct k as [|k]; [reflexivity |]). lia.
Qed.

Lemma b64_index_digit n :
  b64_index (b64_digit n) = Some (n `mod` 64)%N.
Proof.
  rewrite <- b64_digit_mod.
  assert (n `mod` 64 < 64)%N as Hlt by (apply N.mod_lt; lia).
  rewrite <- (N2Nat.id (n `mod` 64)). apply b64_index_digit_small. lia.
Qed.

Lemma b64_digit_not_pad n : b64_digit n ≠ "="%char.
Proof.
  intros H. pose proof (b64_index_digit n) as Hi. rewrite H in Hi.
  discriminate.
Qed.

Lemma ascii_of_N_eq n a : n = N_of_ascii a → ascii_of_N n = a.
Proof. intros ->. apply ascii_N_embedding. Qed.

Lemma b64decode_encode data : b64decode (b64encode data) = Some data.
Proof.
  induction data as [| a | a b | a b c rest IH] using string_ind3.
  - done.
  - simpl. rewrite !b64_index_digit.
    pose proof (N_ascii_bounded a) as Ha.
    do 2 f_equal. apply ascii_of_N_eq. b64_arith.
  - simpl. rewrite !b64_index_digit.
    rewrite bool_decide_eq_false_2 by apply b64_digit_not_pad.
    simpl.
    pose proof (N_ascii_bounded a) as Ha.
    pose proof (N_ascii_bounded b) as Hb.
    f_equal. f_equal; [| f_equal]; apply ascii_of_N_eq; b64_arith.
  - simpl. rewrite !b64_index_digit, IH.
    rewrite !bool_decide_eq_false_2 by apply b64_digit_not_pad.
    pose proof (N_ascii_bounded a) as Ha.
    pose proof (N_ascii_bounded b) as Hb.
    pose proof (N_ascii_bounded c) as Hc.
    f_equal. f_equal; [| f_equal; [| f_equal]]; apply ascii_of_N_eq;
      b64_arith.
Qed.


Lemma strip_prefix_app p s : strip_prefix p (p +:+ s) = Some s.
Proof.
  induction p as [|a p IH]; [done |].
  rewrite append_cons. simpl. by rewrite bool_decide_eq_true_2.
Qed.

(** The request of [process_image_with_gpt4o] carries the page unchanged:
    the bytes of the PNG are read back from the data URL of the request, so
    pages with different bytes are never sent as the same request. *)
Theorem page_request_carries_page (image : image) :
  page_bytes (image_request image) = Some (png image).
Proof.
  unfold page_bytes, image_request. cbn [messages content].
  rewrite strip_prefix_app. apply b64decode_encode.
Qed.
